(** * Doctor-AI WhatsApp assistant: slot booking and conversation step machine

    A shallow embedding of

    - [services/supabase_service.py]: the record-store operations
      ([book_slot], [cancel_appointment], [find_or_create_availability_slot],
      the patient-profile updates),
    - [services/gemini_service.py]: the intent classification adapter
      ([analyze_message], [_clean_gemini_response], [_get_fallback_response]),
    - [main.py]: the webhook, its onboarding chain and its conversation
      router ([whatsapp_webhook], [get_booking_context]).

    Every [async def] is a computation in the monad [M]: it threads the
    record store and may raise a Python exception.  Sleeps and log calls
    have no effect on the store and are left out. *)

From Stdlib Require Import ZArith List String Ascii Bool Lia PeanoNat.
Import ListNotations.

Local Open Scope Z_scope.
Local Open Scope list_scope.

Set Warnings "-register-all".

(** ** Python values *)

(** The dynamically typed values that travel through JSON columns and
    through the classifier's reply.  A [dict] keeps its insertion order. *)
Inductive pyval : Type :=
| VNone
| VBool (b : bool)
| VInt (z : Z)
| VStr (s : string)
| VList (l : list pyval)
| VDict (d : list (string * pyval)).

(** The exception classes the code distinguishes in its [except] clauses.
    [APIError] stands for whatever the store client raises from
    [execute()]; [JSONDecodeError] is a subclass of [ValueError];
    [RecursionError] is what [json.loads] raises on a text nested too
    deeply. *)
Inductive exn : Type :=
| ValueError | IndexError | KeyError | TypeError | AttributeError
| JSONDecodeError | RecursionError | APIError | MaxRetriesExceeded.

Inductive result (A : Type) : Type :=
| Ok (a : A)
| Raise (e : exn).
Arguments Ok {A} a.
Arguments Raise {A} e.

(** ** The record store *)

Definition row_id := Z.

(** Instants are counted in microseconds since the epoch, the resolution of
    a Python [datetime]. *)
Definition instant := Z.

(** Table [doctor_availability]. *)
Record slot_row : Type := mk_slot {
  slot_id : row_id;
  slot_start_time : instant;
  slot_end_time : instant;
  is_booked : bool
}.

(** Table [appointments]; [availability_id] is a nullable reference. *)
Record appt_row : Type := mk_appt {
  appt_id : row_id;
  appt_patient_id : row_id;
  availability_id : option row_id;
  appointment_time : instant;
  status : string
}.

(** Table [patients].  Profile columns hold whatever was written to them;
    [onboarding_step] is a nullable text column. *)
Record patient_row : Type := mk_patient {
  patient_id : row_id;
  phone_number : string;
  full_name : pyval;
  age : pyval;
  gender : pyval;
  email : pyval;
  notes : pyval;
  onboarding_step : option string;
  onboarding_completed : bool
}.

(** What the next call of [execute()] does: it answers, it comes back with
    empty [data] and no effect, or it raises. *)
Inductive fault : Type := Answer | NoData | Throw.

(** A message handed to the messaging channel by [send_whatsapp_message]. *)
Record outbound : Type := mk_outbound { to_number : string; message_body : string }.

Record world : Type := mk_world {
  doctor_availability : list slot_row;
  appointments : list appt_row;
  patients : list patient_row;
  next_id : row_id;                (* the id the store gives to the next inserted row *)
  supabase_client : bool;          (* [get_supabase_client()] is not [None] *)
  faults : list fault;             (* outcomes of the coming [execute()] calls *)
  outbox : list outbound;
  default_onboarding_step : option string  (* column default of [patients.onboarding_step] *)
}.

Definition with_slots (l : list slot_row) (w : world) : world :=
  mk_world l (appointments w) (patients w) (next_id w) (supabase_client w) (faults w) (outbox w)
           (default_onboarding_step w).
Definition with_appointments (l : list appt_row) (w : world) : world :=
  mk_world (doctor_availability w) l (patients w) (next_id w) (supabase_client w) (faults w) (outbox w)
           (default_onboarding_step w).
Definition with_patients (l : list patient_row) (w : world) : world :=
  mk_world (doctor_availability w) (appointments w) l (next_id w) (supabase_client w) (faults w) (outbox w)
           (default_onboarding_step w).
Definition with_next_id (n : row_id) (w : world) : world :=
  mk_world (doctor_availability w) (appointments w) (patients w) n (supabase_client w) (faults w) (outbox w)
           (default_onboarding_step w).
Definition with_faults (fs : list fault) (w : world) : world :=
  mk_world (doctor_availability w) (appointments w) (patients w) (next_id w) (supabase_client w) fs (outbox w)
           (default_onboarding_step w).
Definition with_outbox (o : list outbound) (w : world) : world :=
  mk_world (doctor_availability w) (appointments w) (patients w) (next_id w) (supabase_client w) (faults w) o
           (default_onboarding_step w).

(** ** The monad of the [async] functions *)

Definition M (A : Type) : Type := world -> result A * world.

Definition ret {A} (a : A) : M A := fun w => (Ok a, w).

Definition bind {A B} (m : M A) (k : A -> M B) : M B :=
  fun w => match m w with
           | (Ok a, w') => k a w'
           | (Raise e, w') => (Raise e, w')
           end.

Definition raise {A} (e : exn) : M A := fun w => (Raise e, w).

(** [try: m  except <classes>: h]; an exception outside [catches] goes on. *)
Definition try_except {A} (m : M A) (catches : exn -> bool) (h : exn -> M A) : M A :=
  fun w => match m w with
           | (Ok a, w') => (Ok a, w')
           | (Raise e, w') => if catches e then h e w' else (Raise e, w')
           end.

(** [except Exception] *)
Definition any_exception (e : exn) : bool := true.

Declare Scope py_scope.
Delimit Scope py_scope with py.
Notation "x <- m ;; k" := (bind m (fun x => k))
  (at level 100, m at next level, right associativity) : py_scope.
Notation "m ;;; k" := (bind m (fun _ => k))
  (at level 100, right associativity) : py_scope.
Local Open Scope py_scope.

(** ** Queries *)

Module Table.

(** [update(...).<filters>.execute()]: the matching rows are rewritten in
    place and returned as they are after the update. *)
Definition update {R} (p : R -> bool) (f : R -> R) (rows : list R) : list R :=
  map (fun r => if p r then f r else r) rows.

Definition updated {R} (p : R -> bool) (f : R -> R) (rows : list R) : list R :=
  map f (filter p rows).

(** [select('*').<filters>.execute()] *)
Definition select {R} (p : R -> bool) (rows : list R) : list R := filter p rows.

End Table.

(** [execute()] consults the fault script; an empty script answers. *)
Definition execute {A} (query : world -> list A * world) : M (list A) :=
  fun w =>
    match faults w with
    | [] => let '(d, w') := query w in (Ok d, w')
    | f :: fs =>
        let w0 := with_faults fs w in
        match f with
        | Answer => let '(d, w') := query w0 in (Ok d, w')
        | NoData => (Ok [], w0)
        | Throw => (Raise APIError, w0)
        end
    end.

Definition set_is_booked (b : bool) (r : slot_row) : slot_row :=
  mk_slot (slot_id r) (slot_start_time r) (slot_end_time r) b.

Definition set_status (s : string) (a : appt_row) : appt_row :=
  mk_appt (appt_id a) (appt_patient_id a) (availability_id a) (appointment_time a) s.

Definition update_slots (p : slot_row -> bool) (f : slot_row -> slot_row) : M (list slot_row) :=
  execute (fun w =>
    (Table.updated p f (doctor_availability w),
     with_slots (Table.update p f (doctor_availability w)) w)).

Definition select_slots (p : slot_row -> bool) : M (list slot_row) :=
  execute (fun w => (Table.select p (doctor_availability w), w)).

Definition insert_slot (start_time end_time : instant) (booked : bool) : M (list slot_row) :=
  execute (fun w =>
    let r := mk_slot (next_id w) start_time end_time booked in
    ([r], with_next_id (next_id w + 1) (with_slots (doctor_availability w ++ [r]) w))).

Definition update_appointments (p : appt_row -> bool) (f : appt_row -> appt_row) : M (list appt_row) :=
  execute (fun w =>
    (Table.updated p f (appointments w),
     with_appointments (Table.update p f (appointments w)) w)).

Definition select_appointments (p : appt_row -> bool) : M (list appt_row) :=
  execute (fun w => (Table.select p (appointments w), w)).

Definition insert_appointment (pid : row_id) (avail : option row_id) (t : instant) (st : string)
  : M (list appt_row) :=
  execute (fun w =>
    let a := mk_appt (next_id w) pid avail t st in
    ([a], with_next_id (next_id w + 1) (with_appointments (appointments w ++ [a]) w))).

Definition update_patients (p : patient_row -> bool) (f : patient_row -> patient_row)
  : M (list patient_row) :=
  execute (fun w =>
    (Table.updated p f (patients w),
     with_patients (Table.update p f (patients w)) w)).

Definition select_patients (p : patient_row -> bool) : M (list patient_row) :=
  execute (fun w => (Table.select p (patients w), w)).

(** [get_supabase_client()] *)
Definition get_supabase_client : M bool := fun w => (Ok (supabase_client w), w).

(** ** Retries *)

Definition MAX_RETRIES : nat := 3.

(** The loop [for attempt in range(MAX_RETRIES)] of [retry_with_backoff],
    entered at [attempt] with [left] iterations to go. *)
Fixpoint retry_loop {A} (func : M A) (attempt left : nat) : M A :=
  match left with
  | O => raise MaxRetriesExceeded
  | S left' =>
      try_except func any_exception
        (fun e => if Nat.eqb attempt (MAX_RETRIES - 1) then raise e
                  else retry_loop func (S attempt) left')
  end.

Definition retry_with_backoff {A} (func : M A) : M A := retry_loop func 0%nat MAX_RETRIES.

Definition execute_with_retry {A} (operation_func : M A) : M A := retry_with_backoff operation_func.

(** ** Slot inventory and appointment ledger *)

Definition book_slot_try (slot : row_id) (patient : row_id) : M (option appt_row) :=
  supabase_client <- get_supabase_client ;;
  if negb supabase_client then ret None
  else
    (* atomically mark the slot as booked: [.eq('id', slot_id).eq('is_booked', False)] *)
    slot_update <- update_slots (fun r => (slot_id r =? slot) && negb (is_booked r))
                                (set_is_booked true) ;;
    match slot_update with
    | [] => ret None
    | slot_row :: _ =>
        appointment_result <-
          insert_appointment patient (Some slot) (slot_start_time slot_row) "confirmed" ;;
        match appointment_result with
        | appointment :: _ => ret (Some appointment)
        | [] =>
            (* un-book the slot *)
            update_slots (fun r => slot_id r =? slot) (set_is_booked false) ;;;
            ret None
        end
    end.

Definition book_slot (slot : row_id) (patient : row_id) : M (option appt_row) :=
  try_except (book_slot_try slot patient) any_exception (fun _ => ret None).

(** A value used as an id in [.eq('id', v)]: it selects the rows carrying
    that id, and nothing when it is not an id at all. *)
Definition id_is (v : pyval) (i : row_id) : bool :=
  match v with
  | VInt z => z =? i
  | _ => false
  end.

(** Truth value of [if v:] *)
Definition py_truthy (v : pyval) : bool :=
  match v with
  | VNone => false
  | VBool b => b
  | VInt z => negb (z =? 0)
  | VStr s => negb (String.eqb s EmptyString)
  | VList l => match l with [] => false | _ => true end
  | VDict d => match d with [] => false | _ => true end
  end.

Definition _cancel_operation (appointment_id availability : pyval) : M bool :=
  supabase_client <- get_supabase_client ;;
  if negb supabase_client then ret false
  else
    (* Step 1: update the appointment status to 'cancelled' *)
    appt_update_res <-
      update_appointments (fun a => id_is appointment_id (appt_id a)) (set_status "cancelled") ;;
    match appt_update_res with
    | [] => ret false
    | _ :: _ =>
        (* Step 2: if it was linked to a specific slot, free up that slot *)
        (if py_truthy availability
         then update_slots (fun r => id_is availability (slot_id r)) (set_is_booked false) ;;;
              ret tt
         else ret tt) ;;;
        ret true
    end.

Definition cancel_appointment (appointment_id availability : pyval) : M bool :=
  try_except (execute_with_retry (_cancel_operation appointment_id availability))
             any_exception (fun _ => ret false).

Definition create_availability_slot (start_time end_time : instant) : M (option slot_row) :=
  try_except
    (supabase_client <- get_supabase_client ;;
     if negb supabase_client then ret None
     else
       result <- insert_slot start_time end_time false ;;
       match result with
       | new_slot :: _ => ret (Some new_slot)
       | [] => ret None
       end)
    any_exception (fun _ => ret None).

Definition _find_or_create_slot_operation (start_time end_time : instant) : M (option slot_row) :=
  supabase_client <- get_supabase_client ;;
  if negb supabase_client then ret None
  else
    (* first, check if a slot already exists for this exact time *)
    existing_result <- select_slots (fun r => slot_start_time r =? start_time) ;;
    match existing_result with
    | existing_slot :: _ =>
        if is_booked existing_slot then ret None else ret (Some existing_slot)
    | [] =>
        (* check for any overlapping slots (conflict detection) *)
        overlap_result <-
          select_slots (fun r => (slot_start_time r <? end_time)
                                 && (slot_end_time r >? start_time)
                                 && is_booked r) ;;
        match overlap_result with
        | _ :: _ => ret None
        | [] =>
            create_result <- insert_slot start_time end_time false ;;
            match create_result with
            | new_slot :: _ => ret (Some new_slot)
            | [] => ret None
            end
        end
    end.

Definition find_or_create_availability_slot (start_time end_time : instant)
  : M (option slot_row) :=
  try_except (retry_with_backoff (_find_or_create_slot_operation start_time end_time))
             any_exception (fun _ => ret None).

(** ** The slot inventory as the specification words it *)

Module Spec.

(** The window of [r] overlaps [[start_time, end_time)]. *)
Definition overlaps (r : slot_row) (start_time end_time : instant) : bool :=
  (slot_start_time r <? end_time) && (start_time <? slot_end_time r).

(** Section 4.1, [find_or_create]: look up a slot at exactly
    [start_time]; found and free, return it; found and booked, conflict;
    not found, conflict when a booked slot overlaps, otherwise insert a
    new free slot and return it. *)
Definition find_or_create (start_time end_time : instant) (w : world)
  : option slot_row * world :=
  match find (fun r => slot_start_time r =? start_time) (doctor_availability w) with
  | Some r => if is_booked r then (None, w) else (Some r, w)
  | None =>
      if existsb (fun r => is_booked r && overlaps r start_time end_time)
                 (doctor_availability w)
      then (None, w)
      else
        let r := mk_slot (next_id w) start_time end_time false in
        (Some r, with_next_id (next_id w + 1) (with_slots (doctor_availability w ++ [r]) w))
  end.

End Spec.

Module Chain.

Local Open Scope string_scope.

(** Section 4.3: [start -> awaiting_name -> awaiting_age -> awaiting_sex ->
    awaiting_email -> completed]; [None] where the chain has no next step. *)
Definition next_step (step : string) : option string :=
  if String.eqb step "start" then Some "awaiting_name"
  else if String.eqb step "awaiting_name" then Some "awaiting_age"
  else if String.eqb step "awaiting_age" then Some "awaiting_sex"
  else if String.eqb step "awaiting_sex" then Some "awaiting_email"
  else if String.eqb step "awaiting_email" then Some "completed"
  else None.


End Chain.

(** ** Text *)

(** A [str] is a Rocq [string]; its characters stand for the code points
    below 256, and Python's character predicates are given on that range. *)
Module Str.

Local Open Scope string_scope.

Definition code (c : ascii) : N := N_of_ascii c.

Definition between (lo hi : N) (c : ascii) : bool :=
  (N.leb lo (code c) && N.leb (code c) hi)%bool.

Definition is_code (n : N) (c : ascii) : bool := N.eqb (code c) n.

(** [c.isspace()]: TAB..CR, FS..US, SPACE, NEL, NBSP. *)
Definition isspace (c : ascii) : bool :=
  between 9 13 c || between 28 32 c || is_code 133 c || is_code 160 c.

(** [c.isalpha()]: the letters of Basic Latin and Latin-1. *)
Definition isalpha (c : ascii) : bool :=
  between 65 90 c || between 97 122 c
  || is_code 170 c || is_code 181 c || is_code 186 c
  || between 192 214 c || between 216 246 c || between 248 255 c.

(** The decimal digits [0-9]: what [int()] and [\d] accept. *)
Definition isdecimal (c : ascii) : bool := between 48 57 c.

(** [c.isdigit()]: the decimal digits and the superscripts 1, 2, 3. *)
Definition isdigit_char (c : ascii) : bool :=
  isdecimal c || is_code 178 c || is_code 179 c || is_code 185 c.

Definition lower_char (c : ascii) : ascii :=
  if between 65 90 c || between 192 214 c || between 216 222 c
  then ascii_of_N (code c + 32) else c.

(** Upper case of the letters [a-z]; the code upper-cases ASCII words only. *)
Definition upper_char (c : ascii) : ascii :=
  if between 97 122 c then ascii_of_N (code c - 32) else c.

Fixpoint map (f : ascii -> ascii) (s : string) : string :=
  match s with
  | EmptyString => EmptyString
  | String c s' => String (f c) (map f s')
  end.

Fixpoint forallb (p : ascii -> bool) (s : string) : bool :=
  match s with
  | EmptyString => true
  | String c s' => p c && forallb p s'
  end.

Fixpoint count_char (p : ascii -> bool) (s : string) : nat :=
  match s with
  | EmptyString => O
  | String c s' => if p c then S (count_char p s') else count_char p s'
  end.

Definition is_empty (s : string) : bool :=
  match s with EmptyString => true | _ => false end.

(** [s.lower()] *)
Definition lower (s : string) : string := map lower_char s.

(** [s.upper()] *)
Definition upper (s : string) : string := map upper_char s.

(** [s.capitalize()] *)
Definition capitalize (s : string) : string :=
  match s with
  | EmptyString => EmptyString
  | String c s' => String (upper_char c) (lower s')
  end.

(** [s.isdigit()] *)
Definition isdigit (s : string) : bool := negb (is_empty s) && forallb isdigit_char s.

Fixpoint lstrip (s : string) : string :=
  match s with
  | EmptyString => EmptyString
  | String c s' => if isspace c then lstrip s' else s
  end.

Fixpoint rstrip (s : string) : string :=
  match s with
  | EmptyString => EmptyString
  | String c s' =>
      let t := rstrip s' in
      if isspace c && is_empty t then EmptyString else String c t
  end.

(** [s.strip()] *)
Definition strip (s : string) : string := rstrip (lstrip s).

Definition starts_with_space (s : string) : bool :=
  match s with
  | EmptyString => true
  | String c _ => isspace c
  end.

(** [s.split()]: the maximal runs of characters that are not white space. *)
Fixpoint split (s : string) : list string :=
  match s with
  | EmptyString => []
  | String c s' =>
      if isspace c then split s'
      else if starts_with_space s' then String c EmptyString :: split s'
      else match split s' with
           | tok :: toks => String c tok :: toks
           | [] => [String c EmptyString]
           end
  end.

(** [s.startswith(p)] *)
Fixpoint startswith (p s : string) : bool :=
  match p, s with
  | EmptyString, _ => true
  | String a p', String b s' => Ascii.eqb a b && startswith p' s'
  | String _ _, EmptyString => false
  end.

Fixpoint drop (n : nat) (s : string) : string :=
  match n, s with
  | O, _ => s
  | S n', String _ s' => drop n' s'
  | S _, EmptyString => EmptyString
  end.

Fixpoint take (n : nat) (s : string) : string :=
  match n, s with
  | S n', String c s' => String c (take n' s')
  | _, _ => EmptyString
  end.

(** [sub in s] *)
Fixpoint contains (sub s : string) : bool :=
  startswith sub s ||
  match s with
  | EmptyString => false
  | String _ s' => contains sub s'
  end.

(** [s.replace(old, new)] for a non-empty [old]: the occurrences are taken
    from left to right and do not overlap. *)
Fixpoint replace_from (fuel : nat) (old new s : string) : string :=
  match fuel with
  | O => s
  | S fuel' =>
      match s with
      | EmptyString => EmptyString
      | String c s' =>
          if startswith old s
          then new ++ replace_from fuel' old new (drop (String.length old) s)
          else String c (replace_from fuel' old new s')
      end
  end.

Definition replace (old new s : string) : string :=
  replace_from (S (String.length s)) old new s.

(** [s.find(c)] for a one-character needle; [None] is Python's [-1]. *)
Fixpoint find_char (c : ascii) (s : string) : option nat :=
  match s with
  | EmptyString => None
  | String a s' =>
      if Ascii.eqb a c then Some O
      else match find_char c s' with Some i => Some (S i) | None => None end
  end.

(** [s.rfind(c)] *)
Fixpoint rfind_char (c : ascii) (s : string) : option nat :=
  match s with
  | EmptyString => None
  | String a s' =>
      match rfind_char c s' with
      | Some i => Some (S i)
      | None => if Ascii.eqb a c then Some O else None
      end
  end.

(** [s[i:j]] for [0 <= i], [0 <= j] *)
Definition slice (i j : nat) (s : string) : string := take (j - i) (drop i s).

(** [s[-n:]] *)
Definition last_chars (n : nat) (s : string) : string := drop (String.length s - n) s.

(** ['x' * n] *)
Fixpoint repeat (c : ascii) (n : nat) : string :=
  match n with
  | O => EmptyString
  | S n' => String c (repeat c n')
  end.

Definition digit_value (c : ascii) : Z := Z.of_N (code c) - 48.

Fixpoint decimal_value (acc : Z) (s : string) : Z :=
  match s with
  | EmptyString => acc
  | String c s' => decimal_value (10 * acc + digit_value c) s'
  end.

(** The digits of an [int()] literal after its sign: decimal digits, with
    single underscores allowed between two digits. *)
Fixpoint int_digits (after_digit : bool) (s : string) : option string :=
  match s with
  | EmptyString => if after_digit then Some EmptyString else None
  | String c s' =>
      if isdecimal c then
        match int_digits true s' with
        | Some ds => Some (String c ds)
        | None => None
        end
      else if Ascii.eqb c "_" && after_digit then int_digits false s'
      else None
  end.

(** The white space [int()] skips around a literal: TAB..CR and SPACE,
    and NEL and NBSP, which it first turns into spaces.  FS..US are white
    space for [str.strip] but not for [int()]. *)
Definition isspace_int (c : ascii) : bool :=
  between 9 13 c || is_code 32 c || is_code 133 c || is_code 160 c.

Fixpoint lstrip_int (s : string) : string :=
  match s with
  | EmptyString => EmptyString
  | String c s' => if isspace_int c then lstrip_int s' else s
  end.

Fixpoint rstrip_int (s : string) : string :=
  match s with
  | EmptyString => EmptyString
  | String c s' =>
      let t := rstrip_int s' in
      if isspace_int c && is_empty t then EmptyString else String c t
  end.

(** [sys.int_info.default_max_str_digits]: a literal with more digits
    than this, leading zeros counted and underscores not, is refused. *)
Definition max_str_digits : nat := 4300.

(** The value of the digits [ds], within the limit on their number. *)
Definition limited_value (ds : string) : option Z :=
  if (String.length ds <=? max_str_digits)%nat then Some (decimal_value 0 ds) else None.

(** The digits after the sign, valued. *)
Definition literal_value (s : string) : option Z :=
  match int_digits false s with
  | Some ds => limited_value ds
  | None => None
  end.

(** [int(s)]; [None] is [ValueError]. *)
Definition int (s : string) : option Z :=
  match rstrip_int (lstrip_int s) with
  | EmptyString => None
  | String c s' =>
      if Ascii.eqb c "-" then
        match literal_value s' with Some v => Some (- v) | None => None end
      else if Ascii.eqb c "+" then literal_value s'
      else literal_value (String c s')
  end.

End Str.

(** ** Regular expressions *)

(** The pattern of [main.py] needs classes, sequence and repetition only;
    [re.match] asks whether some prefix of the text is in the language. *)
Module Re.

Inductive regex : Type :=
| Never
| Eps
| Class (p : ascii -> bool)
| Cat (a b : regex)
| Alt (a b : regex)
| Star (a : regex).

Definition Plus (a : regex) : regex := Cat a (Star a).

Fixpoint nullable (r : regex) : bool :=
  match r with
  | Never => false
  | Eps => true
  | Class _ => false
  | Cat a b => nullable a && nullable b
  | Alt a b => nullable a || nullable b
  | Star _ => true
  end.

Fixpoint deriv (c : ascii) (r : regex) : regex :=
  match r with
  | Never => Never
  | Eps => Never
  | Class p => if p c then Eps else Never
  | Cat a b =>
      if nullable a then Alt (Cat (deriv c a) b) (deriv c b) else Cat (deriv c a) b
  | Alt a b => Alt (deriv c a) (deriv c b)
  | Star a => Cat (deriv c a) (Star a)
  end.

(** [re.match(r, s)] is not [None] *)
Fixpoint match_ (r : regex) (s : string) : bool :=
  nullable r ||
  match s with
  | EmptyString => false
  | String c s' => match_ (deriv c r) s'
  end.

Definition is_char (a : ascii) : ascii -> bool := fun c => Ascii.eqb c a.
Definition not_char (a : ascii) : ascii -> bool := fun c => negb (Ascii.eqb c a).

(** [r"[^@]+@[^@]+\.[^@]+"] *)
Definition email_pattern : regex :=
  Cat (Plus (Class (not_char "@")))
      (Cat (Class (is_char "@"))
           (Cat (Plus (Class (not_char "@")))
                (Cat (Class (is_char "."))
                     (Plus (Class (not_char "@")))))).

End Re.

(** ** Dictionaries *)

Module Dict.

Fixpoint get (k : string) (d : list (string * pyval)) : option pyval :=
  match d with
  | [] => None
  | (k', v) :: d' => if String.eqb k k' then Some v else get k d'
  end.

(** [k in d] *)
Definition mem (k : string) (d : list (string * pyval)) : bool :=
  match get k d with Some _ => true | None => false end.

(** [d[k] = v]: an existing key keeps its place, a new one goes last. *)
Fixpoint set (k : string) (v : pyval) (d : list (string * pyval)) : list (string * pyval) :=
  match d with
  | [] => [(k, v)]
  | (k', v') :: d' => if String.eqb k k' then (k, v) :: d' else (k', v') :: set k v d'
  end.

(** [d.update(e)] *)
Definition update (e d : list (string * pyval)) : list (string * pyval) :=
  fold_left (fun acc kv => set (fst kv) (snd kv) acc) e d.

End Dict.

(** ** The collaborators outside the repository *)

(** One call of [generate_content_async] followed by [response.text]: it
    raises, or it yields the text ([None] when the reply carries none). *)
Inductive gemini_reply : Type :=
| GenRaises
| GenText (text : option string).

(** What [create_calendar_event] hands back, as far as the webhook reads it:
    its ["status"] and the ["google"] entry of its ["calendar_links"]. *)
Record calendar_event : Type := mk_calendar_event {
  cal_status : string;
  cal_google_link : option string
}.

(** The libraries and services the code calls; they are parameters of the
    development.  [json_loads] gives the parsed value or the exception
    [json.loads] raises: [JSONDecodeError] for a text that is no JSON,
    [RecursionError] for one nested too deeply, a plain [ValueError] for
    an integer beyond the digit limit;
    [re_search] gives the groups of the match, group 0 being the whole
    match; [dateparser_parse] gives the hour and the minute of the parsed
    time. *)
Record env : Type := mk_env {
  json_loads : string -> result pyval;
  json_dumps : pyval -> string;
  re_search : string -> string -> option (nat -> string);
  dateparser_parse : string -> option (Z * Z);
  gemini_model : bool;
  generate_content : string -> option string -> nat -> gemini_reply;
  now : instant;
  server_utc_offset : Z;
  create_calendar_event : slot_row -> pyval -> option calendar_event;
  twilio_sends : bool;
  generate_dermatology_response : string -> string;
  status_updates_sent : nat
}.

(** ** Intent classification adapter *)

Module Gemini.
Section WithEnv.

Variable E : env.
Local Open Scope string_scope.

Definition dquote : ascii := ascii_of_nat 34.
Definition is_dquote (c : ascii) : bool := Ascii.eqb c dquote.

Definition _clean_gemini_response (response_text : string) : string :=
  if Str.is_empty response_text then ""
  else
    (* remove markdown formatting *)
    let response_text :=
      if Str.startswith "```json" response_text
      then Str.strip (Str.replace "```" "" (Str.replace "```json" "" response_text))
      else if Str.startswith "```" response_text
      then Str.strip (Str.replace "```" "" response_text)
      else response_text in
    match Str.find_char "{" response_text with
    | None => ""
    | Some start_idx =>
        match Str.rfind_char "}" response_text with
        | None => ""
        | Some end_idx =>
            let json_portion :=
              Str.strip (Str.slice start_idx (end_idx + 1) response_text) in
            let open_count := Str.count_char (Re.is_char "{") json_portion in
            let close_count := Str.count_char (Re.is_char "}") json_portion in
            let json_portion :=
              if negb (Nat.eqb open_count close_count) && Nat.ltb close_count open_count
              then json_portion ++ Str.repeat "}" (open_count - close_count)
              else json_portion in
            if Nat.odd (Str.count_char is_dquote json_portion)
            then json_portion ++ String dquote EmptyString
            else json_portion
        end
    end.

Definition base_entities : list (string * pyval) :=
  [ ("slot_number", VNone); ("profile_choice", VNone); ("email", VNone);
    ("age", VNone); ("gender", VNone); ("blood_group", VNone);
    ("current_symptoms", VNone); ("allergies", VNone);
    ("date_preference", VNone); ("time_preference", VNone);
    ("custom_request", VNone) ].

Definition required_entities : list (string * pyval) := base_entities.

Definition response (intent : string) (entities : list (string * pyval)) : pyval :=
  VDict [("intent", VStr intent); ("entities", VDict entities)].

(** [any(w in text for w in words)] *)
Definition any_in (words : list string) (text : string) : bool :=
  existsb (fun w => Str.contains w text) words.

(** The first word of [words] found in [text]. *)
Definition first_in (words : list string) (text : string) : option string :=
  find (fun w => Str.contains w text) words.

Definition mem_str (s : string) (l : list string) : bool :=
  existsb (String.eqb s) l.

Definition step_is (current_step : option string) (s : string) : bool :=
  match current_step with
  | Some c => String.eqb c s
  | None => false
  end.

Definition opt_str (o : option string) : pyval :=
  match o with Some s => VStr s | None => VNone end.

Definition email_pattern : string := "\b[A-Za-z0-9._%+-]+@[A-Za-z0-9.-]+\.[A-Z|a-z]{2,}\b".
Definition clock_pattern : string := "\d{1,2}[:.]?\d{0,2}\s*(am|pm)".
Definition clock_pattern_any_case : string := "(\d{1,2}[:.]?\d{0,2}\s*(am|pm|AM|PM))".

Definition days_of_week : list string :=
  ["monday"; "tuesday"; "wednesday"; "thursday"; "friday"; "saturday"; "sunday"].
Definition time_patterns : list string :=
  ["am"; "pm"; "morning"; "afternoon"; "evening"; "night"].
Definition date_words : list string := ["tomorrow"; "today"; "next"; "this"].
Definition blood_groups : list string := ["a+"; "a-"; "b+"; "b-"; "ab+"; "ab-"; "o+"; "o-"].
Definition gender_words : list (string * string) :=
  [("male", "Male"); ("female", "Female"); ("other", "Other"); ("m", "Male"); ("f", "Female")].

Definition _get_fallback_response
  (message : string) (current_step : option string) (is_onboarding_complete : bool)
  : result pyval :=
  if step_is current_step "awaiting_custom_date" then
    Ok (response "request_custom_date"
          (Dict.set "date_preference" (VStr (Str.strip message)) base_entities))
  else
    let message_lower := Str.strip (Str.lower message) in
    let email_match := re_search E email_pattern message in
    let has_day := any_in days_of_week message_lower in
    let has_time :=
      any_in time_patterns message_lower
      || match re_search E clock_pattern message_lower with Some _ => true | None => false end in
    let has_date_word := any_in date_words message_lower in
    let has_other_request := any_in ["other"; "different"; "custom"; "change"] message_lower in
    let blood_group_match :=
      match first_in blood_groups message_lower with
      | Some bg => Some (Str.upper bg)
      | None => None
      end in
    let gender_match :=
      match find (fun wg => Str.contains (fst wg) message_lower) gender_words with
      | Some wg => Some (snd wg)
      | None => None
      end in
    (* [re.search(r'^(\d+)$', message_lower.strip())] and its group 1 *)
    let number_value :=
      let t := Str.strip message_lower in
      if negb (Str.is_empty t) && Str.forallb Str.isdecimal t then Some t else None in
    let has_symptoms :=
      any_in ["pain"; "ache"; "fever"; "cough"; "headache"; "hurt"; "sick"; "feel";
              "symptom"; "today"; "currently"] message_lower in
    let has_profile_request :=
      any_in ["profile"; "update"; "change"; "modify"; "information"] message_lower in
    let has_quick_booking :=
      any_in ["quick"; "fast"; "use existing"; "same info"] message_lower in
    let has_keep_request :=
      any_in ["keep"; "maintain"; "same"; "no change"; "dont change"; "don't change"]
             message_lower in
    if mem_str message_lower ["other"; "others"; "different"] then
      Ok (response "request_custom_date"
            (Dict.set "custom_request" (VStr "other") base_entities))
    else
      (* numbers, by context: [Ok None] when no branch returns, [Raise]
         when [int(number_value)] raises *)
      let by_number : result (option pyval) :=
        match number_value with
        | None => Ok None
        | Some number_value =>
            if step_is current_step "current_symptoms" then
              if mem_str number_value ["1"; "2"; "3"; "4"; "5"]
              then Ok (Some (response "select_slot"
                               (Dict.set "slot_number" (VStr number_value) base_entities)))
              else Ok None
            else if is_onboarding_complete
                    && match current_step with
                       | None => true
                       | Some c => mem_str c ["start"; "completed"]
                       end then
              if mem_str number_value ["1"; "2"; "3"; "4"]
              then Ok (Some (response "profile_choice"
                               (Dict.set "profile_choice" (VStr number_value) base_entities)))
              else Ok None
            else if step_is current_step "age" then
              match Str.int number_value with
              | Some age_val =>
                  if (1 <=? age_val)%Z && (age_val <=? 120)%Z
                  then Ok (Some (response "provide_age"
                                   (Dict.set "age" (VStr number_value) base_entities)))
                  else Ok None
              | None => Raise ValueError
              end
            else Ok None
        end in
      match by_number with
      | Raise e => Raise e
      | Ok (Some r) => Ok r
      | Ok None =>
        Ok (
          if has_keep_request
             && match current_step with
                | Some c => negb (Str.is_empty c) && Str.startswith "update_" c
                | None => false
                end then
            response "keep_current_value" base_entities
          else
            match email_match with
            | Some m => response "provide_email" (Dict.set "email" (VStr (m O)) base_entities)
            | None =>
                match gender_match, step_is current_step "gender" with
                | Some g, true =>
                    response "provide_gender" (Dict.set "gender" (VStr g) base_entities)
                | _, _ =>
                    match blood_group_match, step_is current_step "blood_group" with
                    | Some bg, true =>
                        response "provide_blood_group"
                          (Dict.set "blood_group" (VStr bg) base_entities)
                    | _, _ =>
                        if (has_day && has_time) || (has_date_word && has_time)
                           || has_other_request then
                          let custom_req :=
                            if has_other_request then Some "different timing" else None in
                          let date_pref :=
                            match first_in days_of_week message_lower with
                            | Some day => Some (Str.capitalize day)
                            | None => first_in date_words message_lower
                            end in
                          let time_pref :=
                            match re_search E clock_pattern_any_case message with
                            | Some m => Some (m 1%nat)
                            | None => first_in time_patterns message_lower
                            end in
                          response "request_custom_date"
                            (Dict.set "custom_request" (opt_str custom_req)
                               (Dict.set "time_preference" (opt_str time_pref)
                                  (Dict.set "date_preference" (opt_str date_pref)
                                     base_entities)))
                        else if has_quick_booking then
                          response "quick_book_with_profile" base_entities
                        else if has_profile_request then
                          response "update_profile_only" base_entities
                        else if step_is current_step "allergies"
                                || step_is current_step "update_allergies" then
                          let allergy_value :=
                            if mem_str message_lower ["none"; "no"; "nothing"; "nil"]
                            then "none" else Str.strip message in
                          response "provide_allergies"
                            (Dict.set "allergies" (VStr allergy_value) base_entities)
                        else if step_is current_step "current_symptoms" && has_symptoms
                                && match number_value with None => true | Some _ => false end
                        then
                          response "provide_current_symptoms"
                            (Dict.set "current_symptoms" (VStr (Str.strip message))
                               base_entities)
                        else if mem_str message_lower ["hi"; "hello"; "hey"; "start"] then
                          response "greeting" base_entities
                        else if any_in ["book appointment"; "book"; "appointment"; "yes"]
                                       message_lower then
                          response "start_onboarding" base_entities
                        else response "unknown" base_entities
                    end
                end
            end
        )
      end.

Definition max_retries : nat := 3.

(** [result['entities'].update({k: v for k, v in required_entities.items()
    if k not in result['entities']})] *)
Definition fill_entities (entities : list (string * pyval)) : list (string * pyval) :=
  Dict.update (filter (fun kv => negb (Dict.mem (fst kv) entities)) required_entities)
              entities.

(** One pass of the body of the retry loop of [analyze_message]:
    [Some r] is how the call ends in this pass, [None] is [continue].  The
    fallback is a function of its arguments: where it raises inside the
    [try], each handler that catches the exception calls it again and it
    raises again, so the pass ends with that exception. *)
Definition attempt_once (message : string) (current_step : option string)
  (is_onboarding_complete : bool) (attempt : nat) : option (result pyval) :=
  let last := Nat.eqb attempt (max_retries - 1) in
  let fall_back : option (result pyval) :=
    if last then Some (_get_fallback_response message current_step is_onboarding_complete)
    else None in
  match generate_content E message current_step attempt with
  | GenRaises => fall_back                      (* [except Exception] *)
  | GenText text =>
      let response_text :=
        match text with
        | Some t => if Str.is_empty t then "" else Str.strip t
        | None => ""
        end in
      if Str.is_empty response_text then fall_back
      else
        let cleaned_text := _clean_gemini_response response_text in
        if Str.is_empty cleaned_text then fall_back
        else
          match json_loads E cleaned_text with
          | Raise _ => fall_back                (* [except json.JSONDecodeError], [except Exception] *)
          | Ok (VDict result) =>
              if Dict.mem "intent" result && Dict.mem "entities" result then
                match Dict.get "entities" result with
                | Some (VDict entities) =>
                    Some (Ok (VDict (Dict.set "entities" (VDict (fill_entities entities))
                                              result)))
                | _ => fall_back                (* no [update] on it: [except Exception] *)
                end
              else fall_back
          | Ok _ => fall_back
          end
  end.

Fixpoint attempts (message : string) (current_step : option string)
  (is_onboarding_complete : bool) (attempt left : nat) : result pyval :=
  match left with
  | O => _get_fallback_response message current_step is_onboarding_complete
  | S left' =>
      match attempt_once message current_step is_onboarding_complete attempt with
      | Some r => r
      | None => attempts message current_step is_onboarding_complete (S attempt) left'
      end
  end.

(** A value or an exception, as a computation that leaves the store alone. *)
Definition lift {A} (r : result A) : M A := fun w => (r, w).

Definition analyze_message (message : string) (current_step : option string)
  (is_onboarding_complete : bool) : M pyval :=
  try_except
    (if negb (gemini_model E)
     then lift (_get_fallback_response message current_step is_onboarding_complete)
     else lift (attempts message current_step is_onboarding_complete 0%nat max_retries))
    any_exception
    (fun _ => lift (_get_fallback_response message current_step is_onboarding_complete)).

End WithEnv.
End Gemini.

(** ** Patient profile and step state *)

Definition set_onboarding_step (step : option string) (p : patient_row) : patient_row :=
  mk_patient (patient_id p) (phone_number p) (full_name p) (age p) (gender p) (email p)
             (notes p) step (onboarding_completed p).

Definition set_onboarding_completed (b : bool) (p : patient_row) : patient_row :=
  mk_patient (patient_id p) (phone_number p) (full_name p) (age p) (gender p) (email p)
             (notes p) (onboarding_step p) b.

(** Write [v] to the profile column [field]. *)
Definition set_profile_column (field : string) (v : pyval) (p : patient_row) : patient_row :=
  if String.eqb field "email" then
    mk_patient (patient_id p) (phone_number p) (full_name p) (age p) (gender p) v
               (notes p) (onboarding_step p) (onboarding_completed p)
  else if String.eqb field "age" then
    mk_patient (patient_id p) (phone_number p) (full_name p) v (gender p) (email p)
               (notes p) (onboarding_step p) (onboarding_completed p)
  else if String.eqb field "gender" then
    mk_patient (patient_id p) (phone_number p) (full_name p) (age p) v (email p)
               (notes p) (onboarding_step p) (onboarding_completed p)
  else if String.eqb field "full_name" then
    mk_patient (patient_id p) (phone_number p) v (age p) (gender p) (email p)
               (notes p) (onboarding_step p) (onboarding_completed p)
  else if String.eqb field "notes" then
    mk_patient (patient_id p) (phone_number p) (full_name p) (age p) (gender p) (email p)
               v (onboarding_step p) (onboarding_completed p)
  else p.

Definition insert_patient (phone name : string) : M (list patient_row) :=
  execute (fun w =>
    let p := mk_patient (next_id w) phone (VStr name) VNone VNone VNone VNone
                        (default_onboarding_step w) false in
    ([p], with_next_id (next_id w + 1) (with_patients (patients w ++ [p]) w))).

Definition first_row {R} (data : list R) : M (option R) :=
  match data with
  | r :: _ => ret (Some r)
  | [] => ret None
  end.

Definition find_or_create_patient (phone : string) : M (option patient_row) :=
  try_except
    (execute_with_retry
       (supabase_client <- get_supabase_client ;;
        if negb supabase_client then ret None
        else
          result <- select_patients (fun p => String.eqb (phone_number p) phone) ;;
          match result with
          | p :: _ => ret (Some p)
          | [] =>
              (* the last four characters of the number make the default name *)
              result <- insert_patient phone
                          (String.append "Patient " (Str.last_chars 4 phone)) ;;
              first_row result
          end))
    any_exception (fun _ => ret None).

Definition get_patient_onboarding_status (patient : row_id) : M (option patient_row) :=
  try_except
    (execute_with_retry
       (supabase_client <- get_supabase_client ;;
        if negb supabase_client then ret None
        else
          result <- select_patients (fun p => patient_id p =? patient) ;;
          first_row result))
    any_exception (fun _ => ret None).

Definition update_patient_onboarding_step (patient : row_id) (step : string)
  : M (option patient_row) :=
  try_except
    (execute_with_retry
       (supabase_client <- get_supabase_client ;;
        if negb supabase_client then ret None
        else
          result <- update_patients (fun p => patient_id p =? patient)
                                    (set_onboarding_step (Some step)) ;;
          first_row result))
    any_exception (fun _ => ret None).

Definition update_patient_email (patient : row_id) (address : string)
  : M (option patient_row) :=
  try_except
    (execute_with_retry
       (supabase_client <- get_supabase_client ;;
        if negb supabase_client then ret None
        else
          result <- update_patients (fun p => patient_id p =? patient)
                                    (set_profile_column "email" (VStr address)) ;;
          first_row result))
    any_exception (fun _ => ret None).

Definition allowed_fields : list string := ["email"; "age"; "gender"; "full_name"; "notes"]%string.

(** [int(v)] on a value *)
Definition py_int (v : pyval) : M Z :=
  match v with
  | VInt z => ret z
  | VBool b => ret (Z.b2z b)
  | VStr s => match Str.int s with Some z => ret z | None => raise ValueError end
  | _ => raise TypeError
  end.

Definition update_profile_field (patient : row_id) (field_name : string) (field_value : pyval)
  : M (option patient_row) :=
  try_except
    (supabase_client <- get_supabase_client ;;
     if negb supabase_client then ret None
     else if negb (existsb (String.eqb field_name) allowed_fields) then ret None
     else
       (* special handling for age validation; [None] is an early [return None] *)
       checked <-
         (if String.eqb field_name "age" then
            try_except
              (age_int <- py_int field_value ;;
               if negb ((1 <=? age_int) && (age_int <=? 120)) then ret None
               else ret (Some (VInt age_int)))
              (fun e => match e with ValueError | JSONDecodeError => true | _ => false end)
              (fun _ => ret None)
          else ret (Some field_value)) ;;
       match checked with
       | None => ret None
       | Some v =>
           result <- update_patients (fun p => patient_id p =? patient)
                                     (set_profile_column field_name v) ;;
           first_row result
       end)
    any_exception (fun _ => ret None).

Definition complete_profile_update (patient : row_id) : M (option patient_row) :=
  try_except
    (supabase_client <- get_supabase_client ;;
     if negb supabase_client then ret None
     else
       result <- update_patients (fun p => patient_id p =? patient)
                   (fun p => set_onboarding_step (Some "completed"%string)
                               (set_onboarding_completed true p)) ;;
       first_row result)
    any_exception (fun _ => ret None).

(** [.order('appointment_time', desc=False)] *)
Fixpoint insert_by_time (a : appt_row) (l : list appt_row) : list appt_row :=
  match l with
  | [] => [a]
  | b :: l' =>
      if appointment_time a <? appointment_time b then a :: l else b :: insert_by_time a l'
  end.

Definition order_by_time (l : list appt_row) : list appt_row :=
  fold_right insert_by_time [] l.

Definition get_upcoming_appointments (now_utc : instant) (patient : row_id)
  : M (list appt_row) :=
  try_except
    (execute_with_retry
       (supabase_client <- get_supabase_client ;;
        if negb supabase_client then ret []
        else
          execute (fun w =>
            (order_by_time
               (Table.select (fun a => (appt_patient_id a =? patient)
                                       && String.eqb (status a) "confirmed"
                                       && (now_utc <=? appointment_time a))
                             (appointments w)),
             w))))
    any_exception (fun _ => ret []).

(** ** Calendar arithmetic *)

Module Calendar.

Definition microsecond : Z := 1.
Definition second : Z := 1000000.
Definition minute : Z := 60 * second.
Definition hour : Z := 60 * minute.
Definition day : Z := 24 * hour.

Definition is_leap (y : Z) : bool :=
  ((y mod 4 =? 0) && negb (y mod 100 =? 0)) || (y mod 400 =? 0).

Definition days_in_month (y m : Z) : Z :=
  if m =? 2 then (if is_leap y then 29 else 28)
  else if (m =? 4) || (m =? 6) || (m =? 9) || (m =? 11) then 30
  else 31.

(** Days from 1970-01-01 to the proleptic Gregorian date [y-m-d]. *)
Definition days_from_civil (y m d : Z) : Z :=
  let y' := if m <=? 2 then y - 1 else y in
  let era := y' / 400 in
  let yoe := y' - era * 400 in
  let mp := if m <=? 2 then m + 9 else m - 3 in
  let doy := (153 * mp + 2) / 5 + d - 1 in
  let doe := yoe * 365 + yoe / 4 - yoe / 100 + doy in
  era * 146097 + doe - 719468.

(** The date (year, month, day) of a day number. *)
Definition civil_from_days (z : Z) : Z * Z * Z :=
  let z := z + 719468 in
  let era := z / 146097 in
  let doe := z - era * 146097 in
  let yoe := (doe - doe / 1460 + doe / 36524 - doe / 146096) / 365 in
  let y := yoe + era * 400 in
  let doy := doe - (365 * yoe + yoe / 4 - yoe / 100) in
  let mp := (5 * doy + 2) / 153 in
  let d := doy - (153 * mp + 2) / 5 + 1 in
  let m := if mp <? 10 then mp + 3 else mp - 9 in
  ((if m <=? 2 then y + 1 else y), m, d).

(** [ZoneInfo("Asia/Kolkata")]: UTC+05:30, the offset in force since 1945. *)
Definition kolkata_offset : Z := 5 * hour + 30 * minute.

(** [datetime(year, month, day, hour, minute, 0, tzinfo=local_tz)] as an
    instant; [None] is the constructor's [ValueError]. *)
Definition local_datetime (y m d h mi : Z) : option instant :=
  if (1 <=? y) && (y <=? 9999) && (1 <=? m) && (m <=? 12)
     && (1 <=? d) && (d <=? days_in_month y m)
     && (0 <=? h) && (h <=? 23) && (0 <=? mi) && (mi <=? 59)
  then Some (days_from_civil y m d * day + h * hour + mi * minute - kolkata_offset)
  else None.

Definition month_name (m : Z) : string :=
  nth (Z.to_nat (m - 1))
      ["January"; "February"; "March"; "April"; "May"; "June"; "July"; "August";
       "September"; "October"; "November"; "December"]%string ""%string.

(** [(dt.strftime('%B'), dt.year, dt.month)] for the day number [z]. *)
Definition month_option (z : Z) : string * Z * Z :=
  let '(y, m, _) := civil_from_days z in (month_name m, y, m).

End Calendar.

(** ** Operations on dynamically typed values *)

Module Py.

(** [v.get(k, default)] *)
Definition get (v : pyval) (k : string) (default : pyval) : M pyval :=
  match v with
  | VDict d => ret (match Dict.get k d with Some x => x | None => default end)
  | _ => raise AttributeError
  end.

(** [v[k]] for a string key *)
Definition item (v : pyval) (k : string) : M pyval :=
  match v with
  | VDict d => match Dict.get k d with Some x => ret x | None => raise KeyError end
  | _ => raise TypeError
  end.

(** [v[k] = x] for a string key *)
Definition set_item (v : pyval) (k : string) (x : pyval) : M pyval :=
  match v with
  | VDict d => ret (VDict (Dict.set k x d))
  | _ => raise TypeError
  end.

(** [len(v)] *)
Definition len (v : pyval) : M Z :=
  match v with
  | VList l => ret (Z.of_nat (List.length l))
  | VDict d => ret (Z.of_nat (List.length d))
  | VStr s => ret (Z.of_nat (String.length s))
  | _ => raise TypeError
  end.

(** [v[i]] for an integer [0 <= i] *)
Definition index (v : pyval) (i : Z) : M pyval :=
  match v with
  | VList l => match nth_error l (Z.to_nat i) with
               | Some x => ret x
               | None => raise IndexError
               end
  | VStr s => match String.get (Z.to_nat i) s with
              | Some c => ret (VStr (String c EmptyString))
              | None => raise IndexError
              end
  | VDict _ => raise KeyError
  | _ => raise TypeError
  end.

(** [a, b, c = v] *)
Definition unpack3 (v : pyval) : M (pyval * pyval * pyval) :=
  match v with
  | VList [a; b; c] => ret (a, b, c)
  | VList _ => raise ValueError
  | VStr (String a (String b (String c EmptyString))) =>
      ret (VStr (String a EmptyString), VStr (String b EmptyString),
           VStr (String c EmptyString))
  | VStr _ => raise ValueError
  | VDict [(a, _); (b, _); (c, _)] => ret (VStr a, VStr b, VStr c)
  | VDict _ => raise ValueError
  | _ => raise TypeError
  end.

(** An argument that must be an [int] *)
Definition as_int (v : pyval) : M Z :=
  match v with
  | VInt z => ret z
  | VBool b => ret (Z.b2z b)
  | _ => raise TypeError
  end.

(** [int(s)] on text *)
Definition int_of_str (s : string) : M Z :=
  match Str.int s with
  | Some z => ret z
  | None => raise ValueError
  end.

End Py.

(** [except (ValueError, IndexError)] *)
Definition value_or_index_error (e : exn) : bool :=
  match e with
  | ValueError | JSONDecodeError | IndexError => true
  | _ => false
  end.

(** [except ValueError] *)
Definition value_error (e : exn) : bool :=
  match e with
  | ValueError | JSONDecodeError => true
  | _ => false
  end.

(** [except (json.JSONDecodeError, TypeError)] *)
Definition decode_or_type_error (e : exn) : bool :=
  match e with
  | JSONDecodeError | TypeError => true
  | _ => false
  end.

(** ** Replies *)

(** One [response.message(...)].  The fixed texts are spelled out; a
    formatted text keeps the values that are formatted into it. *)
Inductive message : Type :=
| Say (text : string)
| ThanksAskAge (first_name : string)
| ProfileComplete
| MonthMenu (intro : string) (months : list (string * Z * Z))
| MonthChosen (name : pyval)
| AppointmentMenu (intro : string) (times : list instant)
| BookingConfirmed (start_time_local : instant) (google_link : option string)
| SlotAlreadyTaken (start_time_local : instant)
| Hello (first_name : string).

(** The body of the TwiML document that is returned. *)
Definition response := list message.

Definition appointment_row_value (a : appt_row) : pyval :=
  VDict [ ("id", VInt (appt_id a));
          ("patient_id", VInt (appt_patient_id a));
          ("availability_id",
            match availability_id a with Some i => VInt i | None => VNone end);
          ("appointment_time", VInt (appointment_time a));
          ("status", VStr (status a)) ]%string.

(** ** The webhook *)

Module Main.
Section WithEnv.

Variable E : env.
Local Open Scope string_scope.

Definition step_is := Gemini.step_is.

Definition store_booking_context (patient : row_id) (context : pyval) : M unit :=
  update_profile_field patient "notes" (VStr (json_dumps E context)) ;;;
  ret tt.

Definition get_booking_context (patient : patient_row) : M pyval :=
  if py_truthy (notes patient) then
    try_except
      (match notes patient with
       | VStr s =>
           match json_loads E s with
           | Ok v => ret v
           | Raise e => raise e
           end
       | _ => raise TypeError
       end)
      decode_or_type_error
      (fun _ => ret (VDict []))
  else ret (VDict []).

(** [send_whatsapp_message]; the splitting of long texts is left out. *)
Definition send_whatsapp_message (phone : string) (body : string) : M bool :=
  if twilio_sends E
  then fun w => (Ok true, with_outbox (outbox w ++ [mk_outbound phone body]) w)
  else ret false.

(** [send_status_updates]: the loop stops after the update during which
    the main task finished. *)
Definition send_status_updates (phone : string) : M unit :=
  fold_right (fun text k => send_whatsapp_message phone text ;;; k) (ret tt)
    (firstn (status_updates_sent E)
            ["Searching..."; "Retrieving..."; "Thinking..."; "Analysing..."]).

Definition name_prompt : string := "Please enter a valid full name (e.g., 'John Doe').".
Definition age_prompt : string := "Please enter a valid age as a number (e.g., '35').".
Definition sex_prompt : string := "Please enter a valid option: Male, Female, or Other.".
Definition email_prompt : string := "That doesn't look like a valid email. Please try again.".

(** 1. Gated onboarding flow for new users *)
Definition onboarding_flow (patient : patient_row) (current_step : option string)
  (Body : string) : M response :=
  let id := patient_id patient in
  if step_is current_step "start" then
    update_patient_onboarding_step id "awaiting_name" ;;;
    ret [Say "Welcome to Dr. Sunil Mishra's Clinic! To create your patient profile, let's start with your full name."]
  else if step_is current_step "awaiting_name" then
    let full_name := Str.strip Body in
    if (List.length (Str.split full_name) <? 2)%nat
       || negb (Str.forallb Str.isalpha (Str.replace " " "" full_name))
    then ret [Say name_prompt]
    else
      update_profile_field id "full_name" (VStr full_name) ;;;
      update_patient_onboarding_step id "awaiting_age" ;;;
      ret [ThanksAskAge (hd "" (Str.split full_name))]
  else if step_is current_step "awaiting_age" then
    let age_str := Str.strip Body in
    if Str.isdigit age_str then
      n <- Py.int_of_str age_str ;;
      if (1 <=? n)%Z && (n <=? 120)%Z then
        update_profile_field id "age" (VInt n) ;;;
        update_patient_onboarding_step id "awaiting_sex" ;;;
        ret [Say "Great. What is your sex? (e.g., Male, Female, Other)"]
      else ret [Say age_prompt]
    else ret [Say age_prompt]
  else if step_is current_step "awaiting_sex" then
    let sex := Str.lower (Str.strip Body) in
    if Gemini.mem_str sex ["male"; "female"; "other"] then
      update_profile_field id "gender" (VStr (Str.capitalize sex)) ;;;
      update_patient_onboarding_step id "awaiting_email" ;;;
      ret [Say "Almost done! What is your email address? We'll use this for booking confirmations."]
    else ret [Say sex_prompt]
  else if step_is current_step "awaiting_email" then
    let address := Str.strip Body in
    if Re.match_ Re.email_pattern address then
      update_patient_email id address ;;;
      complete_profile_update id ;;;
      ret [ProfileComplete]
    else ret [Say email_prompt]
  else ret [].

(** [today = datetime.now()] and the three month choices 31 days apart. *)
Definition month_options : list (string * Z * Z) :=
  let today := (now E + server_utc_offset E) / Calendar.day in
  map (fun i => Calendar.month_option (today + 31 * i)) [0; 1; 2]%Z.

Definition month_options_value (months : list (string * Z * Z)) : pyval :=
  VList (map (fun '(name, y, m) => VList [VStr name; VInt y; VInt m]) months).

Definition hours_reply : string :=
  "Our clinic hours are from 10 AM to 10 PM. Please choose a time within this range.".
Definition past_reply : string := "That time is in the past. Please choose a future time.".

Definition cancellation_choice (patient : patient_row) (Body : string) : M response :=
  context <- get_booking_context patient ;;
  appointments_to_cancel <- Py.get context "appointments" (VList []) ;;
  try_except
    (choice <- Py.int_of_str (Str.strip Body) ;;
     in_range <- (if (1 <=? choice)%Z
                  then n <- Py.len appointments_to_cancel ;; ret (choice <=? n)%Z
                  else ret false) ;;
     if in_range then
       appointment_to_cancel <- Py.index appointments_to_cancel (choice - 1) ;;
       appointment_id <- Py.item appointment_to_cancel "id" ;;
       availability <- Py.item appointment_to_cancel "availability_id" ;;
       success <- cancel_appointment appointment_id availability ;;
       update_patient_onboarding_step (patient_id patient) "start" ;;;
       store_booking_context (patient_id patient) (VDict []) ;;;
       ret [Say (if success then "Your appointment has been successfully cancelled."
                 else "Sorry, there was an error cancelling your appointment.")]
     else ret [Say "That's not a valid number. Please choose from the list above."])
    value_or_index_error
    (fun _ => ret [Say "Please reply with just the number of the appointment to cancel."]).

Definition reschedule_choice (patient : patient_row) (Body : string) : M response :=
  context <- get_booking_context patient ;;
  appointments_to_reschedule <- Py.get context "appointments" (VList []) ;;
  try_except
    (choice <- Py.int_of_str (Str.strip Body) ;;
     in_range <- (if (1 <=? choice)%Z
                  then n <- Py.len appointments_to_reschedule ;; ret (choice <=? n)%Z
                  else ret false) ;;
     if in_range then
       appointment_to_reschedule <- Py.index appointments_to_reschedule (choice - 1) ;;
       appointment_id <- Py.item appointment_to_reschedule "id" ;;
       availability <- Py.item appointment_to_reschedule "availability_id" ;;
       cancel_appointment appointment_id availability ;;;
       (* now, start the booking flow *)
       let months := month_options in
       update_patient_onboarding_step (patient_id patient) "awaiting_month_selection" ;;;
       store_booking_context (patient_id patient)
         (VDict [("month_options", month_options_value months)]) ;;;
       ret [MonthMenu "Your old appointment is cancelled. Let's find a new time. Please choose a month:" months]
     else ret [Say "That's not a valid number. Please choose from the list above."])
    value_or_index_error
    (fun _ => ret [Say "Please reply with just the number of the appointment to reschedule."]).

Definition month_selection (patient : patient_row) (Body : string) : M response :=
  context <- get_booking_context patient ;;
  options <- Py.get context "month_options" (VList []) ;;
  try_except
    (choice <- Py.int_of_str (Str.strip Body) ;;
     in_range <- (if (1 <=? choice)%Z
                  then n <- Py.len options ;; ret (choice <=? n)%Z
                  else ret false) ;;
     if in_range then
       chosen <- Py.index options (choice - 1) ;;
       unpacked <- Py.unpack3 chosen ;;
       let '(name, year, month_num) := unpacked in
       store_booking_context (patient_id patient)
         (VDict [("year", year); ("month", month_num); ("month_name", name)]) ;;;
       update_patient_onboarding_step (patient_id patient) "awaiting_date_selection" ;;;
       ret [MonthChosen name]
     else ret [Say "Please select a valid number from the list of months."])
    value_or_index_error
    (fun _ => ret [Say "Please reply with just the number for your chosen month (e.g., '1')."]).

Definition date_selection (patient : patient_row) (Body : string) : M response :=
  context <- get_booking_context patient ;;
  try_except
    (day <- Py.int_of_str (Str.strip Body) ;;
     if negb ((1 <=? day)%Z && (day <=? 31)%Z) then raise ValueError
     else
       context <- Py.set_item context "day" (VInt day) ;;
       store_booking_context (patient_id patient) context ;;;
       update_patient_onboarding_step (patient_id patient) "awaiting_time_selection" ;;;
       ret [Say "Perfect. Please enter your preferred time (e.g., '4 pm', '15:30'). Our hours are 10 AM to 10 PM."])
    value_error
    (fun _ => ret [Say "Please reply with a valid date number (e.g., '15')."]).

Definition time_selection (patient : patient_row) (Body : string) : M response :=
  context <- get_booking_context patient ;;
  match dateparser_parse E (Str.strip Body) with
  | None => ret [Say "I didn't understand that time. Please try again (e.g., '3pm', '14:00')."]
  | Some (parsed_hour, parsed_minute) =>
      year <- Py.item context "year" ;;
      month <- Py.item context "month" ;;
      day <- Py.item context "day" ;;
      year <- Py.as_int year ;;
      month <- Py.as_int month ;;
      day <- Py.as_int day ;;
      match Calendar.local_datetime year month day parsed_hour parsed_minute with
      | None => raise ValueError
      | Some start_time_local =>
          if negb ((10 <=? parsed_hour)%Z && (parsed_hour <? 22)%Z) then
            ret [Say hours_reply]
          else if (start_time_local <? now E)%Z then
            ret [Say past_reply]
          else
            let end_time_utc := (start_time_local + 30 * Calendar.minute)%Z in
            let start_time_utc := start_time_local in
            available_slot <- find_or_create_availability_slot start_time_utc end_time_utc ;;
            match available_slot with
            | Some available_slot =>
                appointment <- book_slot (slot_id available_slot) (patient_id patient) ;;
                match appointment with
                | Some _ =>
                    store_booking_context (patient_id patient) (VDict []) ;;;
                    update_patient_onboarding_step (patient_id patient) "start" ;;;
                    let calendar_event :=
                      create_calendar_event E available_slot (email patient) in
                    let link :=
                      match calendar_event with
                      | Some ev =>
                          if String.eqb (cal_status ev) "success"
                          then match cal_google_link ev with
                               | Some l => if Str.is_empty l then None else Some l
                               | None => None
                               end
                          else None
                      | None => None
                      end in
                    ret [BookingConfirmed start_time_local link]
                | None =>
                    ret [Say "Sorry, that time was just booked. Please try another time."]
                end
            | None => ret [SlotAlreadyTaken start_time_local]
            end
      end
  end.

(** The branch [elif current_step.startswith('awaiting_')] *)
Definition multi_step (patient : patient_row) (current_step Body : string) : M response :=
  if String.eqb current_step "awaiting_cancellation_choice" then
    cancellation_choice patient Body
  else if String.eqb current_step "awaiting_reschedule_choice" then
    reschedule_choice patient Body
  else if String.eqb current_step "awaiting_month_selection" then
    month_selection patient Body
  else if String.eqb current_step "awaiting_date_selection" then
    date_selection patient Body
  else if String.eqb current_step "awaiting_time_selection" then
    time_selection patient Body
  else ret [].

Definition reset_reply : string :=
  "It looks like you were in the middle of a conversation. Let's start over. How can I help you today?".

(** The forced reset *)
Definition forced_reset (patient : patient_row) : M response :=
  update_patient_onboarding_step (patient_id patient) "start" ;;;
  store_booking_context (patient_id patient) (VDict []) ;;;
  ret [Say reset_reply].

Definition list_appointments (patient : patient_row) (none_reply intro next_step : string)
  : M response :=
  upcoming_appointments <- get_upcoming_appointments (now E) (patient_id patient) ;;
  match upcoming_appointments with
  | [] => ret [Say none_reply]
  | _ :: _ =>
      store_booking_context (patient_id patient)
        (VDict [("appointments", VList (map appointment_row_value upcoming_appointments))]) ;;;
      update_patient_onboarding_step (patient_id patient) next_step ;;;
      ret [AppointmentMenu intro
             (map (fun a => (appointment_time a + Calendar.kolkata_offset)%Z)
                  upcoming_appointments)]
  end.

Definition dermatology_query (phone Body : string) : M response :=
  send_status_updates phone ;;;
  let dermatology_response := generate_dermatology_response E Body in
  send_whatsapp_message phone "Drafting..." ;;;
  send_whatsapp_message phone
    (if Str.is_empty dermatology_response
     then "I'm sorry, I couldn't process that question right now."
     else dermatology_response) ;;;
  ret [].

Definition greeting (patient : patient_row) : M response :=
  match full_name patient with
  | VStr name =>
      match Str.split name with
      | first :: _ => ret [Hello first]
      | [] => raise IndexError
      end
  | _ => raise AttributeError
  end.

(** 2. Existing user conversational router, after the classification *)
Definition router (patient : patient_row) (current_step : option string)
  (intent phone Body : string) : M response :=
  if String.eqb intent "greeting"
     && negb (match current_step with
              | Some c => Gemini.mem_str c ["start"; "completed"]
              | None => false
              end)
  then forced_reset patient
  else
    match current_step with
    | None => raise AttributeError
    | Some step =>
        if Str.startswith "awaiting_" step then multi_step patient step Body
        else if String.eqb intent "request_booking" then
          let months := month_options in
          update_patient_onboarding_step (patient_id patient) "awaiting_month_selection" ;;;
          store_booking_context (patient_id patient)
            (VDict [("month_options", month_options_value months)]) ;;;
          ret [MonthMenu "Of course! Let's schedule a consultation. Please choose a month:" months]
        else if String.eqb intent "request_cancellation" then
          list_appointments patient
            "You have no upcoming appointments to cancel."
            "You have the following appointments. Which one would you like to cancel?"
            "awaiting_cancellation_choice"
        else if String.eqb intent "request_reschedule" then
          list_appointments patient
            "You have no upcoming appointments to reschedule. Would you like to book a new one?"
            "You have the following appointments. Which one would you like to reschedule?"
            "awaiting_reschedule_choice"
        else if String.eqb intent "dermatology_query" then dermatology_query phone Body
        else if String.eqb intent "greeting" then greeting patient
        else ret [Say "I'm sorry, I didn't understand that. You can ask a hair health question, or type 'book appointment'."]
    end.

Definition apology : string :=
  "I'm sorry, a system error occurred. Please try again in a few moments.".

(** Everything inside the [try] of [whatsapp_webhook] *)
Definition webhook_try (From Body : string) : M response :=
  let phone := Str.replace "whatsapp:" "" From in
  patient <- find_or_create_patient phone ;;
  match patient with
  | None => ret [Say "Sorry, I'm having system difficulties. Please try again later."]
  | Some patient =>
      onboarding_status <- get_patient_onboarding_status (patient_id patient) ;;
      let current_step :=
        match onboarding_status with
        | Some st => onboarding_step st
        | None => Some "start"
        end in
      if negb (onboarding_completed patient) then onboarding_flow patient current_step Body
      else
        analysis <- Gemini.analyze_message E Body current_step false ;;
        intent <- Py.get analysis "intent" (VStr "unknown") ;;
        match intent with
        | VStr intent => router patient current_step (Str.lower intent) phone Body
        | _ => raise AttributeError
        end
  end.

Definition whatsapp_webhook (From Body : string) : M response :=
  try_except (webhook_try From Body) any_exception (fun _ => ret [Say apology]).

End WithEnv.
End Main.

(** ** Reference behaviours *)

(** What reading the context of a [notes] column gives: the parsed text
    when there is text and it parses; the empty context when there is no
    text, or [json.loads] raises [JSONDecodeError]; any other exception of
    [json.loads] as it is. *)
Definition booking_context_of (E : env) (notes : pyval) : result pyval :=
  match notes with
  | VStr s =>
      if Str.is_empty s then Ok (VDict [])
      else match json_loads E s with
           | Ok v => Ok v
           | Raise e => if decode_or_type_error e then Ok (VDict []) else Raise e
           end
  | _ => Ok (VDict [])
  end.


(** The entity keys every result carries. *)
Definition entity_keys : list string := map fst Gemini.required_entities.




(** The message is, white space around it apart, a run of more than 4300
    decimal digits: a number that [int()] refuses. *)
Definition refused_literal (message : string) : bool :=
  let t := Str.strip (Str.strip (Str.lower message)) in
  negb (Str.is_empty t) && Str.forallb Str.isdecimal t
  && (Str.max_str_digits <? String.length t)%nat.


(** Every attempt of the classifier raises. *)
Definition classifier_always_raises (E : env) (message : string) (current_step : option string)
  : bool :=
  forallb (fun n => match generate_content E message current_step n with
                    | GenRaises => true
                    | GenText _ => false
                    end)
          (seq 0 Gemini.max_retries).

(** The webhook called on each message in turn, from the same sender; the
    replies and the final store. *)
Fixpoint conversation (E : env) (sender : string) (messages : list string) (w : world)
  : list (result response) * world :=
  match messages with
  | [] => ([], w)
  | m :: rest =>
      let '(r, w1) := Main.whatsapp_webhook E sender m w in
      let '(rs, w2) := conversation E sender rest w1 in
      (r :: rs, w2)
  end.

(** ** Sample stores and collaborators *)

Module Sample.

Local Open Scope string_scope.

Definition quote : string := String Gemini.dquote EmptyString.

(** The text [{"intent": null, "entities": {}}]. *)
Definition null_intent_reply : string :=
  "{" ++ quote ++ "intent" ++ quote ++ ": null, " ++ quote ++ "entities" ++ quote ++ ": {}}".

(** The text [{"year": 2026, "month": 11, "day": 10}]. *)
Definition date_notes : string :=
  "{" ++ quote ++ "year" ++ quote ++ ": 2026, " ++ quote ++ "month" ++ quote ++ ": 11, "
      ++ quote ++ "day" ++ quote ++ ": 10}".

(** The text [{"year": 2027, "month": 2, "day": 30}]. *)
Definition february_notes : string :=
  "{" ++ quote ++ "year" ++ quote ++ ": 2027, " ++ quote ++ "month" ++ quote ++ ": 2, "
      ++ quote ++ "day" ++ quote ++ ": 30}".

(** [json.loads] on the texts the samples use. *)
Definition loads (s : string) : result pyval :=
  if String.eqb s "{}" then Ok (VDict [])
  else if String.eqb s null_intent_reply
  then Ok (VDict [("intent", VNone); ("entities", VDict [])])
  else if String.eqb s date_notes
  then Ok (VDict [("year", VInt 2026); ("month", VInt 11); ("day", VInt 10)])
  else if String.eqb s february_notes
  then Ok (VDict [("year", VInt 2027); ("month", VInt 2); ("day", VInt 30)])
  else Raise JSONDecodeError.

(** [dateparser.parse] on the two times the samples use. *)
Definition parse_time (s : string) : option (Z * Z) :=
  if String.eqb s "9 am" then Some (9, 0)
  else if String.eqb s "4 pm" then Some (16, 0)
  else None.

(** Two thousand opening brackets: a text nested too deeply for
    [json.loads]. *)
Definition deep_notes : string := Str.repeat "[" 2000.

(** A number of 4301 digits. *)
Definition digits_4301 : string := Str.repeat "1" 4301.

(** 2026-11-03 12:00:00 UTC *)
Definition noon : instant := (20760 * Calendar.day + 12 * Calendar.hour)%Z.

(** No classifier configured; the clock at [noon]. *)
Definition offline : env :=
  mk_env loads (fun _ => "{}") (fun _ _ => None) parse_time false
         (fun _ _ _ => GenRaises) noon 0 (fun _ _ => None) true (fun _ => "") 0.


(** As [offline], with [json.loads] raising [RecursionError] on
    [deep_notes]. *)
Definition deep : env :=
  mk_env (fun s => if String.eqb s deep_notes then Raise RecursionError else loads s)
         (fun _ => "{}") (fun _ _ => None) parse_time false
         (fun _ _ _ => GenRaises) noon 0 (fun _ _ => None) true (fun _ => "") 0.

Definition ten : instant := (20767 * Calendar.day + 10 * Calendar.hour)%Z.
Definition half_past_ten : instant := (ten + 30 * Calendar.minute)%Z.

Definition free_slot : slot_row := mk_slot 1 ten half_past_ten false.
Definition booked_slot : slot_row := mk_slot 1 ten half_past_ten true.

Definition bob : patient_row :=
  mk_patient 7 "+1000000001" (VStr "Bob Smith") (VInt 15) (VStr "Female")
             (VStr "bob@x.com") (VStr date_notes) (Some "awaiting_time_selection") true.

(** Bob after choosing February and the 30th. *)
Definition bob_in_february : patient_row :=
  mk_patient 7 "+1000000001" (VStr "Bob Smith") (VInt 15) (VStr "Female")
             (VStr "bob@x.com") (VStr february_notes) (Some "awaiting_time_selection") true.

(** Bob with [deep_notes] in his scratch-pad. *)
Definition bob_deep : patient_row :=
  mk_patient 7 "+1000000001" (VStr "Bob Smith") (VInt 15) (VStr "Female")
             (VStr "bob@x.com") (VStr deep_notes) (Some "awaiting_date_selection") true.

Definition bobs_appointment : appt_row := mk_appt 2 7 (Some 1%Z) ten "confirmed".

Definition empty_store : world := mk_world [] [] [] 1 true [] [] (Some "start").

(** One free slot; the reservation will answer and the insert will raise. *)
Definition insert_raises : world :=
  mk_world [free_slot] [] [bob] 2 true [Answer; Throw] [] (Some "start").

(** Bob holds the only slot. *)
Definition bob_booked : world :=
  mk_world [booked_slot] [bobs_appointment] [bob] 3 true [] [] (Some "start").

(** The messages of the scenario of section 8, in order. *)
Definition onboarding_messages : list string :=
  ["Hello"; "Bob"; "Bob Smith"; "15"; "woman"; "female"; "not-an-email"; "bob@x.com"].



Definition february_store : world :=
  mk_world [] [] [bob_in_february] 8 true [] [] (Some "start").

End Sample.

(** ** Relations between stores *)

(** The store after a cancellation that the store answered. *)
Definition cancelled_store (appointment_id availability : pyval) (w : world) : world :=
  let w1 := with_appointments
              (Table.update (fun a => id_is appointment_id (appt_id a))
                            (set_status "cancelled") (appointments w)) w in
  if py_truthy availability
  then with_slots (Table.update (fun r => id_is availability (slot_id r))
                                (set_is_booked false) (doctor_availability w1)) w1
  else w1.

(** [frames R m]: whatever [m] returns or raises, the store it leaves is
    related by [R] to the store it started from. *)
Definition frames {A} (R : world -> world -> Prop) (m : M A) : Prop :=
  forall w, R w (snd (m w)).

(** The tables a frame speaks about. *)
Definition same_slots (w w' : world) : Prop := doctor_availability w' = doctor_availability w.

Definition same_appointments (w w' : world) : Prop := appointments w' = appointments w.

Definition same_patients (w w' : world) : Prop := patients w' = patients w.

(** Calls against the [patients] table only. *)
Definition patients_only (w w' : world) : Prop :=
  same_slots w w' /\ same_appointments w w'.

(** Calls that leave the [patients] table and the ledger alone. *)
Definition slots_only (w w' : world) : Prop :=
  same_patients w w' /\ same_appointments w w'.



(** [m] either stays within the frame [R] or ends in [Q]. *)
Definition frames_or {A} (R Q : world -> world -> Prop) (m : M A) : Prop :=
  forall w, R w (snd (m w)) \/ Q w (snd (m w)).

(** An appointment of [patient] was appended to the ledger. *)
Definition booked_for (patient : row_id) (w w' : world) : Prop :=
  exists a, appointments w' = appointments w ++ [a]
            /\ status a = "confirmed"%string /\ appt_patient_id a = patient.

(** ** The language of a pattern *)




(** ** What the webhook replies *)









(** * Further coverage: definitions *)

From Stdlib Require Import Sorted Permutation.

(** ** More of the slot inventory *)

(** [.order('slot_start_time')] *)
Fixpoint insert_by_start (r : slot_row) (l : list slot_row) : list slot_row :=
  match l with
  | [] => [r]
  | s :: l' =>
      if slot_start_time r <? slot_start_time s then r :: l else s :: insert_by_start r l'
  end.

Definition order_by_start (l : list slot_row) : list slot_row :=
  fold_right insert_by_start [] l.

(** The free slots that start at [current_time] or later. *)
Definition free_from (current_time : instant) (r : slot_row) : bool :=
  negb (is_booked r) && (current_time <=? slot_start_time r).

Definition get_available_slots (current_time : instant) (limit : nat) : M (list slot_row) :=
  try_except
    (execute_with_retry
       (supabase_client <- get_supabase_client ;;
        if negb supabase_client then ret []
        else
          execute (fun w =>
            (firstn limit
               (order_by_start (Table.select (free_from current_time) (doctor_availability w))),
             w))))
    any_exception (fun _ => ret []).

(** ** Relations used by the further properties *)

(** No table of the store differs. *)
Definition same_tables (w w' : world) : Prop :=
  doctor_availability w' = doctor_availability w
  /\ appointments w' = appointments w
  /\ patients w' = patients w.


(** The row [find_or_create_patient] inserts for an unseen number. *)
Definition default_patient (phone : string) (w : world) : patient_row :=
  mk_patient (next_id w) phone (VStr (String.append "Patient " (Str.last_chars 4 phone)))
             VNone VNone VNone VNone (default_onboarding_step w) false.

(** What one call of [find_or_create_patient] may have done. *)
Definition found_or_added (phone : string) (w : world) (r : option patient_row) (w' : world)
  : Prop :=
  doctor_availability w' = doctor_availability w
  /\ appointments w' = appointments w
  /\ match r with
     | Some p =>
         phone_number p = phone
         /\ (patients w' = patients w \/ patients w' = patients w ++ [p])
     | None => patients w' = patients w
     end.

(** The value [update_profile_field] writes for [field_name], or [None]
    when the age check refuses it. *)
Definition checked_value (field_name : string) (field_value : pyval) (w : world)
  : option pyval :=
  if String.eqb field_name "age" then
    match fst (py_int field_value w) with
    | Ok n => if (1 <=? n) && (n <=? 120) then Some (VInt n) else None
    | Raise _ => None
    end
  else Some field_value.

(** The [age] column set to [n]. *)
Definition with_age (n : Z) (p : patient_row) : patient_row :=
  mk_patient (patient_id p) (phone_number p) (full_name p) (VInt n) (gender p) (email p)
             (notes p) (onboarding_step p) (onboarding_completed p).

(** The appointments [get_upcoming_appointments] asks the store for. *)
Definition upcoming (now_utc : instant) (patient : row_id) (a : appt_row) : bool :=
  (appt_patient_id a =? patient) && String.eqb (status a) "confirmed"
  && (now_utc <=? appointment_time a).

Definition earlier_appointment (a b : appt_row) : Prop :=
  appointment_time a <= appointment_time b.

Definition earlier_slot (r s : slot_row) : Prop :=
  slot_start_time r <= slot_start_time s.

(** The reservation of [book_slot]: the rows of that id that are free. *)
Definition reservable (slot : row_id) (r : slot_row) : bool :=
  (slot_id r =? slot) && negb (is_booked r).

(** The appointment [book_slot] inserts for the reserved row [r]. *)
Definition new_appointment (slot patient : row_id) (r : slot_row) (w : world) : appt_row :=
  mk_appt (next_id w) patient (Some slot) (slot_start_time r) "confirmed".

(** The store after a booking that the store answered. *)
Definition booked_store (slot : row_id) (a : appt_row) (w : world) : world :=
  with_next_id (next_id w + 1)
    (with_appointments (appointments w ++ [a])
       (with_slots (Table.update (reservable slot) (set_is_booked true)
                                 (doctor_availability w)) w)).

(** No two slot rows start at the same instant. *)
Definition unique_starts (w : world) : Prop :=
  NoDup (map slot_start_time (doctor_availability w)).

(** ** Relations on patient rows *)

(** The rows of patient [id] rewritten by [g], the others kept. *)
Definition rewrite_patient (id : row_id) (g : patient_row -> patient_row) (w : world)
  : list patient_row :=
  map (fun p => if patient_id p =? id then g p else p) (patients w).

(** The store with the rows of patient [id] rewritten by [g]. *)
Definition with_patient (id : row_id) (g : patient_row -> patient_row) (w : world) : world :=
  with_patients (rewrite_patient id g w) w.


Definition difficulties_reply : string :=
  "Sorry, I'm having system difficulties. Please try again later.".

(** ** The list a menu step chooses from *)

(** The list the context read holds under [key]: the empty list when the
    key is missing, nothing when the read raised, or the context is no
    dict or holds something else there. *)
Definition listed (context : result pyval) (key : string) : option (list pyval) :=
  match context with
  | Ok (VDict d) =>
      match Dict.get key d with
      | Some (VList l) => Some l
      | Some _ => None
      | None => Some []
      end
  | _ => None
  end.

(** The answer is no number, or a number that is not a position of [l]. *)
Definition off_list (Body : string) (l : list pyval) : bool :=
  match Str.int (Str.strip Body) with
  | Some n => (n <? 1) || (Z.of_nat (List.length l) <? n)
  | None => true
  end.

(** The reply to an answer that is off the list. *)
Definition off_list_reply (Body not_a_number not_listed : string) : response :=
  match Str.int (Str.strip Body) with
  | Some _ => [Say not_listed]
  | None => [Say not_a_number]
  end.

(** The [availability_id] column as the listing hands it on. *)
Definition availability_value (a : appt_row) : pyval :=
  match availability_id a with Some i => VInt i | None => VNone end.




(** ** Intents *)

(** The ['intent'] entry of an analysis, when it is text. *)
Definition intent_of (analysis : pyval) : option string :=
  match analysis with
  | VDict d => match Dict.get "intent" d with Some (VStr s) => Some s | _ => None end
  | _ => None
  end.

(** The intents the rule-based classifier can answer with. *)
Definition rule_intents : list string :=
  [ "request_custom_date"; "select_slot"; "profile_choice"; "provide_age";
    "keep_current_value"; "provide_email"; "provide_gender"; "provide_blood_group";
    "quick_book_with_profile"; "update_profile_only"; "provide_allergies";
    "provide_current_symptoms"; "greeting"; "start_onboarding"; "unknown" ]%string.

(** The analysis carries one of the rule intents. *)
Definition has_rule_intent (analysis : pyval) : bool :=
  match intent_of analysis with
  | Some intent => existsb (String.eqb intent) rule_intents
  | None => false
  end.

(** An outcome of the classifier carries one of the rule intents when it
    is an answer. *)
Definition rule_intent_outcome (x : result pyval) : bool :=
  match x with
  | Ok analysis => has_rule_intent analysis
  | Raise _ => true
  end.

(** The intents on which the router starts a flow or asks the hair-health
    service. *)
Definition flow_intents : list string :=
  [ "request_booking"; "request_cancellation"; "request_reschedule";
    "dermatology_query" ]%string.

Definition not_understood : string :=
  "I'm sorry, I didn't understand that. You can ask a hair health question, or type 'book appointment'.".


(** The context that goes with the menu. *)
Definition menu_context (shown : list appt_row) : pyval :=
  VDict [("appointments"%string, VList (map appointment_row_value shown))].


(** ** Splitting a long WhatsApp message *)

Module Twilio.

(** WhatsApp's character limit is 1600; the code uses 1500 to be safe. *)
Definition MAX_LENGTH : nat := 1500.

Definition newline : ascii := ascii_of_nat 10.

(** [s.split('\n')] *)
Fixpoint split_lines (s : string) : list string :=
  match s with
  | EmptyString => [EmptyString]
  | String c s' =>
      if Ascii.eqb c newline then EmptyString :: split_lines s'
      else match split_lines s' with
           | line :: lines => String c line :: lines
           | [] => [String c EmptyString]
           end
  end.

(** One pass of the loop over the lines: the chunks stored so far and the
    current chunk. *)
Definition add_line (state : list string * string) (line : string) : list string * string :=
  let '(message_chunks, current_chunk) := state in
  if (MAX_LENGTH <? String.length current_chunk + String.length line + 1)%nat
  then (message_chunks ++ [current_chunk], line)
  else (message_chunks, (current_chunk ++ String newline line)%string).

(** The state when the loop ends. *)
Definition chunk_state (message_body : string) : list string * string :=
  fold_left add_line (split_lines message_body) ([], EmptyString).

Definition message_chunks (message_body : string) : list string :=
  let '(chunks, current_chunk) := chunk_state message_body in
  if Str.is_empty current_chunk then chunks else chunks ++ [current_chunk].

(** The bodies handed to [messages.create], in order, by
    [send_whatsapp_message] when the client is there and no call raises. *)
Definition bodies (message_body : string) : list string :=
  if (String.length message_body <=? MAX_LENGTH)%nat then [message_body]
  else List.map Str.strip
         (filter (fun chunk => negb (Str.is_empty (Str.strip chunk)))
                 (message_chunks message_body)).

End Twilio.

(** ** More sample stores *)

Module Case.

Local Open Scope string_scope.

(** Bob and one free slot. *)
Definition one_free_slot : world :=
  mk_world [Sample.free_slot] [] [Sample.bob] 2 true [] [] (Some "start").

(** Bob holds the only slot; every second call of the store will raise. *)
Definition slot_update_raises : world :=
  mk_world [Sample.booked_slot] [Sample.bobs_appointment] [Sample.bob] 3 true
           [Answer; Throw; Answer; Throw; Answer; Throw] [] (Some "start").

(** No store client is configured. *)
Definition no_client : world := mk_world [] [] [] 1 false [] [] (Some "start").

(** The month menu with one entry. *)
Definition months_context : pyval :=
  VDict [("month_options", VList [VList [VStr "November"; VInt 2026; VInt 11]])].

(** [json] on the two menu contexts: they are written as ["menu"] and
    ["months"]. *)
Definition menus : env :=
  mk_env (fun s => if String.eqb s "menu"
                   then Ok (menu_context [Sample.bobs_appointment])
                   else if String.eqb s "months" then Ok months_context
                   else Sample.loads s)
         (fun v => match v with
                   | VDict (("appointments", _) :: _) => "menu"
                   | VDict (("month_options", _) :: _) => "months"
                   | _ => "{}"
                   end)
         (fun _ _ => None) Sample.parse_time false
         (fun _ _ _ => GenRaises) Sample.noon 0 (fun _ _ => None) true (fun _ => "") 0.

(** Bob in front of the cancellation menu. *)
Definition bob_at_menu : patient_row :=
  mk_patient 7 "+1000000001" (VStr "Bob Smith") (VInt 15) (VStr "Female")
             (VStr "bob@x.com") (VStr "menu") (Some "awaiting_cancellation_choice") true.



(** Two lines of a thousand characters each: longer than one message,
    each line within the limit. *)
Definition two_long_lines : string :=
  Str.repeat "a" 1000 ++ String Twilio.newline (Str.repeat "b" 1000).

End Case.

(** * Properties *)

(** ** Tables *)

Lemma with_slots_same (w : world) : with_slots (doctor_availability w) w = w.
Proof. destruct w; reflexivity. Qed.

Lemma with_faults_same (w : world) : with_faults (faults w) w = w.
Proof. destruct w; reflexivity. Qed.

Lemma with_appointments_same (w : world) : with_appointments (appointments w) w = w.
Proof. destruct w; reflexivity. Qed.

Lemma with_patients_same (w : world) : with_patients (patients w) w = w.
Proof. destruct w; reflexivity. Qed.

Section TableFacts.
Context {R : Type} (p : R -> bool) (f : R -> R).

Lemma updated_no_match (rows : list R) :
  (forall r, In r rows -> p r = false) -> Table.updated p f rows = [].
Proof.
  unfold Table.updated.
  induction rows as [|r rows IH]; intros H; simpl; [reflexivity|].
  rewrite (H r (or_introl eq_refl)). apply IH. intros r' Hr'. apply H. now right.
Qed.

Lemma update_no_match (rows : list R) :
  (forall r, In r rows -> p r = false) -> Table.update p f rows = rows.
Proof.
  unfold Table.update.
  induction rows as [|r rows IH]; intros H; simpl; [reflexivity|].
  rewrite (H r (or_introl eq_refl)). f_equal. apply IH. intros r' Hr'. apply H. now right.
Qed.

Lemma updated_nil_no_match (rows : list R) :
  Table.updated p f rows = [] -> forall r, In r rows -> p r = false.
Proof.
  unfold Table.updated.
  induction rows as [|r rows IH]; simpl; intros H r' Hr'; [contradiction|].
  destruct (p r) eqn:Hp; [discriminate|].
  destruct Hr' as [<-|Hr']; [assumption|]. now apply IH.
Qed.

Lemma in_update (rows : list R) (r' : R) :
  In r' (Table.update p f rows) ->
  exists r, In r rows /\ r' = (if p r then f r else r).
Proof.
  unfold Table.update. rewrite in_map_iff. intros (r & <- & Hr). now exists r.
Qed.

Lemma update_idem (rows : list R) :
  (forall r, p (f r) = p r) -> (forall r, f (f r) = f r) ->
  Table.update p f (Table.update p f rows) = Table.update p f rows.
Proof.
  intros Hp Hf. unfold Table.update. rewrite map_map. apply map_ext. intros r.
  destruct (p r) eqn:E; [rewrite Hp, E; apply Hf | now rewrite E].
Qed.

Lemma updated_update (rows : list R) :
  (forall r, p (f r) = p r) ->
  Table.updated p f (Table.update p f rows) = [] <-> Table.updated p f rows = [].
Proof.
  intros Hp. unfold Table.updated, Table.update.
  induction rows as [|r rows IH]; simpl; [tauto|].
  destruct (p r) eqn:E.
  - rewrite Hp, E. simpl. split; discriminate.
  - rewrite E. exact IH.
Qed.
End TableFacts.

(** ** Slot reservation *)

(** C2. Booking a slot whose [is_booked] flag is already true fails: the
    conditional update (id and [is_booked = false] tested by the write
    itself, in one store call) matches no row, [book_slot] returns [None],
    and neither an appointment row nor any other row is created or
    changed.  This holds whatever the store's fault script is. *)
Theorem book_slot_already_booked :
  forall (w : world) (slot patient : row_id),
    (forall r, In r (doctor_availability w) -> slot_id r = slot -> is_booked r = true) ->
    exists w',
      book_slot slot patient w = (Ok None, w')
      /\ appointments w' = appointments w
      /\ doctor_availability w' = doctor_availability w
      /\ patients w' = patients w
      /\ (faults w' = faults w \/ faults w' = tl (faults w)).
Proof.
  intros w slot patient Hbooked.
  assert (Hno : forall r, In r (doctor_availability w) ->
                 (slot_id r =? slot) && negb (is_booked r) = false).
  { intros r Hr. destruct (Z.eqb_spec (slot_id r) slot) as [E|E]; [|reflexivity].
    now rewrite (Hbooked r Hr E). }
  unfold book_slot, try_except, book_slot_try, bind, get_supabase_client, ret.
  destruct (supabase_client w) eqn:Hc; simpl.
  - unfold update_slots, execute.
    destruct (faults w) as [|[] fs] eqn:Hf; simpl;
      rewrite ?(updated_no_match _ _ _ Hno), ?(update_no_match _ _ _ Hno); simpl;
      eexists; (split; [reflexivity|]); simpl; rewrite ?Hf; simpl; auto 6.
  - exists w. auto 6.
Qed.

Lemma retry_with_backoff_ok {A} (func : M A) (w w' : world) (a : A) :
  func w = (Ok a, w') -> retry_with_backoff func w = (Ok a, w').
Proof.
  intros H. unfold retry_with_backoff, MAX_RETRIES. simpl. unfold try_except. now rewrite H.
Qed.

Lemma try_except_ok {A} (m : M A) (c : exn -> bool) (h : exn -> M A) (w w' : world) (a : A) :
  m w = (Ok a, w') -> try_except m c h w = (Ok a, w').
Proof. intros H. unfold try_except. now rewrite H. Qed.

(** The compensating release runs when the insert comes back without data. *)
Lemma book_slot_release_after_empty_insert :
  forall (w : world) (slot patient : row_id) (r : slot_row),
    supabase_client w = true ->
    faults w = [Answer; NoData] ->
    In r (doctor_availability w) -> slot_id r = slot -> is_booked r = false ->
    exists w',
      book_slot slot patient w = (Ok None, w')
      /\ appointments w' = appointments w
      /\ (forall r', In r' (doctor_availability w') -> slot_id r' = slot -> is_booked r' = false).
Proof.
  intros w slot patient r Hc Hf Hin Hid Hfree.
  unfold book_slot, try_except, book_slot_try, bind, get_supabase_client, ret.
  rewrite Hc. simpl. unfold update_slots at 1. unfold execute. rewrite Hf. simpl.
  destruct (Table.updated _ _ (doctor_availability w)) as [|r0 rest] eqn:Hupd.
  - pose proof (updated_nil_no_match _ _ _ Hupd r Hin) as Hp.
    cbv beta in Hp. rewrite Hid, Z.eqb_refl, Hfree in Hp. discriminate.
  - unfold insert_appointment, execute. simpl. unfold update_slots, execute. simpl.
    eexists. split; [reflexivity|]. simpl. split; [reflexivity|].
    intros r' Hr' Hid'. apply in_update in Hr'. destruct Hr' as (r1 & _ & ->).
    destruct (slot_id r1 =? slot) eqn:E; [reflexivity|].
    apply Z.eqb_neq in E. contradiction.
Qed.

(** C1. When the reservation succeeds and the insert of the appointment
    raises, [book_slot] returns [None] from its [except] clause without
    releasing the slot: no appointment row exists for the call and the
    slot row is left with [is_booked = true]. *)
Theorem book_slot_insert_raises_leaves_slot_booked :
  forall (w : world) (slot patient : row_id) (r : slot_row) (fs : list fault),
    supabase_client w = true ->
    faults w = Answer :: Throw :: fs ->
    In r (doctor_availability w) -> slot_id r = slot -> is_booked r = false ->
    exists w',
      book_slot slot patient w = (Ok None, w')
      /\ appointments w' = appointments w
      /\ In (set_is_booked true r) (doctor_availability w').
Proof.
  intros w slot patient r fs Hc Hf Hin Hid Hfree.
  unfold book_slot, try_except, book_slot_try, bind, get_supabase_client, ret.
  rewrite Hc. simpl. unfold update_slots at 1. unfold execute. rewrite Hf. simpl.
  destruct (Table.updated _ _ (doctor_availability w)) as [|r0 rest] eqn:Hupd.
  - pose proof (updated_nil_no_match _ _ _ Hupd r Hin) as Hp.
    cbv beta in Hp. rewrite Hid, Z.eqb_refl, Hfree in Hp. discriminate.
  - unfold insert_appointment, execute. simpl.
    eexists. split; [reflexivity|]. simpl. split; [reflexivity|].
    unfold Table.update. apply in_map_iff. exists r. split; [|assumption].
    now rewrite Hid, Z.eqb_refl, Hfree.
Qed.

(** ** Cancellation *)

Lemma cancel_operation_fault_free (appointment_id availability : pyval) (w : world) :
  supabase_client w = true -> faults w = [] ->
  _cancel_operation appointment_id availability w =
    if existsb (fun a => id_is appointment_id (appt_id a)) (appointments w)
    then (Ok true, cancelled_store appointment_id availability w)
    else (Ok false, w).
Proof.
  intros Hc Hf.
  unfold _cancel_operation, bind, get_supabase_client, ret. rewrite Hc. simpl.
  unfold update_appointments, execute. rewrite Hf.
  destruct (existsb _ (appointments w)) eqn:Hex.
  - apply existsb_exists in Hex. destruct Hex as (a & Ha & Hp).
    destruct (Table.updated _ _ (appointments w)) as [|a0 rest] eqn:Hupd.
    + rewrite (updated_nil_no_match _ _ _ Hupd a Ha) in Hp. discriminate.
    + unfold cancelled_store. destruct (py_truthy availability); [|reflexivity].
      unfold update_slots, execute. simpl. rewrite Hf. reflexivity.
  - assert (Hno : forall a, In a (appointments w) -> id_is appointment_id (appt_id a) = false).
    { intros a Ha. destruct (id_is appointment_id (appt_id a)) eqn:E; [|reflexivity].
      assert (existsb (fun a => id_is appointment_id (appt_id a)) (appointments w) = true)
        by (apply existsb_exists; eauto).
      congruence. }
    rewrite (updated_no_match _ _ _ Hno), (update_no_match _ _ _ Hno).
    now rewrite with_appointments_same.
Qed.

Lemma cancel_appointment_fault_free (appointment_id availability : pyval) (w : world) :
  supabase_client w = true -> faults w = [] ->
  cancel_appointment appointment_id availability w =
    if existsb (fun a => id_is appointment_id (appt_id a)) (appointments w)
    then (Ok true, cancelled_store appointment_id availability w)
    else (Ok false, w).
Proof.
  intros Hc Hf. unfold cancel_appointment, execute_with_retry.
  pose proof (cancel_operation_fault_free appointment_id availability w Hc Hf) as H.
  destruct (existsb _ (appointments w));
    apply try_except_ok, retry_with_backoff_ok; exact H.
Qed.

Lemma cancelled_store_idem (appointment_id availability : pyval) (w : world) :
  cancelled_store appointment_id availability (cancelled_store appointment_id availability w)
  = cancelled_store appointment_id availability w.
Proof.
  unfold cancelled_store. destruct (py_truthy availability); destruct w; unfold with_slots, with_appointments; simpl;
    rewrite ?update_idem; auto.
Qed.

Lemma existsb_update_id (appointment_id : pyval) (s : string) (rows : list appt_row) :
  existsb (fun a => id_is appointment_id (appt_id a))
          (Table.update (fun a => id_is appointment_id (appt_id a)) (set_status s) rows)
  = existsb (fun a => id_is appointment_id (appt_id a)) rows.
Proof.
  unfold Table.update. induction rows as [|a rows IH]; simpl; [reflexivity|].
  rewrite IH. destruct (id_is appointment_id (appt_id a)) eqn:E; simpl; now rewrite E.
Qed.

(** X29. With the store answering, [cancel_appointment] returns [True]
    exactly when some appointment row carries the given id (no matching
    row is the only case that returns [False]; whether the slot update
    matched a row plays no part in the result).  A second call with the
    same arguments returns the same value and leaves the store as the first
    call left it: the appointment rows of that id are cancelled and, for a
    slot id that was passed, the slot rows of that id are free.  The call
    still returns [True] when the store returns no data for the slot
    update. *)
Theorem cancel_appointment_idempotent :
  forall (w : world) (appointment_id availability : pyval),
    supabase_client w = true -> faults w = [] ->
    let found := existsb (fun a => id_is appointment_id (appt_id a)) (appointments w) in
    exists w1,
      cancel_appointment appointment_id availability w = (Ok found, w1)
      /\ cancel_appointment appointment_id availability w1 = (Ok found, w1)
      /\ (found = true ->
          (forall a, In a (appointments w1) ->
                     id_is appointment_id (appt_id a) = true -> status a = "cancelled"%string)
          /\ (py_truthy availability = true ->
              forall r, In r (doctor_availability w1) ->
                        id_is availability (slot_id r) = true -> is_booked r = false))
      /\ (fst (cancel_appointment appointment_id availability (with_faults [Answer; NoData] w))
          = Ok found).
Proof.
  intros w appointment_id availability Hc Hf found.
  pose proof (cancel_appointment_fault_free appointment_id availability w Hc Hf) as H1.
  fold found in H1. destruct found eqn:Hfound.
  - exists (cancelled_store appointment_id availability w).
    split; [exact H1|]. split; [|split].
    + rewrite cancel_appointment_fault_free.
      * replace (existsb _ (appointments (cancelled_store appointment_id availability w)))
          with true.
        -- now rewrite cancelled_store_idem.
        -- unfold cancelled_store. destruct (py_truthy availability); simpl;
             rewrite existsb_update_id; symmetry; exact Hfound.
      * unfold cancelled_store. destruct (py_truthy availability); simpl; exact Hc.
      * unfold cancelled_store. destruct (py_truthy availability); simpl; exact Hf.
    + intros _. split.
      * intros a Ha Hid.
        assert (Ha' : In a (Table.update (fun a => id_is appointment_id (appt_id a))
                              (set_status "cancelled") (appointments w))).
        { unfold cancelled_store in Ha. destruct (py_truthy availability); exact Ha. }
        apply in_update in Ha'. destruct Ha' as (a0 & _ & ->).
        destruct (id_is appointment_id (appt_id a0)) eqn:E; [reflexivity|].
        congruence.
      * intros Ht r Hr Hid. unfold cancelled_store in Hr. rewrite Ht in Hr. simpl in Hr.
        apply in_update in Hr. destruct Hr as (r0 & _ & ->).
        destruct (id_is availability (slot_id r0)) eqn:E; [reflexivity|]. congruence.
    + unfold cancel_appointment, execute_with_retry, retry_with_backoff, MAX_RETRIES.
      simpl. unfold try_except, _cancel_operation, bind, get_supabase_client, ret. simpl.
      rewrite Hc. simpl. unfold update_appointments, execute. simpl.
      destruct (Table.updated _ _ (appointments w)) as [|a0 rest] eqn:Hupd.
      * unfold found in Hfound. apply existsb_exists in Hfound.
        destruct Hfound as (a & Ha & Hp).
        rewrite (updated_nil_no_match _ _ _ Hupd a Ha) in Hp. discriminate.
      * destruct (py_truthy availability); reflexivity.
  - exists w. split; [exact H1|]. split; [exact H1|]. split; [discriminate|].
    unfold cancel_appointment, execute_with_retry, retry_with_backoff, MAX_RETRIES.
    simpl. unfold try_except, _cancel_operation, bind, get_supabase_client, ret. simpl.
    rewrite Hc. simpl. unfold update_appointments, execute. simpl.
    assert (Hno : forall a, In a (appointments w) -> id_is appointment_id (appt_id a) = false).
    { intros a Ha. destruct (id_is appointment_id (appt_id a)) eqn:E; [|reflexivity].
      assert (existsb (fun a => id_is appointment_id (appt_id a)) (appointments w) = true)
        by (apply existsb_exists; eauto).
      unfold found in Hfound. congruence. }
    now rewrite (updated_no_match _ _ _ Hno).
Qed.

(** ** Slot lookup and creation *)

Lemma filter_head_find {R} (p : R -> bool) (rows : list R) :
  find p rows = hd_error (filter p rows).
Proof.
  induction rows as [|r rows IH]; simpl; [reflexivity|].
  destruct (p r); [reflexivity | exact IH].
Qed.

Lemma filter_nil_existsb {R} (p : R -> bool) (rows : list R) :
  filter p rows = [] <-> existsb p rows = false.
Proof.
  induction rows as [|r rows IH]; simpl; [tauto|].
  destruct (p r); simpl; [split; discriminate | exact IH].
Qed.

Lemma find_or_create_refines (w : world) (start_time end_time : instant) :
  supabase_client w = true -> faults w = [] ->
  find_or_create_availability_slot start_time end_time w =
    (Ok (fst (Spec.find_or_create start_time end_time w)),
     snd (Spec.find_or_create start_time end_time w)).
Proof.
  intros Hc Hf. unfold find_or_create_availability_slot.
  apply try_except_ok, retry_with_backoff_ok.
  unfold _find_or_create_slot_operation, Spec.find_or_create, bind, get_supabase_client, ret.
  rewrite Hc. simpl. unfold select_slots at 1. unfold execute. rewrite Hf.
  rewrite filter_head_find. unfold Table.select.
  destruct (filter _ (doctor_availability w)) as [|existing rest] eqn:Hex; simpl.
  - unfold select_slots, execute. rewrite Hf. unfold Table.select.
    set (q := fun r : slot_row => is_booked r && Spec.overlaps r start_time end_time).
    assert (Hq : filter (fun r => (slot_start_time r <? end_time)
                                  && (slot_end_time r >? start_time) && is_booked r)
                        (doctor_availability w)
                 = filter q (doctor_availability w)).
    { apply filter_ext. intros r. unfold q, Spec.overlaps.
      rewrite Z.gtb_ltb. now rewrite andb_comm. }
    rewrite Hq. destruct (existsb q (doctor_availability w)) eqn:Hov.
    + destruct (filter q (doctor_availability w)) eqn:Hfl; [|reflexivity].
      apply filter_nil_existsb in Hfl. congruence.
    + apply filter_nil_existsb in Hov. rewrite Hov.
      unfold insert_slot, execute. rewrite Hf. reflexivity.
  - destruct (is_booked existing); reflexivity.
Qed.

(** C4. With the store answering, [find_or_create_availability_slot]
    computes the specification's [find_or_create]: the row looked up at
    exactly [start_time] is returned when it is free and gives [None] when
    it is booked; with no row at [start_time] the result is [None] exactly
    when a booked row overlaps [[start_time, end_time)], and otherwise a
    new free row is appended and returned.  Rows that are not booked never
    stand in the way of the creation, whatever their windows. *)
Theorem find_or_create_availability_slot_spec :
  forall (w : world) (start_time end_time : instant),
    supabase_client w = true -> faults w = [] ->
    find_or_create_availability_slot start_time end_time w =
      (Ok (fst (Spec.find_or_create start_time end_time w)),
       snd (Spec.find_or_create start_time end_time w))
    /\ ((forall r, In r (doctor_availability w) -> slot_start_time r <> start_time) ->
        (forall r, In r (doctor_availability w) ->
                   Spec.overlaps r start_time end_time = true -> is_booked r = false) ->
        let new_slot := mk_slot (next_id w) start_time end_time false in
        exists w',
          find_or_create_availability_slot start_time end_time w = (Ok (Some new_slot), w')
          /\ doctor_availability w' = doctor_availability w ++ [new_slot]).
Proof.
  intros w start_time end_time Hc Hf.
  pose proof (find_or_create_refines w start_time end_time Hc Hf) as Href.
  split; [exact Href|].
  intros Hstart Hfree new_slot. rewrite Href. unfold Spec.find_or_create.
  destruct (find _ (doctor_availability w)) as [r|] eqn:Hfind.
  - apply find_some in Hfind. destruct Hfind as [Hin Heq].
    apply Z.eqb_eq in Heq. now destruct (Hstart r Hin).
  - destruct (existsb _ (doctor_availability w)) eqn:Hov.
    + apply existsb_exists in Hov. destruct Hov as (r & Hin & Hb).
      apply andb_true_iff in Hb. destruct Hb as [Hb Ho].
      rewrite (Hfree r Hin Ho) in Hb. discriminate.
    + simpl. eexists. split; reflexivity.
Qed.

(** ** Frames: what a computation leaves related *)

Section Frames.
Variable R : world -> world -> Prop.
Hypothesis R_refl : forall w, R w w.
Hypothesis R_trans : forall a b c, R a b -> R b c -> R a c.

Lemma frames_ret {A} (a : A) : frames R (ret a).
Proof. intros w. apply R_refl. Qed.

Lemma frames_raise {A} (e : exn) : frames R (@raise A e).
Proof. intros w. apply R_refl. Qed.

Lemma frames_bind {A B} (m : M A) (k : A -> M B) :
  frames R m -> (forall a, frames R (k a)) -> frames R (bind m k).
Proof.
  intros Hm Hk w. unfold bind. specialize (Hm w).
  destruct (m w) as [[a|e] w1]; simpl in *; [|assumption].
  eapply R_trans; [exact Hm | apply Hk].
Qed.

Lemma frames_try_except {A} (m : M A) (c : exn -> bool) (h : exn -> M A) :
  frames R m -> (forall e, frames R (h e)) -> frames R (try_except m c h).
Proof.
  intros Hm Hh w. unfold try_except. specialize (Hm w).
  destruct (m w) as [[a|e] w1]; simpl in *; [assumption|].
  destruct (c e); simpl; [|assumption].
  eapply R_trans; [exact Hm | apply Hh].
Qed.

Lemma frames_retry_loop {A} (func : M A) (left attempt : nat) :
  frames R func -> frames R (retry_loop func attempt left).
Proof.
  intros Hf. revert attempt. induction left as [|left IH]; intros attempt; simpl.
  - apply frames_raise.
  - apply frames_try_except; [assumption|].
    intros e. destruct (Nat.eqb attempt _); [apply frames_raise | apply IH].
Qed.

Lemma frames_retry {A} (func : M A) : frames R func -> frames R (retry_with_backoff func).
Proof. apply frames_retry_loop. Qed.

Lemma frames_execute {A} (query : world -> list A * world) :
  (forall w fs, R w (with_faults fs w)) ->
  (forall w, R w (snd (query w))) ->
  frames R (execute query).
Proof.
  intros Hfs Hq w. unfold execute.
  destruct (faults w) as [|f fs]; simpl.
  - specialize (Hq w). destruct (query w); exact Hq.
  - destruct f; simpl; try apply Hfs.
    specialize (Hq (with_faults fs w)). destruct (query (with_faults fs w)); simpl in *.
    eapply R_trans; [apply Hfs | exact Hq].
Qed.

Lemma frames_get_client : frames R get_supabase_client.
Proof. intros w. apply R_refl. Qed.

Lemma frames_if {A} (b : bool) (m1 m2 : M A) :
  frames R m1 -> frames R m2 -> frames R (if b then m1 else m2).
Proof. destruct b; auto. Qed.

Lemma frames_first_row {X} (data : list X) : frames R (first_row data).
Proof. destruct data; apply frames_ret. Qed.
End Frames.

Lemma patients_only_refl w : patients_only w w.
Proof. split; reflexivity. Qed.

Lemma patients_only_trans a b c : patients_only a b -> patients_only b c -> patients_only a c.
Proof. unfold patients_only, same_slots, same_appointments. intros [] []. split; congruence. Qed.

Lemma slots_only_refl w : slots_only w w.
Proof. split; reflexivity. Qed.

Lemma slots_only_trans a b c : slots_only a b -> slots_only b c -> slots_only a c.
Proof. unfold slots_only, same_patients, same_appointments. intros [] []. split; congruence. Qed.

Ltac frame_steps_with leaf refl trans :=
  repeat first
    [ leaf
    | apply (frames_ret _ refl)
    | apply (frames_raise _ refl)
    | apply (frames_get_client _ refl)
    | apply (frames_first_row _ refl)
    | apply (frames_retry _ refl trans)
    | apply (frames_try_except _ trans)
    | apply (frames_bind _ trans)
    | apply frames_if
    | match goal with
      | |- frames _ (match ?x with _ => _ end) => destruct x
      end
    | progress intros ].

Ltac frame_steps refl trans := frame_steps_with fail refl trans.

Lemma update_patients_patients_only p f : frames patients_only (update_patients p f).
Proof.
  apply (frames_execute _ patients_only_trans).
  - intros w fs. split; reflexivity.
  - intros w. split; reflexivity.
Qed.

Lemma select_patients_patients_only p : frames patients_only (select_patients p).
Proof.
  apply (frames_execute _ patients_only_trans).
  - intros w fs. split; reflexivity.
  - intros w. split; reflexivity.
Qed.

Lemma update_patient_onboarding_step_patients_only id step :
  frames patients_only (update_patient_onboarding_step id step).
Proof.
  unfold update_patient_onboarding_step, execute_with_retry.
  frame_steps patients_only_refl patients_only_trans.
  apply update_patients_patients_only.
Qed.

Lemma py_int_frames R (refl : forall w, R w w) v : frames R (py_int v).
Proof.
  destruct v; simpl; try apply (frames_ret _ refl); try apply (frames_raise _ refl).
  destruct (Str.int s); [apply (frames_ret _ refl) | apply (frames_raise _ refl)].
Qed.

Lemma update_profile_field_patients_only id field v :
  frames patients_only (update_profile_field id field v).
Proof.
  unfold update_profile_field.
  frame_steps patients_only_refl patients_only_trans.
  - apply py_int_frames, patients_only_refl.
  - apply update_patients_patients_only.
Qed.

Lemma update_patient_email_patients_only id address :
  frames patients_only (update_patient_email id address).
Proof.
  unfold update_patient_email, execute_with_retry.
  frame_steps patients_only_refl patients_only_trans.
  apply update_patients_patients_only.
Qed.

Lemma complete_profile_update_patients_only id :
  frames patients_only (complete_profile_update id).
Proof.
  unfold complete_profile_update.
  frame_steps patients_only_refl patients_only_trans.
  apply update_patients_patients_only.
Qed.

Lemma select_slots_slots_only p : frames slots_only (select_slots p).
Proof.
  apply (frames_execute _ slots_only_trans).
  - intros w fs. split; reflexivity.
  - intros w. split; reflexivity.
Qed.

Lemma insert_slot_slots_only s e b : frames slots_only (insert_slot s e b).
Proof.
  apply (frames_execute _ slots_only_trans).
  - intros w fs. split; reflexivity.
  - intros w. split; reflexivity.
Qed.

Lemma update_slots_slots_only p f : frames slots_only (update_slots p f).
Proof.
  apply (frames_execute _ slots_only_trans).
  - intros w fs. split; reflexivity.
  - intros w. split; reflexivity.
Qed.

(** Looking a slot up, or creating it, touches neither the patients nor
    the appointments, whatever the store does. *)
Lemma find_or_create_availability_slot_slots_only s e :
  frames slots_only (find_or_create_availability_slot s e).
Proof.
  unfold find_or_create_availability_slot, _find_or_create_slot_operation.
  frame_steps slots_only_refl slots_only_trans;
    auto using select_slots_slots_only, insert_slot_slots_only.
Qed.

(** ** Text *)





(** ** Patterns *)

Lemma append_nil_r (s : string) : (s ++ "")%string = s.
Proof. induction s; simpl; congruence. Qed.

Lemma append_assoc (a b c : string) : ((a ++ b) ++ c)%string = (a ++ (b ++ c))%string.
Proof. induction a; simpl; congruence. Qed.










(** ** The onboarding chain *)


















(** ** The booking context *)

(** The outcome and the store after [get_booking_context]. *)
Lemma get_booking_context_value (E : env) (patient : patient_row) (w : world) :
  Main.get_booking_context E patient w = (booking_context_of E (notes patient), w).
Proof.
  unfold Main.get_booking_context, booking_context_of, try_except.
  destruct (notes patient) as [|b|z|s|l|d]; simpl; try reflexivity.
  - destruct b; reflexivity.
  - destruct (z =? 0); reflexivity.
  - destruct s as [|c s]; simpl; [reflexivity|].
    destruct (json_loads E (String c s)) as [v|e]; [reflexivity|].
    unfold raise. destruct (decode_or_type_error e); reflexivity.
  - destruct l; reflexivity.
  - destruct d; reflexivity.
Qed.

(** C10, as the code has it.  Reading the booking context never touches
    the store.  [get_booking_context] returns the parsed value when the
    [notes] column holds text that [json.loads] parses, and the empty
    context, without raising, when the column is null, empty or not text,
    or [json.loads] raises [JSONDecodeError]; any other exception of
    [json.loads] is not caught by [except (json.JSONDecodeError,
    TypeError)] and is raised by the read. *)
Theorem get_booking_context_outcome :
  forall (E : env) (patient : patient_row) (w : world),
    snd (Main.get_booking_context E patient w) = w
    /\ (forall s v, notes patient = VStr s -> s <> EmptyString -> json_loads E s = Ok v ->
                    fst (Main.get_booking_context E patient w) = Ok v)
    /\ ((forall s, notes patient = VStr s ->
                   s = EmptyString \/ json_loads E s = Raise JSONDecodeError) ->
        fst (Main.get_booking_context E patient w) = Ok (VDict []))
    /\ (forall s e, notes patient = VStr s -> s <> EmptyString -> json_loads E s = Raise e ->
                    e <> JSONDecodeError -> e <> TypeError ->
                    fst (Main.get_booking_context E patient w) = Raise e).
Proof.
  intros E patient w. unfold Main.get_booking_context.
  destruct (notes patient) as [|b|z|s|l|d] eqn:Hn; cbn [py_truthy].
  - repeat split; intros; try discriminate; reflexivity.
  - destruct b; repeat split; intros; try discriminate; reflexivity.
  - destruct (z =? 0); repeat split; intros; try discriminate; reflexivity.
  - destruct s as [|c s].
    + repeat split; try reflexivity; intros; congruence.
    + cbn [String.eqb negb]. unfold try_except, raise, ret.
      split; [|split; [|split]].
      * destruct (json_loads E (String c s)) as [v|e]; [reflexivity|].
        destruct (decode_or_type_error e); reflexivity.
      * intros s0 v [= <-] _ ->. reflexivity.
      * intros H. destruct (H _ eq_refl) as [H0| ->]; [discriminate | reflexivity].
      * intros s0 e [= <-] _ -> Hj Ht. destruct e; try reflexivity; congruence.
  - destruct l; repeat split; intros; try discriminate; reflexivity.
  - destruct d; repeat split; intros; try discriminate; reflexivity.
Qed.

(** A scratch-pad that [json.loads] refuses with [RecursionError] makes
    the read raise. *)
Lemma get_booking_context_raises_on_deep_notes :
  Main.get_booking_context Sample.deep Sample.bob_deep Sample.empty_store
  = (Raise RecursionError, Sample.empty_store).
Proof. vm_compute. reflexivity. Qed.

(** ** Fault-free runs of the profile updates *)

Lemma update_patients_fault_free p f (w : world) :
  faults w = [] ->
  update_patients p f w
  = (Ok (Table.updated p f (patients w)), with_patients (Table.update p f (patients w)) w).
Proof. intros Hf. unfold update_patients, execute. now rewrite Hf. Qed.

Lemma first_row_hd {R} (data : list R) (w : world) :
  first_row data w = (Ok (hd_error data), w).
Proof. destruct data; reflexivity. Qed.




(** ** The forced reset *)


(** ** The error boundary *)










(** ** Time selection *)

(** What [book_slot] leaves behind, whatever the store does: the patients
    are untouched, and the appointments grew by the returned appointment or
    did not change at all. *)
Lemma book_slot_post (slot patient : row_id) (w : world) :
  same_patients w (snd (book_slot slot patient w))
  /\ match fst (book_slot slot patient w) with
     | Ok (Some a) =>
         appointments (snd (book_slot slot patient w)) = appointments w ++ [a]
         /\ status a = "confirmed"%string /\ appt_patient_id a = patient
     | _ => appointments (snd (book_slot slot patient w)) = appointments w
     end.
Proof.
  unfold same_patients.
  unfold book_slot, try_except, book_slot_try, bind, get_supabase_client, ret, any_exception.
  destruct w as [slots appts pats nid client fs out dflt]. simpl.
  destruct client; simpl; [|auto].
  unfold update_slots, insert_appointment, execute. simpl.
  destruct fs as [|f1 fs1]; simpl.
  - destruct (Table.updated _ _ slots); simpl; auto.
  - destruct f1; simpl; auto.
    destruct (Table.updated _ _ slots); simpl; auto.
    destruct fs1 as [|f2 fs2]; simpl; auto.
    destruct f2; simpl; auto.
    destruct fs2 as [|f3 fs3]; simpl; auto.
    destruct f3; simpl; auto.
Qed.

Section FramesOr.
Variables R Q : world -> world -> Prop.
Hypothesis R_trans : forall a b c, R a b -> R b c -> R a c.
Hypothesis RQ : forall a b c, R a b -> Q b c -> Q a c.

Lemma frames_or_frames {A} (m : M A) : frames R m -> frames_or R Q m.
Proof. intros H w. left. apply H. Qed.

Lemma frames_or_bind {A B} (m : M A) (k : A -> M B) :
  frames R m -> (forall a, frames_or R Q (k a)) -> frames_or R Q (bind m k).
Proof.
  intros Hm Hk w. unfold bind. specialize (Hm w).
  destruct (m w) as [[a|e] w1]; simpl in *; [|now left].
  destruct (Hk a w1) as [H|H]; [left; eauto | right; eauto].
Qed.
End FramesOr.

Lemma slots_only_booked_for patient a b c :
  slots_only a b -> booked_for patient b c -> booked_for patient a c.
Proof.
  unfold slots_only, same_appointments, booked_for.
  intros [_ Hab] (x & Hx & Hs & Hp). exists x. rewrite Hx, Hab. auto.
Qed.

Lemma get_booking_context_frames R (refl : forall w, R w w) E patient :
  frames R (Main.get_booking_context E patient).
Proof. intros w. rewrite get_booking_context_value. apply refl. Qed.

Lemma py_item_frames R (refl : forall w, R w w) v k : frames R (Py.item v k).
Proof.
  intros w. unfold Py.item. destruct v; try apply refl.
  destruct (Dict.get k d); apply refl.
Qed.

Lemma py_as_int_frames R (refl : forall w, R w w) v : frames R (Py.as_int v).
Proof. intros w. destruct v; apply refl. Qed.

Lemma store_booking_context_patients_only E id ctx :
  frames patients_only (Main.store_booking_context E id ctx).
Proof.
  unfold Main.store_booking_context.
  frame_steps_with ltac:(apply update_profile_field_patients_only)
                   patients_only_refl patients_only_trans.
Qed.

(** In [awaiting_time_selection] the patients table is written only after
    an appointment has been booked for the patient. *)
Lemma time_selection_order (E : env) (patient : patient_row) (Body : string) :
  frames_or slots_only (booked_for (patient_id patient)) (Main.time_selection E patient Body).
Proof.
  unfold Main.time_selection.
  apply (frames_or_bind _ _ slots_only_trans (slots_only_booked_for _));
    [apply get_booking_context_frames, slots_only_refl|]. intros context.
  destruct (dateparser_parse E (Str.strip Body)) as [[h mi]|];
    [|apply frames_or_frames, (frames_ret _ slots_only_refl)].
  repeat (apply (frames_or_bind _ _ slots_only_trans (slots_only_booked_for _));
          [first [apply py_item_frames, slots_only_refl
                 | apply py_as_int_frames, slots_only_refl]|]; intros ?).
  destruct (Calendar.local_datetime _ _ _ _ _) as [t|];
    [|apply frames_or_frames, (frames_raise _ slots_only_refl)].
  destruct (negb _); [apply frames_or_frames, (frames_ret _ slots_only_refl)|].
  destruct (t <? now E); [apply frames_or_frames, (frames_ret _ slots_only_refl)|].
  apply (frames_or_bind _ _ slots_only_trans (slots_only_booked_for _));
    [apply find_or_create_availability_slot_slots_only|]. intros [slot|];
    [|apply frames_or_frames, (frames_ret _ slots_only_refl)].
  intros w. unfold bind.
  pose proof (book_slot_post (slot_id slot) (patient_id patient) w) as [Hp Ha].
  destruct (book_slot (slot_id slot) (patient_id patient) w) as [[[appt|]|e] w1]; simpl in *.
  - right. destruct Ha as (Ha & Hs & Hpid).
    pose proof (store_booking_context_patients_only E (patient_id patient) (VDict []) w1)
      as [_ H1].
    destruct (Main.store_booking_context E (patient_id patient) (VDict []) w1)
      as [[u|e] w2]; simpl in *.
    + pose proof (update_patient_onboarding_step_patients_only
                    (patient_id patient) "start" w2) as [_ H2].
      destruct (update_patient_onboarding_step (patient_id patient) "start" w2)
        as [[u2|e] w3]; simpl in *;
        exists appt; unfold same_appointments in *; (split; [congruence | auto]).
    + exists appt. unfold same_appointments in *. split; [congruence | auto].
  - left. split; assumption.
  - left. split; assumption.
Qed.

Lemma multi_step_time_selection (E : env) (patient : patient_row) (Body : string) :
  Main.multi_step E patient "awaiting_time_selection" Body
  = Main.time_selection E patient Body.
Proof. reflexivity. Qed.

(** C6. In [awaiting_time_selection], a parsed time whose local instant
    has its hour outside [10, 22), or lies before now, is answered with
    the reply that explains it, and the store is left exactly as it was:
    step, booking context, slots and appointments.  For any message, the
    patients table (step and context) is written only when an appointment
    for the patient has been appended to the ledger. *)
Theorem time_selection_rejects_without_state_change :
  (forall (E : env) (patient : patient_row) (intent phone Body s : string)
          (d : list (string * pyval)) (year month day h mi : Z) (t : instant) (w : world),
      intent <> "greeting"%string ->
      notes patient = VStr s -> s <> EmptyString ->
      json_loads E s = Ok (VDict d) ->
      Dict.get "year" d = Some (VInt year) ->
      Dict.get "month" d = Some (VInt month) ->
      Dict.get "day" d = Some (VInt day) ->
      dateparser_parse E (Str.strip Body) = Some (h, mi) ->
      Calendar.local_datetime year month day h mi = Some t ->
      h < 10 \/ 22 <= h \/ t < now E ->
      Main.router E patient (Some "awaiting_time_selection"%string) intent phone Body w
      = (Ok [Say (if (10 <=? h) && (h <? 22) then Main.past_reply else Main.hours_reply)], w))
  /\ (forall (E : env) (patient : patient_row) (Body : string) (w : world),
        let w' := snd (Main.time_selection E patient Body w) in
        (patients w' = patients w /\ appointments w' = appointments w)
        \/ booked_for (patient_id patient) w w').
Proof.
  split.
  - intros E patient intent phone Body s d year month day h mi t w
           Hint Hnotes Hs Hjson Hy Hm Hd Hparse Hlocal Hbad.
    unfold Main.router.
    destruct (String.eqb_spec intent "greeting") as [->|_]; [congruence|].
    cbn [andb]. cbv beta iota.
    change (Str.startswith "awaiting_" "awaiting_time_selection") with true. cbv iota.
    rewrite multi_step_time_selection.
    unfold Main.time_selection, bind.
    rewrite get_booking_context_value.
    unfold booking_context_of. rewrite Hnotes.
    destruct s as [|c s]; [congruence|]. cbn [Str.is_empty].
    rewrite Hjson, Hparse. unfold Py.item. rewrite Hy, Hm, Hd. simpl.
    rewrite Hlocal.
    destruct ((10 <=? h) && (h <? 22)) eqn:Hh; simpl; [|reflexivity].
    apply andb_true_iff in Hh. destruct Hh as [H1 H2].
    apply Z.leb_le in H1. apply Z.ltb_lt in H2.
    assert (Ht : t < now E) by lia. apply Z.ltb_lt in Ht. now rewrite Ht.
  - intros E patient Body w w'. subst w'.
    destruct (time_selection_order E patient Body w) as [[H1 H2]|H]; [left|right]; auto.
Qed.

(** ** The classification adapter *)

Lemma dict_get_set_same k v d : Dict.get k (Dict.set k v d) = Some v.
Proof.
  induction d as [|[k' v'] d IH]; simpl.
  - now rewrite String.eqb_refl.
  - destruct (String.eqb k k') eqn:E; simpl; rewrite ?String.eqb_refl, ?E; auto.
Qed.

Lemma dict_get_set_other k k' v d : k <> k' -> Dict.get k (Dict.set k' v d) = Dict.get k d.
Proof.
  intros Hne. induction d as [|[k0 v0] d IH]; simpl.
  - destruct (String.eqb_spec k k'); [contradiction | reflexivity].
  - destruct (String.eqb_spec k' k0) as [->|Hk]; simpl.
    + destruct (String.eqb_spec k k0); [contradiction | reflexivity].
    + destruct (String.eqb k k0); [reflexivity | exact IH].
Qed.




Ltac fallback_cases :=
  repeat match goal with
         | |- context [if ?c then _ else _] => destruct c
         | |- context [match Str.int ?t with _ => _ end] => destruct (Str.int t)
         | |- context [match ?x with _ => _ end] => destruct x
         end.

(** ** [int()] on a run of decimal digits *)

Lemma decimal_not_space (c : ascii) : Str.isdecimal c = true -> Str.isspace_int c = false.
Proof.
  unfold Str.isdecimal, Str.isspace_int, Str.between, Str.is_code.
  intros H. apply andb_true_iff in H. destruct H as [H1 H2].
  apply N.leb_le in H1. apply N.leb_le in H2.
  repeat (apply orb_false_iff; split);
    first [ apply andb_false_iff; right; apply N.leb_gt; lia
          | apply N.eqb_neq; lia ].
Qed.

Lemma rstrip_int_decimals (s : string) :
  Str.forallb Str.isdecimal s = true -> Str.rstrip_int s = s.
Proof.
  induction s as [|c s IH]; [reflexivity|]. cbn [Str.forallb Str.rstrip_int]. intros H.
  apply andb_true_iff in H. destruct H as [Hc Hs].
  rewrite (decimal_not_space c Hc), IH by assumption. reflexivity.
Qed.

Lemma int_digits_decimals (s : string) :
  Str.forallb Str.isdecimal s = true -> Str.int_digits true s = Some s.
Proof.
  induction s as [|c s IH]; [reflexivity|]. cbn [Str.forallb Str.int_digits]. intros H.
  apply andb_true_iff in H. destruct H as [Hc Hs]. now rewrite Hc, IH.
Qed.

(** On a non-empty run of decimal digits [int()] gives the value, unless
    there are more digits than the limit. *)
Lemma int_of_decimals (s : string) :
  Str.is_empty s = false -> Str.forallb Str.isdecimal s = true ->
  Str.int s = Str.limited_value s.
Proof.
  destruct s as [|c s]; [discriminate|]. intros _ H.
  assert (Hr := rstrip_int_decimals _ H).
  cbn [Str.forallb] in H. apply andb_true_iff in H. destruct H as [Hc Hs].
  unfold Str.int. cbn [Str.lstrip_int]. rewrite (decimal_not_space c Hc), Hr.
  destruct (Ascii.eqb_spec c "-") as [->|_]; [discriminate Hc|].
  destruct (Ascii.eqb_spec c "+") as [->|_]; [discriminate Hc|].
  unfold Str.literal_value. cbn [Str.int_digits]. now rewrite Hc, int_digits_decimals.
Qed.

(** ** The rule-based classifier *)



(** It raises only at the step ['age'], on a number beyond the digit
    limit. *)
Lemma fallback_raises (E : env) (message : string) (current_step : option string)
  (is_onboarding_complete : bool) (e : exn) :
  Gemini._get_fallback_response E message current_step is_onboarding_complete = Raise e ->
  e = ValueError /\ current_step = Some "age"%string /\ refused_literal message = true.
Proof.
  unfold Gemini._get_fallback_response. cbv zeta.
  destruct (Gemini.step_is current_step "awaiting_custom_date"); [discriminate|].
  destruct (Gemini.mem_str _ ["other"; "others"; "different"]%string); [discriminate|].
  unfold refused_literal. cbv zeta.
  set (t := Str.strip (Str.strip (Str.lower message))).
  destruct (Str.is_empty t) eqn:Hempty; cbn [negb andb]; [discriminate|].
  destruct (Str.forallb Str.isdecimal t) eqn:Hdec; [|discriminate].
  destruct (Gemini.step_is current_step "current_symptoms").
  { destruct (Gemini.mem_str t _); discriminate. }
  destruct (is_onboarding_complete && _).
  { destruct (Gemini.mem_str t _); discriminate. }
  destruct (Gemini.step_is current_step "age") eqn:Hstep; [|discriminate].
  rewrite (int_of_decimals t Hempty Hdec). unfold Str.limited_value.
  destruct (Nat.leb_spec (String.length t) Str.max_str_digits) as [Hle|Hgt].
  { destruct (_ && _); discriminate. }
  intros [= <-]. split; [reflexivity|]. split.
  - destruct current_step as [c|]; [|discriminate].
    cbn [Gemini.step_is] in Hstep. apply String.eqb_eq in Hstep. now subst.
  - cbn [andb]. now apply Nat.ltb_lt.
Qed.

Lemma dict_get_update_none k e d :
  (forall kv, In kv e -> snd kv = VNone) ->
  Dict.get k d = Some VNone
  \/ (Dict.mem k d = false /\ existsb (fun kv => String.eqb k (fst kv)) e = true) ->
  Dict.get k (Dict.update e d) = Some VNone.
Proof.
  unfold Dict.update. revert d. induction e as [|[k' v'] e IH]; intros d Hnone H; simpl.
  - destruct H as [H|[_ H]]; [assumption | discriminate].
  - assert (Hv : v' = VNone) by (apply (Hnone (k', v')); now left). subst v'.
    apply IH; [intros kv Hkv; apply Hnone; now right|].
    destruct (String.eqb_spec k k') as [->|Hne].
    + left. apply dict_get_set_same.
    + rewrite dict_get_set_other by assumption.
      destruct H as [H|[Hm He]]; [now left|]. right.
      unfold Dict.mem in *. rewrite dict_get_set_other by assumption.
      simpl in He. destruct (String.eqb_spec k k'); [contradiction|]. auto.
Qed.

(** A required key the classifier left out is set to [None]. *)
Lemma fill_entities_missing_none (entities : list (string * pyval)) (k : string) :
  In k entity_keys -> Dict.mem k entities = false ->
  Dict.get k (Gemini.fill_entities entities) = Some VNone.
Proof.
  intros Hk Hm. unfold Gemini.fill_entities. apply dict_get_update_none.
  - intros kv Hkv. apply filter_In in Hkv. destruct Hkv as [Hin _].
    unfold Gemini.required_entities, Gemini.base_entities in Hin. simpl in Hin.
    repeat (destruct Hin as [<-|Hin]; [reflexivity|]). contradiction.
  - right. split; [assumption|]. apply existsb_exists.
    unfold entity_keys in Hk. apply in_map_iff in Hk. destruct Hk as ([k0 v0] & <- & Hin).
    exists (k0, v0). split; [|apply String.eqb_refl].
    apply filter_In. split; [assumption|]. simpl in *. now rewrite Hm.
Qed.





Lemma attempts_all_raise (E : env) (message : string) (current_step : option string)
  (complete : bool) :
  classifier_always_raises E message current_step = true ->
  Gemini.attempts E message current_step complete 0 Gemini.max_retries
  = Gemini._get_fallback_response E message current_step complete.
Proof.
  unfold classifier_always_raises, Gemini.max_retries. simpl.
  unfold Gemini.attempt_once, Gemini.max_retries.
  destruct (generate_content E message current_step 0); [|discriminate].
  destruct (generate_content E message current_step 1); [|discriminate].
  destruct (generate_content E message current_step 2); [|discriminate].
  reflexivity.
Qed.

(** The outcome of [analyze_message] in terms of the pure parts. *)
Lemma analyze_message_outcome (E : env) (message : string) (current_step : option string)
  (complete : bool) (w : world) :
  let fallback := Gemini._get_fallback_response E message current_step complete in
  let tried := if gemini_model E
               then Gemini.attempts E message current_step complete 0 Gemini.max_retries
               else fallback in
  Gemini.analyze_message E message current_step complete w
  = (match tried with Ok r => Ok r | Raise _ => fallback end, w).
Proof.
  cbv zeta. unfold Gemini.analyze_message, try_except, Gemini.lift, any_exception.
  destruct (gemini_model E); cbn [negb].
  - destruct (Gemini.attempts _ _ _ _ _ _); reflexivity.
  - destruct (Gemini._get_fallback_response _ _ _ _); reflexivity.
Qed.



(** ** Runs on the sample stores *)

Lemma book_slot_insert_raises_witness :
  exists w',
    book_slot 1 7 Sample.insert_raises = (Ok None, w')
    /\ appointments w' = []
    /\ In Sample.booked_slot (doctor_availability w').
Proof.
  exact (book_slot_insert_raises_leaves_slot_booked
           Sample.insert_raises 1 7 Sample.free_slot []
           eq_refl eq_refl (or_introl eq_refl) eq_refl eq_refl).
Defined.

Lemma book_slot_already_booked_witness :
  exists w',
    book_slot 1 9 Sample.bob_booked = (Ok None, w')
    /\ appointments w' = [Sample.bobs_appointment].
Proof.
  destruct (book_slot_already_booked Sample.bob_booked 1 9) as (w' & H & Ha & _).
  - intros r [<-|[]] _. reflexivity.
  - exists w'. split; assumption.
Defined.

Lemma cancel_appointment_idempotent_witness :
  exists w1,
    cancel_appointment (VInt 2) (VInt 1) Sample.bob_booked = (Ok true, w1)
    /\ cancel_appointment (VInt 2) (VInt 1) w1 = (Ok true, w1).
Proof.
  destruct (cancel_appointment_idempotent Sample.bob_booked (VInt 2) (VInt 1)
              eq_refl eq_refl) as (w1 & H1 & H2 & _).
  exists w1. split; assumption.
Defined.

Lemma find_or_create_availability_slot_witness :
  find_or_create_availability_slot Sample.ten Sample.half_past_ten Sample.bob_booked
  = (Ok None, Sample.bob_booked).
Proof.
  exact (proj1 (find_or_create_availability_slot_spec
                  Sample.bob_booked Sample.ten Sample.half_past_ten eq_refl eq_refl)).
Defined.


Lemma time_selection_before_opening_witness :
  Main.router Sample.offline Sample.bob (Some "awaiting_time_selection"%string)
              "unknown" "+1000000001" "9 am" Sample.bob_booked
  = (Ok [Say Main.hours_reply], Sample.bob_booked).
Proof.
  apply (proj1 time_selection_rejects_without_state_change
               Sample.offline Sample.bob "unknown"%string "+1000000001"%string
               "9 am"%string Sample.date_notes
               [("year", VInt 2026); ("month", VInt 11); ("day", VInt 10)]%string
               2026 11 10 9 0
               (20767 * Calendar.day + 9 * Calendar.hour - Calendar.kolkata_offset)
               Sample.bob_booked);
    try reflexivity; try discriminate.
  left. lia.
Defined.


(** The 30th of February reaches [datetime(...)], which raises; the webhook
    answers with the apology and the store keeps its step and context. *)
Example webhook_apology_on_invalid_date :
  Main.whatsapp_webhook Sample.offline "whatsapp:+1000000001" "4 pm" Sample.february_store
  = (Ok [Say Main.apology], Sample.february_store)
  /\ fst (Main.webhook_try Sample.offline "whatsapp:+1000000001" "4 pm" Sample.february_store)
     = Raise ValueError.
Proof. split; vm_compute; reflexivity. Qed.

(** The scenario of section 8: a new number is taken through the chain;
    "Bob", "woman" and "not-an-email" are answered with the prompt of the
    step, and the profile is complete at the end. *)
Example onboarding_scenario :
  conversation Sample.offline "whatsapp:+1000000001" Sample.onboarding_messages
               Sample.empty_store
  = ([ Ok [Say "Welcome to Dr. Sunil Mishra's Clinic! To create your patient profile, let's start with your full name."];
       Ok [Say Main.name_prompt];
       Ok [ThanksAskAge "Bob"];
       Ok [Say "Great. What is your sex? (e.g., Male, Female, Other)"];
       Ok [Say Main.sex_prompt];
       Ok [Say "Almost done! What is your email address? We'll use this for booking confirmations."];
       Ok [Say Main.email_prompt];
       Ok [ProfileComplete] ],
     mk_world [] [] [mk_patient 1 "+1000000001" (VStr "Bob Smith") (VInt 15) (VStr "Female")
                                (VStr "bob@x.com") VNone (Some "completed"%string) true]
              2 true [] [] (Some "start"%string)).
Proof. vm_compute. reflexivity. Qed.


(** Booking, cancelling and booking again at the same instant: the slot is
    free in between and the second appointment is a new row. *)
Example book_cancel_rebook :
  let w0 := mk_world [Sample.free_slot] [] [Sample.bob] 2 true [] [] None in
  let '(first, w1) := book_slot 1 7 w0 in
  let '(cancelled, w2) := cancel_appointment (VInt 2) (VInt 1) w1 in
  let '(second, w3) := book_slot 1 7 w2 in
  first = Ok (Some (mk_appt 2 7 (Some 1) Sample.ten "confirmed"))
  /\ cancelled = Ok true
  /\ doctor_availability w2 = [Sample.free_slot]
  /\ second = Ok (Some (mk_appt 3 7 (Some 1) Sample.ten "confirmed"))
  /\ doctor_availability w3 = [Sample.booked_slot].
Proof. vm_compute. repeat split; reflexivity. Qed.

(** * Further coverage: theorems *)

(** * Further properties *)

(** ** Retries *)

(** What a retried operation guarantees: [Q] when it returns, [R] when it
    gives up, provided a failed attempt keeps [R] and [R] composes with
    [Q]. *)
Lemma retry_loop_post {A} (func : M A) (R : world -> world -> Prop)
  (Q : world -> A -> world -> Prop) :
  (forall w, R w w) ->
  (forall a b c, R a b -> R b c -> R a c) ->
  (forall a b x c, R a b -> Q b x c -> Q a x c) ->
  (forall w, match func w with
             | (Ok a, w') => Q w a w'
             | (Raise _, w') => R w w'
             end) ->
  forall left attempt w,
    match retry_loop func attempt left w with
    | (Ok a, w') => Q w a w'
    | (Raise _, w') => R w w'
    end.
Proof.
  intros Rrefl Rtrans RQ Hf. induction left as [|left IH]; intros attempt w; simpl.
  - apply Rrefl.
  - unfold try_except. specialize (Hf w).
    destruct (func w) as [[a|e] w1]; [assumption|].
    unfold any_exception. destruct (Nat.eqb attempt _); [exact Hf|].
    specialize (IH (S attempt) w1).
    destruct (retry_loop func (S attempt) left w1) as [[a|e'] w2]; eauto.
Qed.

(** The exception of the trailing [raise] of [retry_with_backoff] is never
    seen: the third failure is re-raised from inside the loop. *)
Lemma retry_with_backoff_three (A : Type) (func : M A) (w : world) :
  retry_with_backoff func w
  = match func w with
    | (Ok a, w1) => (Ok a, w1)
    | (Raise _, w1) =>
        match func w1 with
        | (Ok a, w2) => (Ok a, w2)
        | (Raise _, w2) => func w2
        end
    end.
Proof.
  unfold retry_with_backoff, MAX_RETRIES. simpl. unfold try_except, any_exception, raise.
  destruct (func w) as [[a|e] w1]; [reflexivity|].
  destruct (func w1) as [[a|e1] w2]; [reflexivity|].
  destruct (func w2) as [[a|e2] w3]; reflexivity.
Qed.

(** ** Create-or-find of a patient *)

Lemma find_or_create_patient_fault_free (phone : string) (w : world) :
  supabase_client w = true -> faults w = [] ->
  find_or_create_patient phone w
  = match Table.select (fun p => String.eqb (phone_number p) phone) (patients w) with
    | p :: _ => (Ok (Some p), w)
    | [] =>
        (Ok (Some (default_patient phone w)),
         with_next_id (next_id w + 1)
           (with_patients (patients w ++ [default_patient phone w]) w))
    end.
Proof.
  intros Hc Hf. unfold find_or_create_patient, execute_with_retry.
  destruct (Table.select _ (patients w)) as [|p rest] eqn:Hsel;
    apply try_except_ok, retry_with_backoff_ok;
    unfold bind, get_supabase_client; rewrite Hc; simpl;
    unfold select_patients, execute; rewrite Hf, Hsel; [|reflexivity].
  unfold insert_patient, execute. rewrite Hf. reflexivity.
Qed.

Lemma select_app {R} (p : R -> bool) (l1 l2 : list R) :
  Table.select p (l1 ++ l2) = Table.select p l1 ++ Table.select p l2.
Proof. unfold Table.select. apply filter_app. Qed.

Lemma select_head_in {R} (p : R -> bool) (rows : list R) (r : R) (rest : list R) :
  Table.select p rows = r :: rest -> In r rows /\ p r = true.
Proof.
  intros H. apply (filter_In p r rows). unfold Table.select in H. rewrite H. now left.
Qed.

(** X1. With the store answering, [find_or_create_patient] always returns
    a patient with the given phone number, and a second call returns the
    same patient and changes nothing: an existing row is returned
    untouched, an unseen number gets one new row named after its last four
    characters, not onboarded. *)
Theorem find_or_create_patient_idempotent :
  forall (w : world) (phone : string),
    supabase_client w = true -> faults w = [] ->
    exists p w1,
      find_or_create_patient phone w = (Ok (Some p), w1)
      /\ phone_number p = phone
      /\ find_or_create_patient phone w1 = (Ok (Some p), w1)
      /\ ((In p (patients w) /\ w1 = w)
          \/ ((forall q, In q (patients w) -> phone_number q <> phone)
              /\ patients w1 = patients w ++ [p]
              /\ full_name p = VStr (String.append "Patient " (Str.last_chars 4 phone))
              /\ onboarding_step p = default_onboarding_step w
              /\ onboarding_completed p = false)).
Proof.
  intros w phone Hc Hf.
  rewrite (find_or_create_patient_fault_free phone w Hc Hf).
  destruct (Table.select _ (patients w)) as [|p rest] eqn:Hsel.
  - set (p := default_patient phone w).
    set (w1 := with_next_id _ _).
    exists p, w1. split; [reflexivity|]. split; [reflexivity|]. split.
    + rewrite (find_or_create_patient_fault_free phone w1 Hc Hf).
      subst w1. cbn [patients with_next_id with_patients].
      rewrite select_app, Hsel. cbn [Table.select filter app phone_number p default_patient].
      now rewrite String.eqb_refl.
    + right. repeat split; try reflexivity.
      intros q Hq Hphone.
      assert (Hin : In q (Table.select (fun p => String.eqb (phone_number p) phone)
                                       (patients w))).
      { apply filter_In. split; [assumption|]. now apply String.eqb_eq. }
      rewrite Hsel in Hin. contradiction.
  - destruct (select_head_in _ _ _ _ Hsel) as [Hin Hp]. apply String.eqb_eq in Hp.
    exists p, w. split; [reflexivity|]. split; [assumption|]. split.
    + rewrite (find_or_create_patient_fault_free phone w Hc Hf), Hsel. reflexivity.
    + left. auto.
Qed.

Lemma same_tables_refl w : same_tables w w.
Proof. repeat split. Qed.

Lemma same_tables_trans a b c : same_tables a b -> same_tables b c -> same_tables a c.
Proof. unfold same_tables. intros (?&?&?) (?&?&?). repeat split; congruence. Qed.

(** X2. Whatever the store does, [find_or_create_patient] never raises,
    never changes an existing row and never touches the slots or the
    appointments; a patient it returns carries the phone number asked for,
    and at most that one row was appended. *)
Theorem find_or_create_patient_safe :
  forall (w : world) (phone : string),
    exists r w',
      find_or_create_patient phone w = (Ok r, w')
      /\ found_or_added phone w r w'.
Proof.
  intros w phone. unfold find_or_create_patient, execute_with_retry, retry_with_backoff.
  match goal with
  | |- context [retry_loop ?f 0%nat MAX_RETRIES] =>
      pose proof (retry_loop_post f same_tables (found_or_added phone)
                    same_tables_refl same_tables_trans) as Hretry
  end.
  unfold try_except, any_exception.
  match type of Hretry with
  | ?P1 -> ?P2 -> _ => assert (H1 : P1); [|assert (H2 : P2); [|specialize (Hretry H1 H2 MAX_RETRIES 0%nat w)]]
  end.
  - unfold same_tables, found_or_added. intros a b x c (Hs & Ha & Hp) (Hs' & Ha' & Hx).
    split; [congruence|]. split; [congruence|].
    destruct x as [p|]; [|congruence].
    destruct Hx as [Hph [Hx|Hx]]; (split; [assumption|]); [left|right]; congruence.
  - intros w0. unfold bind, get_supabase_client.
    destruct w0 as [slots appts pats nid client fs out dflt]. simpl.
    destruct client; simpl; [|repeat split].
    unfold select_patients, insert_patient, execute, found_or_added, same_tables. simpl.
    destruct fs as [|f1 fs1]; simpl.
    + destruct (Table.select _ pats) as [|p rest] eqn:Hsel; simpl.
      * repeat split. now right.
      * destruct (select_head_in _ _ _ _ Hsel) as [_ Hp]. apply String.eqb_eq in Hp.
        repeat split; auto.
    + destruct f1; simpl; [| |repeat split].
      * destruct (Table.select _ pats) as [|p rest] eqn:Hsel; simpl.
        -- destruct fs1 as [|f2 fs2]; simpl; [repeat split; now right|].
           destruct f2; simpl; repeat split. now right.
        -- destruct (select_head_in _ _ _ _ Hsel) as [_ Hp]. apply String.eqb_eq in Hp.
           repeat split; auto.
      * destruct fs1 as [|f2 fs2]; simpl; [repeat split; now right|].
        destruct f2; simpl; repeat split. now right.
  - destruct (retry_loop _ 0%nat MAX_RETRIES w) as [[r|e] w'].
    + exists r, w'. split; [reflexivity | exact Hretry].
    + exists None, w'. split; [reflexivity|].
      destruct Hretry as (Hs & Ha & Hp). repeat split; assumption.
Qed.

(** ** Profile updates *)

Lemma update_profile_field_eq (id : row_id) (field_name : string) (field_value : pyval)
  (w : world) :
  update_profile_field id field_name field_value w
  = if supabase_client w && existsb (String.eqb field_name) allowed_fields then
      match checked_value field_name field_value w with
      | Some v =>
          match update_patients (fun p => patient_id p =? id)
                                (set_profile_column field_name v) w with
          | (Ok data, w') => (Ok (hd_error data), w')
          | (Raise _, w') => (Ok None, w')
          end
      | None => (Ok None, w)
      end
    else (Ok None, w).
Proof.
  unfold update_profile_field, try_except, bind, get_supabase_client, any_exception,
    checked_value.
  destruct (supabase_client w); cbn [negb andb]; [|reflexivity].
  destruct (existsb (String.eqb field_name) allowed_fields); cbn [negb]; [|reflexivity].
  destruct (String.eqb field_name "age").
  - unfold py_int.
    destruct field_value as [|b|z|s|l|d]; try destruct (Str.int s) as [n|];
      unfold ret, raise; cbn [fst]; try reflexivity;
      match goal with |- context [(1 <=? ?n) && (?n <=? 120)] =>
        destruct ((1 <=? n) && (n <=? 120)) end; cbn [negb]; try reflexivity;
      destruct (update_patients _ _ w) as [[data|e] w']; try reflexivity;
      rewrite first_row_hd; reflexivity.
  - unfold ret.
    destruct (update_patients _ _ w) as [[data|e] w']; [|reflexivity].
    rewrite first_row_hd. reflexivity.
Qed.

(** X3. A write to a column outside the allow-list, or of an age that is
    not an integer in [1,120], is refused by [update_profile_field] before
    any call to the store: the result is [None] and the store, its fault
    script included, is as it was. *)
Theorem update_profile_field_rejects :
  forall (w : world) (id : row_id) (field_name : string) (field_value : pyval),
    existsb (String.eqb field_name) allowed_fields = false
    \/ (field_name = "age"%string
        /\ forall n, fst (py_int field_value w) = Ok n -> ~ (1 <= n <= 120)) ->
    update_profile_field id field_name field_value w = (Ok None, w).
Proof.
  intros w id field_name field_value H. rewrite update_profile_field_eq.
  destruct H as [H|[-> H]].
  - rewrite H, andb_false_r. reflexivity.
  - destruct (supabase_client w && _); [|reflexivity].
    unfold checked_value. cbn [String.eqb Ascii.eqb Bool.eqb].
    destruct (fst (py_int field_value w)) as [n|e]; [|reflexivity].
    destruct ((1 <=? n) && (n <=? 120)) eqn:E; [|reflexivity].
    apply andb_true_iff in E. destruct E as [E1 E2].
    apply Z.leb_le in E1, E2. now destruct (H n eq_refl).
Qed.

(** X4. With the store answering, an age in [1,120] given as a number or
    as text is stored as an integer, on the rows of that patient and on no
    other row, and nothing but the [age] column changes. *)
Theorem update_profile_field_age_stored :
  forall (w : world) (id : row_id) (field_value : pyval) (n : Z),
    supabase_client w = true -> faults w = [] ->
    fst (py_int field_value w) = Ok n -> 1 <= n <= 120 ->
    exists r w',
      update_profile_field id "age" field_value w = (Ok r, w')
      /\ patients w' = map (fun p => if patient_id p =? id then with_age n p else p)
                           (patients w)
      /\ doctor_availability w' = doctor_availability w
      /\ appointments w' = appointments w.
Proof.
  intros w id field_value n Hc Hf Hint [H1 H2].
  rewrite update_profile_field_eq, Hc. cbn [andb existsb allowed_fields String.eqb orb].
  unfold checked_value. rewrite Hint.
  apply Z.leb_le in H1, H2. cbn [String.eqb Ascii.eqb Bool.eqb]. rewrite H1, H2. cbn [andb].
  rewrite update_patients_fault_free by assumption.
  eexists. eexists. split; [reflexivity|]. simpl. auto.
Qed.


(** ** Ordered queries *)

Lemma insert_by_time_perm a l : Permutation (insert_by_time a l) (a :: l).
Proof.
  induction l as [|b l IH]; simpl; [reflexivity|].
  destruct (appointment_time a <? appointment_time b); [reflexivity|].
  rewrite IH. apply perm_swap.
Qed.

Lemma order_by_time_perm l : Permutation (order_by_time l) l.
Proof.
  induction l as [|a l IH]; simpl; [reflexivity|].
  rewrite insert_by_time_perm. now constructor.
Qed.

Lemma insert_by_time_sorted a l :
  StronglySorted earlier_appointment l -> StronglySorted earlier_appointment (insert_by_time a l).
Proof.
  induction l as [|b l IH]; intros Hs; simpl; [repeat constructor|].
  inversion Hs as [|b' l' Hl Hb]; subst.
  destruct (Z.ltb_spec (appointment_time a) (appointment_time b)) as [Hlt|Hge].
  - constructor; [assumption|]. constructor; [unfold earlier_appointment; lia|].
    eapply Forall_impl; [|exact Hb]. unfold earlier_appointment. intros; lia.
  - constructor; [now apply IH|].
    eapply Permutation_Forall; [symmetry; apply insert_by_time_perm|].
    constructor; [exact Hge | assumption].
Qed.

Lemma order_by_time_sorted l : StronglySorted earlier_appointment (order_by_time l).
Proof.
  induction l as [|a l IH]; simpl; [constructor | now apply insert_by_time_sorted].
Qed.

Lemma insert_by_start_perm r l : Permutation (insert_by_start r l) (r :: l).
Proof.
  induction l as [|s l IH]; simpl; [reflexivity|].
  destruct (slot_start_time r <? slot_start_time s); [reflexivity|].
  rewrite IH. apply perm_swap.
Qed.

Lemma order_by_start_perm l : Permutation (order_by_start l) l.
Proof.
  induction l as [|r l IH]; simpl; [reflexivity|].
  rewrite insert_by_start_perm. now constructor.
Qed.

Lemma insert_by_start_sorted r l :
  StronglySorted earlier_slot l -> StronglySorted earlier_slot (insert_by_start r l).
Proof.
  induction l as [|s l IH]; intros Hs; simpl; [repeat constructor|].
  inversion Hs as [|s' l' Hl Hb]; subst.
  destruct (Z.ltb_spec (slot_start_time r) (slot_start_time s)) as [Hlt|Hge].
  - constructor; [assumption|]. constructor; [unfold earlier_slot; lia|].
    eapply Forall_impl; [|exact Hb]. unfold earlier_slot. intros; lia.
  - constructor; [now apply IH|].
    eapply Permutation_Forall; [symmetry; apply insert_by_start_perm|].
    constructor; [exact Hge | assumption].
Qed.

Lemma order_by_start_sorted l : StronglySorted earlier_slot (order_by_start l).
Proof.
  induction l as [|r l IH]; simpl; [constructor | now apply insert_by_start_sorted].
Qed.

Lemma in_firstn {X} (n : nat) (l : list X) (x : X) : In x (firstn n l) -> In x l.
Proof.
  intros H. rewrite <- (firstn_skipn n l). apply in_or_app. now left.
Qed.

Lemma in_skipn {X} (n : nat) (l : list X) (x : X) : In x (skipn n l) -> In x l.
Proof.
  intros H. rewrite <- (firstn_skipn n l). apply in_or_app. now right.
Qed.

Lemma sorted_firstn {X} (le : X -> X -> Prop) (n : nat) (l : list X) :
  StronglySorted le l -> StronglySorted le (firstn n l).
Proof.
  revert n. induction l as [|x l IH]; intros n Hs; destruct n; simpl; try constructor.
  - inversion Hs; subst. now apply IH.
  - inversion Hs; subst. apply Forall_forall. intros y Hy.
    match goal with H : Forall _ l |- _ =>
      rewrite Forall_forall in H; apply H end.
    eapply in_firstn; eassumption.
Qed.

Lemma sorted_firstn_skipn {X} (le : X -> X -> Prop) (n : nat) (l : list X) :
  StronglySorted le l ->
  forall x y, In x (firstn n l) -> In y (skipn n l) -> le x y.
Proof.
  revert n. induction l as [|a l IH]; intros n Hs x y Hx Hy; destruct n; simpl in *;
    try contradiction.
  inversion Hs as [|a' l' Hl Ha]; subst. destruct Hx as [<-|Hx].
  - rewrite Forall_forall in Ha. apply Ha. eapply in_skipn; eassumption.
  - eapply IH; eassumption.
Qed.

(** One pass of a read of the store: nothing changes, and the data is [l]
    or nothing. *)
Lemma read_post {X} (l : world -> list X) (w : world) :
  (forall a b, same_tables a b -> l b = l a) ->
  match (supabase_client <- get_supabase_client ;;
         if negb supabase_client then ret []
         else execute (fun w0 => (l w0, w0))) w with
  | (Ok d, w') => same_tables w w' /\ (d = [] \/ d = l w)
  | (Raise _, w') => same_tables w w'
  end.
Proof.
  intros Hl. unfold bind, get_supabase_client.
  destruct w as [slots appts pats nid client fs out dflt]. simpl.
  destruct client; simpl; [|split; [apply same_tables_refl | now left]].
  unfold execute. simpl.
  destruct fs as [|[] fs]; simpl;
    repeat split; auto.
  right. apply Hl. repeat split.
Qed.

Lemma read_with_retry {X} (l : world -> list X) (w : world) :
  (forall a b, same_tables a b -> l b = l a) ->
  exists d w',
    try_except
      (execute_with_retry
         (supabase_client <- get_supabase_client ;;
          if negb supabase_client then ret []
          else execute (fun w0 => (l w0, w0))))
      any_exception (fun _ => ret []) w = (Ok d, w')
    /\ same_tables w w' /\ (d = [] \/ d = l w).
Proof.
  intros Hl. unfold execute_with_retry, retry_with_backoff, try_except, any_exception.
  match goal with
  | |- context [retry_loop ?f 0%nat MAX_RETRIES] =>
      pose proof (retry_loop_post f same_tables
                    (fun a d b => same_tables a b /\ (d = [] \/ d = l a))
                    same_tables_refl same_tables_trans) as Hretry
  end.
  assert (H1 : forall a b (x : list X) c,
             same_tables a b -> same_tables b c /\ (x = [] \/ x = l b) ->
             same_tables a c /\ (x = [] \/ x = l a)).
  { intros a b x c Hab [Hbc Hx]. split; [eapply same_tables_trans; eassumption|].
    destruct Hx as [Hx|Hx]; [now left | right]. rewrite Hx. now apply Hl. }
  specialize (Hretry H1 (fun w0 => read_post l w0 Hl) MAX_RETRIES 0%nat w).
  destruct (retry_loop _ 0%nat MAX_RETRIES w) as [[d|e] w'].
  - exists d, w'. split; [reflexivity | exact Hretry].
  - exists [], w'. split; [reflexivity|]. split; [exact Hretry | now left].
Qed.

(** X6. [get_upcoming_appointments] never raises and never changes a
    table.  What it returns is sorted by appointment time, earliest first,
    and holds only confirmed appointments of the patient that are not
    before [now_utc]; with the store answering it holds all of them. *)
Theorem get_upcoming_appointments_sorted :
  forall (w : world) (now_utc : instant) (patient : row_id),
    exists l w',
      get_upcoming_appointments now_utc patient w = (Ok l, w')
      /\ same_tables w w'
      /\ StronglySorted earlier_appointment l
      /\ (forall a, In a l -> In a (appointments w) /\ upcoming now_utc patient a = true)
      /\ (supabase_client w = true -> faults w = [] ->
          Permutation l (filter (upcoming now_utc patient) (appointments w))).
Proof.
  intros w now_utc patient.
  set (l := fun w0 => order_by_time
                        (Table.select (fun a => (appt_patient_id a =? patient)
                                                && String.eqb (status a) "confirmed"
                                                && (now_utc <=? appointment_time a))
                                      (appointments w0))).
  assert (Hl : forall a b, same_tables a b -> l b = l a).
  { intros a b (_ & Ha & _). unfold l. now rewrite Ha. }
  destruct (read_with_retry l w Hl) as (d & w' & Hrun & Hsame & Hd).
  exists d, w'. split; [exact Hrun|]. split; [exact Hsame|].
  assert (Hperm : Permutation (l w) (filter (upcoming now_utc patient) (appointments w))).
  { unfold l. apply order_by_time_perm. }
  split; [|split].
  - destruct Hd as [->| ->]; [constructor | apply order_by_time_sorted].
  - intros a Ha. destruct Hd as [->| ->]; [contradiction|].
    apply (Permutation_in _ Hperm) in Ha. now apply filter_In in Ha.
  - intros Hc Hf. unfold get_upcoming_appointments in Hrun.
    unfold execute_with_retry in Hrun.
    erewrite try_except_ok in Hrun.
    + injection Hrun as <- _. exact Hperm.
    + apply retry_with_backoff_ok. unfold bind, get_supabase_client. rewrite Hc. simpl.
      unfold execute. rewrite Hf. reflexivity.
Qed.

(** X7. [get_available_slots] never raises and never changes a table; it
    returns at most [limit] slots, sorted by start time, each free and not
    before [current_time].  With the store answering they are the earliest
    ones: a free slot from [current_time] on that is not returned starts no
    earlier than any returned slot. *)
Theorem get_available_slots_earliest :
  forall (w : world) (current_time : instant) (limit : nat),
    exists l w',
      get_available_slots current_time limit w = (Ok l, w')
      /\ same_tables w w'
      /\ (List.length l <= limit)%nat
      /\ StronglySorted earlier_slot l
      /\ (forall r, In r l -> In r (doctor_availability w) /\ free_from current_time r = true)
      /\ (supabase_client w = true -> faults w = [] ->
          forall s, In s (doctor_availability w) -> free_from current_time s = true ->
                    In s l \/ forall r, In r l -> earlier_slot r s).
Proof.
  intros w current_time limit.
  set (all := fun w0 => order_by_start
                          (Table.select (free_from current_time) (doctor_availability w0))).
  set (l := fun w0 => firstn limit (all w0)).
  assert (Hl : forall a b, same_tables a b -> l b = l a).
  { intros a b (Hs & _ & _). unfold l, all. now rewrite Hs. }
  destruct (read_with_retry l w Hl) as (d & w' & Hrun & Hsame & Hd).
  exists d, w'. split; [exact Hrun|]. split; [exact Hsame|].
  assert (Hperm : Permutation (all w) (filter (free_from current_time) (doctor_availability w))).
  { unfold all. apply order_by_start_perm. }
  assert (Hsorted : StronglySorted earlier_slot (all w)) by apply order_by_start_sorted.
  split; [|split; [|split]].
  - destruct Hd as [->| ->]; [simpl; lia | apply firstn_le_length].
  - destruct Hd as [->| ->]; [constructor | now apply sorted_firstn].
  - intros r Hr. destruct Hd as [->| ->]; [contradiction|].
    apply in_firstn in Hr. apply (Permutation_in _ Hperm) in Hr. now apply filter_In in Hr.
  - intros Hc Hf s Hs Hfree.
    assert (Hd' : d = l w).
    { unfold get_available_slots, execute_with_retry in Hrun.
      erewrite try_except_ok in Hrun.
      - injection Hrun as <- _. reflexivity.
      - apply retry_with_backoff_ok. unfold bind, get_supabase_client. rewrite Hc. simpl.
        unfold execute. rewrite Hf. reflexivity. }
    subst d.
    assert (Hin : In s (all w)).
    { apply (Permutation_in _ (Permutation_sym Hperm)). now apply filter_In. }
    rewrite <- (firstn_skipn limit (all w)) in Hin. apply in_app_or in Hin.
    destruct Hin as [Hin|Hin]; [now left | right].
    intros r Hr. eapply sorted_firstn_skipn; eassumption.
Qed.

(** ** Booking *)

Lemma book_slot_fault_free (slot patient : row_id) (w : world) :
  supabase_client w = true -> faults w = [] ->
  book_slot slot patient w
  = match Table.updated (reservable slot) (set_is_booked true) (doctor_availability w) with
    | [] => (Ok None, w)
    | r :: _ =>
        (Ok (Some (new_appointment slot patient r w)),
         booked_store slot (new_appointment slot patient r w) w)
    end.
Proof.
  intros Hc Hf.
  unfold book_slot, try_except, book_slot_try, bind, get_supabase_client, ret.
  rewrite Hc. cbn [negb]. unfold update_slots at 1. unfold execute. rewrite Hf.
  fold (reservable slot).
  destruct (Table.updated (reservable slot) _ (doctor_availability w)) as [|r rest] eqn:Hupd.
  - assert (Hno : forall r, In r (doctor_availability w) -> reservable slot r = false)
      by (apply (updated_nil_no_match _ _ _ Hupd)).
    rewrite (update_no_match _ _ _ Hno). now rewrite with_slots_same.
  - unfold insert_appointment, execute. cbn [faults with_slots]. rewrite Hf. reflexivity.
Qed.

Lemma updated_head {R} (p : R -> bool) (f : R -> R) (rows : list R) (r : R) (rest : list R) :
  Table.updated p f rows = r :: rest -> exists r0, In r0 rows /\ p r0 = true /\ r = f r0.
Proof.
  unfold Table.updated. intros H.
  assert (Hin : In r (map f (filter p rows))) by (rewrite H; now left).
  apply in_map_iff in Hin. destruct Hin as (r0 & <- & Hr0).
  apply filter_In in Hr0. destruct Hr0. eauto.
Qed.

Lemma reserved_rows_booked (slot : row_id) (rows : list slot_row) (r : slot_row) :
  In r (Table.update (reservable slot) (set_is_booked true) rows) ->
  slot_id r = slot -> is_booked r = true.
Proof.
  intros Hin Hid. apply in_update in Hin. destruct Hin as (r0 & _ & ->).
  unfold reservable in *. destruct (slot_id r0 =? slot) eqn:E; simpl in *.
  - destruct (is_booked r0) eqn:Eb; simpl in *; [assumption | reflexivity].
  - apply Z.eqb_neq in E. contradiction.
Qed.

(** X8. Of two successive attempts to book the same free slot, with the
    store answering, exactly the first succeeds: it returns a confirmed
    appointment of the patient for that slot, at the start time of a row of
    that id, and leaves the rows of that id booked; the second attempt,
    for any patient, returns [None] and changes nothing. *)
Theorem book_slot_only_once :
  forall (w : world) (slot patient : row_id) (r : slot_row),
    supabase_client w = true -> faults w = [] ->
    In r (doctor_availability w) -> slot_id r = slot -> is_booked r = false ->
    exists a w1,
      book_slot slot patient w = (Ok (Some a), w1)
      /\ appt_patient_id a = patient /\ availability_id a = Some slot
      /\ status a = "confirmed"%string
      /\ (exists r0, In r0 (doctor_availability w) /\ slot_id r0 = slot
                     /\ appointment_time a = slot_start_time r0)
      /\ appointments w1 = appointments w ++ [a]
      /\ (forall r', In r' (doctor_availability w1) -> slot_id r' = slot -> is_booked r' = true)
      /\ (forall other, book_slot slot other w1 = (Ok None, w1)).
Proof.
  intros w slot patient r Hc Hf Hin Hid Hfree.
  rewrite (book_slot_fault_free slot patient w Hc Hf).
  destruct (Table.updated (reservable slot) _ (doctor_availability w)) as [|r1 rest] eqn:Hupd.
  - pose proof (updated_nil_no_match _ _ _ Hupd r Hin) as Hp.
    unfold reservable in Hp. rewrite Hid, Z.eqb_refl, Hfree in Hp. discriminate.
  - destruct (updated_head _ _ _ _ _ Hupd) as (r0 & Hr0 & Hp0 & ->).
    unfold reservable in Hp0. apply andb_true_iff in Hp0. destruct Hp0 as [Hid0 _].
    apply Z.eqb_eq in Hid0.
    eexists. eexists. split; [reflexivity|].
    repeat split.
    + exists r0. auto.
    + intros r' Hr'. eapply reserved_rows_booked. exact Hr'.
    + intros other.
      rewrite book_slot_fault_free by assumption.
      cbn [doctor_availability booked_store with_next_id with_appointments with_slots].
      rewrite updated_no_match; [reflexivity|].
      intros r' Hr'. unfold reservable.
      destruct (slot_id r' =? slot) eqn:E; [|reflexivity].
      apply Z.eqb_eq in E. now rewrite (reserved_rows_booked slot _ r' Hr' E).
Qed.

(** X9. Book, cancel, book again.  With the store answering and a free
    slot, the booking succeeds; cancelling that appointment with the slot
    id returns [True], cancels it and frees the slot; booking the slot
    again succeeds with a new appointment, whose id differs from the
    first. *)
Theorem book_cancel_book_again :
  forall (w : world) (slot patient other : row_id) (r : slot_row),
    supabase_client w = true -> faults w = [] ->
    In r (doctor_availability w) -> slot_id r = slot -> is_booked r = false ->
    slot <> 0 ->
    exists a1 w1 w2 a2 w3,
      book_slot slot patient w = (Ok (Some a1), w1)
      /\ cancel_appointment (VInt (appt_id a1)) (VInt slot) w1 = (Ok true, w2)
      /\ (forall r', In r' (doctor_availability w2) -> slot_id r' = slot -> is_booked r' = false)
      /\ (forall a, In a (appointments w2) -> appt_id a = appt_id a1 ->
                    status a = "cancelled"%string)
      /\ book_slot slot other w2 = (Ok (Some a2), w3)
      /\ appt_id a2 <> appt_id a1
      /\ status a2 = "confirmed"%string
      /\ In a2 (appointments w3).
Proof.
  intros w slot patient other r Hc Hf Hin Hid Hfree Hslot.
  rewrite (book_slot_fault_free slot patient w Hc Hf).
  destruct (Table.updated (reservable slot) _ (doctor_availability w)) as [|r1 rest] eqn:Hupd.
  { pose proof (updated_nil_no_match _ _ _ Hupd r Hin) as Hp.
    unfold reservable in Hp. rewrite Hid, Z.eqb_refl, Hfree in Hp. discriminate. }
  set (a1 := new_appointment slot patient r1 w).
  set (w1 := booked_store slot a1 w).
  assert (Hc1 : supabase_client w1 = true) by exact Hc.
  assert (Hf1 : faults w1 = []) by exact Hf.
  pose proof (cancel_appointment_fault_free (VInt (appt_id a1)) (VInt slot) w1 Hc1 Hf1) as Hcan.
  assert (Hex : existsb (fun a => id_is (VInt (appt_id a1)) (appt_id a)) (appointments w1)
                = true).
  { apply existsb_exists. exists a1. split.
    - subst w1. cbn [appointments booked_store with_next_id with_appointments].
      apply in_or_app. right. now left.
    - simpl. apply Z.eqb_refl. }
  rewrite Hex in Hcan.
  set (w2 := cancelled_store (VInt (appt_id a1)) (VInt slot) w1) in *.
  assert (Htruthy : py_truthy (VInt slot) = true).
  { simpl. destruct (Z.eqb_spec slot 0); [contradiction | reflexivity]. }
  assert (Hfree2 : forall r', In r' (doctor_availability w2) -> slot_id r' = slot ->
                              is_booked r' = false).
  { intros r' Hr' Hid'. subst w2. unfold cancelled_store in Hr'. rewrite Htruthy in Hr'.
    cbn [doctor_availability with_slots] in Hr'.
    apply in_update in Hr'. destruct Hr' as (r0 & _ & ->). simpl in *.
    destruct (slot =? slot_id r0) eqn:E; [reflexivity|].
    apply Z.eqb_neq in E. congruence. }
  assert (Hc2 : supabase_client w2 = true).
  { subst w2. unfold cancelled_store. rewrite Htruthy. exact Hc. }
  assert (Hf2 : faults w2 = []).
  { subst w2. unfold cancelled_store. rewrite Htruthy. exact Hf. }
  assert (Hin2 : exists r2, In r2 (doctor_availability w2) /\ slot_id r2 = slot).
  { exists (set_is_booked false (set_is_booked true r)).
    split; [|exact Hid].
    subst w2. unfold cancelled_store. rewrite Htruthy.
    cbn [doctor_availability with_slots with_appointments].
    unfold Table.update at 1. apply in_map_iff.
    exists (set_is_booked true r). split.
    - simpl. rewrite Hid, Z.eqb_refl. reflexivity.
    - subst w1. cbn [doctor_availability booked_store with_next_id with_appointments with_slots].
      unfold Table.update. apply in_map_iff. exists r. split; [|assumption].
      unfold reservable. now rewrite Hid, Z.eqb_refl, Hfree. }
  destruct Hin2 as (r2 & Hr2 & Hid2).
  pose proof (book_slot_fault_free slot other w2 Hc2 Hf2) as Hbook2.
  destruct (Table.updated (reservable slot) _ (doctor_availability w2)) as [|r3 rest3] eqn:Hupd2.
  { pose proof (updated_nil_no_match _ _ _ Hupd2 r2 Hr2) as Hp.
    unfold reservable in Hp. rewrite Hid2, Z.eqb_refl, (Hfree2 r2 Hr2 Hid2) in Hp.
    discriminate. }
  exists a1, w1, w2, (new_appointment slot other r3 w2),
         (booked_store slot (new_appointment slot other r3 w2) w2).
  split; [reflexivity|]. split; [exact Hcan|]. split; [exact Hfree2|].
  split; [|split; [exact Hbook2|split; [|split; [reflexivity|]]]].
  - intros a Ha Hida. subst w2. unfold cancelled_store in Ha. rewrite Htruthy in Ha.
    cbn [appointments with_slots with_appointments] in Ha.
    apply in_update in Ha. destruct Ha as (a0 & _ & ->). cbn [id_is] in *.
    destruct (appt_id a1 =? appt_id a0) eqn:E; [reflexivity|].
    apply Z.eqb_neq in E. congruence.
  - assert (Hn : next_id w2 = next_id w + 1).
    { subst w2. unfold cancelled_store. rewrite Htruthy. reflexivity. }
    simpl. rewrite Hn. lia.
  - cbn [appointments booked_store with_next_id with_appointments].
    apply in_or_app. right. now left.
Qed.

(** ** Slot lookup, creation and booking together *)

Lemma find_map_same {R} (p : R -> bool) (f : R -> R) (rows : list R) :
  (forall r, p (f r) = p r) ->
  find p (map f rows) = option_map f (find p rows).
Proof.
  intros Hp. induction rows as [|r rows IH]; simpl; [reflexivity|].
  rewrite Hp. destruct (p r); [reflexivity | exact IH].
Qed.

Lemma find_app_none {R} (p : R -> bool) (l : list R) (r : R) :
  find p l = None -> p r = true -> find p (l ++ [r]) = Some r.
Proof.
  induction l as [|x l IH]; simpl; intros Hn Hr; [now rewrite Hr|].
  destruct (p x); [discriminate | now apply IH].
Qed.

(** What [find_or_create_availability_slot] found or made is the first row
    at that start, and it is free. *)
Lemma find_or_create_first (start_time end_time : instant) (w w1 : world) (r : slot_row) :
  Spec.find_or_create start_time end_time w = (Some r, w1) ->
  find (fun s => slot_start_time s =? start_time) (doctor_availability w1) = Some r
  /\ is_booked r = false
  /\ supabase_client w1 = supabase_client w /\ faults w1 = faults w.
Proof.
  unfold Spec.find_or_create.
  destruct (find _ (doctor_availability w)) as [r0|] eqn:Hfind.
  - destruct (is_booked r0) eqn:Hb; intros H; inversion H; subst. auto.
  - destruct (existsb _ (doctor_availability w)); intros H; inversion H; subst.
    cbn [doctor_availability with_next_id with_slots supabase_client faults is_booked].
    split; [|auto]. apply find_app_none; [assumption|]. simpl. apply Z.eqb_refl.
Qed.

(** X10. A start time that has been booked cannot be handed out again.
    With the store answering: when [find_or_create_availability_slot]
    returns a slot for [start_time], booking that slot succeeds, and any
    later request for the same start time, whatever its end, returns
    [None] and changes nothing. *)
Theorem booked_start_is_not_offered_again :
  forall (w w1 : world) (start_time end_time later_end : instant) (patient : row_id)
         (r : slot_row),
    supabase_client w = true -> faults w = [] ->
    find_or_create_availability_slot start_time end_time w = (Ok (Some r), w1) ->
    exists a w2,
      book_slot (slot_id r) patient w1 = (Ok (Some a), w2)
      /\ find_or_create_availability_slot start_time later_end w2 = (Ok None, w2).
Proof.
  intros w w1 start_time end_time later_end patient r Hc Hf Hfoc.
  rewrite (find_or_create_refines w start_time end_time Hc Hf) in Hfoc.
  assert (Hspec : Spec.find_or_create start_time end_time w = (Some r, w1)).
  { destruct (Spec.find_or_create start_time end_time w) as [o w']. simpl in Hfoc.
    now inversion Hfoc. }
  destruct (find_or_create_first _ _ _ _ _ Hspec) as (Hfirst & Hfree & Hc1 & Hf1).
  rewrite Hc in Hc1. rewrite Hf in Hf1.
  rewrite (book_slot_fault_free (slot_id r) patient w1 Hc1 Hf1).
  pose proof (find_some _ _ Hfirst) as [Hin Hstart]. apply Z.eqb_eq in Hstart.
  destruct (Table.updated (reservable (slot_id r)) _ (doctor_availability w1))
    as [|r1 rest] eqn:Hupd.
  { pose proof (updated_nil_no_match _ _ _ Hupd r Hin) as Hp.
    unfold reservable in Hp. rewrite Z.eqb_refl, Hfree in Hp. discriminate. }
  eexists. eexists. split; [reflexivity|].
  set (w2 := booked_store _ _ w1).
  assert (Hfirst2 : find (fun s => slot_start_time s =? start_time) (doctor_availability w2)
                    = Some (set_is_booked true r)).
  { subst w2. cbn [doctor_availability booked_store with_next_id with_appointments with_slots].
    unfold Table.update. rewrite find_map_same.
    - rewrite Hfirst. simpl. unfold reservable. now rewrite Z.eqb_refl, Hfree.
    - intros s. destruct (reservable (slot_id r) s); reflexivity. }
  rewrite find_or_create_refines.
  - unfold Spec.find_or_create. rewrite Hfirst2. reflexivity.
  - exact Hc1.
  - exact Hf1.
Qed.

(** X11. With the store answering, [find_or_create_availability_slot]
    never adds a second row for a start time that already has one: a store
    whose slots start at distinct instants stays so. *)
Theorem find_or_create_keeps_starts_unique :
  forall (w : world) (start_time end_time : instant),
    supabase_client w = true -> faults w = [] ->
    unique_starts w ->
    unique_starts (snd (find_or_create_availability_slot start_time end_time w)).
Proof.
  intros w start_time end_time Hc Hf Hu.
  rewrite (find_or_create_refines w start_time end_time Hc Hf). cbn [snd].
  unfold Spec.find_or_create.
  destruct (find _ (doctor_availability w)) as [r0|] eqn:Hfind.
  - destruct (is_booked r0); exact Hu.
  - destruct (existsb _ (doctor_availability w)); [exact Hu|].
    unfold unique_starts in *. cbn [snd doctor_availability with_next_id with_slots].
    rewrite map_app. cbn [map slot_start_time].
    apply NoDup_app; [exact Hu | repeat constructor; intros [] |].
    intros x Hx [<-|[]].
    apply in_map_iff in Hx. destruct Hx as (s & Hs & Hin).
    pose proof (find_none _ _ Hfind s Hin) as Hn. cbv beta in Hn.
    rewrite Hs, Z.eqb_refl in Hn. discriminate.
Qed.

(** ** A cancellation that fails half way *)

Lemma cancel_attempt_slot_raises (appointment_id availability : pyval) (w : world)
  (fs : list fault) :
  supabase_client w = true -> faults w = Answer :: Throw :: fs ->
  existsb (fun a => id_is appointment_id (appt_id a)) (appointments w) = true ->
  py_truthy availability = true ->
  _cancel_operation appointment_id availability w
  = (Raise APIError,
     with_faults fs
       (with_appointments
          (Table.update (fun a => id_is appointment_id (appt_id a))
                        (set_status "cancelled") (appointments w)) w)).
Proof.
  intros Hc Hf Hex Ht.
  unfold _cancel_operation, bind, get_supabase_client. rewrite Hc. cbn [negb].
  unfold update_appointments, execute. rewrite Hf.
  cbn [appointments with_faults].
  destruct (Table.updated (fun a => id_is appointment_id (appt_id a))
                          (set_status "cancelled") (appointments w)) as [|a0 rest] eqn:Hupd.
  - apply existsb_exists in Hex. destruct Hex as (a & Ha & Hp).
    rewrite (updated_nil_no_match _ _ _ Hupd a Ha) in Hp. discriminate.
  - rewrite Ht. unfold update_slots, execute.
    cbn [faults with_faults with_appointments]. destruct w; reflexivity.
Qed.

(** X12. [cancel_appointment] can return [False] after having cancelled:
    when the appointment update answers and the slot update raises on each
    of the three attempts, the call returns [False], the appointment rows
    of that id are cancelled and the slot rows are as they were, still
    booked if they were. *)
Theorem cancel_appointment_false_after_cancelling :
  forall (w : world) (appointment_id availability : pyval),
    supabase_client w = true ->
    faults w = [Answer; Throw; Answer; Throw; Answer; Throw] ->
    existsb (fun a => id_is appointment_id (appt_id a)) (appointments w) = true ->
    py_truthy availability = true ->
    exists w',
      cancel_appointment appointment_id availability w = (Ok false, w')
      /\ (forall a, In a (appointments w') -> id_is appointment_id (appt_id a) = true ->
                    status a = "cancelled"%string)
      /\ doctor_availability w' = doctor_availability w.
Proof.
  intros w appointment_id availability Hc Hf Hex Ht.
  unfold cancel_appointment, execute_with_retry, try_except, any_exception.
  rewrite retry_with_backoff_three.
  rewrite (cancel_attempt_slot_raises _ _ w _ Hc Hf Hex Ht).
  set (w1 := with_faults _ _).
  assert (Hex1 : existsb (fun a => id_is appointment_id (appt_id a)) (appointments w1) = true).
  { subst w1. cbn [appointments with_faults with_appointments].
    now rewrite existsb_update_id. }
  rewrite (cancel_attempt_slot_raises _ _ w1 [Answer; Throw] Hc eq_refl Hex1 Ht).
  set (w2 := with_faults _ _).
  assert (Hex2 : existsb (fun a => id_is appointment_id (appt_id a)) (appointments w2) = true).
  { subst w2. cbn [appointments with_faults with_appointments].
    now rewrite existsb_update_id. }
  rewrite (cancel_attempt_slot_raises _ _ w2 [] Hc eq_refl Hex2 Ht).
  eexists. split; [reflexivity|]. split; [|reflexivity].
  intros a Ha Hid. cbn [appointments with_faults with_appointments] in Ha.
  apply in_update in Ha. destruct Ha as (a0 & _ & ->).
  destruct (id_is appointment_id (appt_id a0)) eqn:E; [reflexivity | congruence].
Qed.



(** C3, where the code leaves the claim.  For an appointment that exists
    and a slot id that was passed, a slot update that fails is a warning
    when the store returns no data, and the call returns [True]; it is a
    failure when the store raises on each of the three attempts, and the
    call returns [False].  In both runs the appointment rows of that id
    are cancelled and the slot rows are as they were. *)
Theorem cancel_appointment_slot_failure_two_ways :
  forall (w : world) (appointment_id availability : pyval),
    supabase_client w = true ->
    existsb (fun a => id_is appointment_id (appt_id a)) (appointments w) = true ->
    py_truthy availability = true ->
    (exists w1,
       cancel_appointment appointment_id availability (with_faults [Answer; NoData] w)
       = (Ok true, w1)
       /\ (forall a, In a (appointments w1) -> id_is appointment_id (appt_id a) = true ->
                     status a = "cancelled"%string)
       /\ doctor_availability w1 = doctor_availability w)
    /\ (exists w2,
          cancel_appointment appointment_id availability
            (with_faults [Answer; Throw; Answer; Throw; Answer; Throw] w)
          = (Ok false, w2)
          /\ (forall a, In a (appointments w2) -> id_is appointment_id (appt_id a) = true ->
                        status a = "cancelled"%string)
          /\ doctor_availability w2 = doctor_availability w).
Proof.
  intros w appointment_id availability Hc Hex Ht.
  assert (Hcancelled : forall a,
             In a (Table.update (fun a => id_is appointment_id (appt_id a))
                                (set_status "cancelled") (appointments w)) ->
             id_is appointment_id (appt_id a) = true -> status a = "cancelled"%string).
  { intros a Ha Hid. apply in_update in Ha. destruct Ha as (a0 & _ & ->).
    destruct (id_is appointment_id (appt_id a0)) eqn:E; [reflexivity | congruence]. }
  split.
  - unfold cancel_appointment, execute_with_retry.
    eexists. split; [|split].
    + apply try_except_ok, retry_with_backoff_ok.
      unfold _cancel_operation, bind, get_supabase_client.
      cbn [supabase_client with_faults]. rewrite Hc. cbn [negb].
      unfold update_appointments, execute. cbn [faults with_faults appointments].
      destruct (Table.updated (fun a => id_is appointment_id (appt_id a))
                              (set_status "cancelled") (appointments w))
        as [|a0 rest] eqn:Hupd.
      { apply existsb_exists in Hex. destruct Hex as (a & Ha & Hp).
        rewrite (updated_nil_no_match _ _ _ Hupd a Ha) in Hp. discriminate. }
      rewrite Ht. unfold update_slots, execute.
      cbn [faults with_faults with_appointments]. reflexivity.
    + cbn [appointments with_faults with_appointments]. exact Hcancelled.
    + reflexivity.
  - unfold cancel_appointment, execute_with_retry, try_except, any_exception.
    rewrite retry_with_backoff_three.
    rewrite (cancel_attempt_slot_raises _ _
               (with_faults [Answer; Throw; Answer; Throw; Answer; Throw] w)
               [Answer; Throw; Answer; Throw] Hc eq_refl Hex Ht).
    set (w1 := with_faults [Answer; Throw; Answer; Throw] _).
    assert (Hex1 : existsb (fun a => id_is appointment_id (appt_id a)) (appointments w1)
                   = true).
    { subst w1. cbn [appointments with_faults with_appointments].
      now rewrite existsb_update_id. }
    rewrite (cancel_attempt_slot_raises _ _ w1 [Answer; Throw] Hc eq_refl Hex1 Ht).
    set (w2 := with_faults [Answer; Throw] _).
    assert (Hex2 : existsb (fun a => id_is appointment_id (appt_id a)) (appointments w2)
                   = true).
    { subst w2. cbn [appointments with_faults with_appointments].
      now rewrite existsb_update_id. }
    rewrite (cancel_attempt_slot_raises _ _ w2 [] Hc eq_refl Hex2 Ht).
    eexists. split; [reflexivity|]. split; [|reflexivity].
    intros a Ha Hid. cbn [appointments with_faults with_appointments] in Ha.
    apply in_update in Ha. destruct Ha as (a0 & _ & ->).
    destruct (id_is appointment_id (appt_id a0)) eqn:E; [reflexivity | congruence].
Qed.

(** ** Fault-free runs of the handlers' store calls *)

Lemma update_as_rewrite (id : row_id) (g : patient_row -> patient_row) (w : world) :
  with_patients (Table.update (fun p => patient_id p =? id) g (patients w)) w
  = with_patient id g w.
Proof. reflexivity. Qed.



Lemma update_field_run (id : row_id) (field_name : string) (v : pyval) (w : world) :
  supabase_client w = true -> faults w = [] ->
  existsb (String.eqb field_name) allowed_fields = true ->
  checked_value field_name v w = Some v ->
  exists r, update_profile_field id field_name v w
            = (Ok r, with_patient id (set_profile_column field_name v) w).
Proof.
  intros Hc Hf Hall Hchk. rewrite update_profile_field_eq, Hc, Hall, Hchk. cbn [andb].
  rewrite update_patients_fault_free by assumption. eauto.
Qed.

Lemma store_booking_context_run (E : env) (id : row_id) (ctx : pyval) (w : world) :
  supabase_client w = true -> faults w = [] ->
  Main.store_booking_context E id ctx w
  = (Ok tt, with_patient id (set_profile_column "notes" (VStr (json_dumps E ctx))) w).
Proof.
  intros Hc Hf. unfold Main.store_booking_context, bind.
  destruct (update_field_run id "notes" (VStr (json_dumps E ctx)) w Hc Hf eq_refl eq_refl)
    as [r ->]. reflexivity.
Qed.

Lemma with_patient_client id g w : supabase_client (with_patient id g w) = supabase_client w.
Proof. reflexivity. Qed.

Lemma with_patient_faults id g w : faults (with_patient id g w) = faults w.
Proof. reflexivity. Qed.

(** ** The booking context, written and read back *)

(** X13. What [store_booking_context] writes, [get_booking_context] reads
    back.  With the store answering and a context that [json] round-trips
    to a non-empty text, every row of the patient afterwards yields that
    context, and the rows of other patients are as they were. *)
Theorem booking_context_round_trip :
  forall (E : env) (w : world) (id : row_id) (ctx : pyval),
    supabase_client w = true -> faults w = [] ->
    json_loads E (json_dumps E ctx) = Ok ctx ->
    json_dumps E ctx <> EmptyString ->
    exists w',
      Main.store_booking_context E id ctx w = (Ok tt, w')
      /\ Forall2 (fun before after =>
                    if patient_id before =? id
                    then patient_id after = id
                         /\ forall w0, Main.get_booking_context E after w0 = (Ok ctx, w0)
                    else after = before)
                 (patients w) (patients w').
Proof.
  intros E w id ctx Hc Hf Hrt Hne.
  rewrite store_booking_context_run by assumption.
  eexists. split; [reflexivity|].
  unfold with_patient, rewrite_patient. cbn [patients with_patients].
  induction (patients w) as [|p rows IH]; simpl; constructor; [|exact IH].
  destruct (patient_id p =? id) eqn:Eid; [|reflexivity].
  split; [now apply Z.eqb_eq|].
  intros w0. rewrite get_booking_context_value. unfold booking_context_of.
  destruct p; unfold set_profile_column; simpl.
  destruct (json_dumps E ctx) as [|c s] eqn:Hd; [congruence|].
  cbn [Str.is_empty]. now rewrite Hrt.
Qed.

(** ** When the store cannot be reached *)

Lemma find_or_create_patient_without_client (phone : string) (w : world) :
  supabase_client w = false -> find_or_create_patient phone w = (Ok None, w).
Proof.
  intros Hc. unfold find_or_create_patient, execute_with_retry.
  apply try_except_ok, retry_with_backoff_ok.
  unfold bind, get_supabase_client. now rewrite Hc.
Qed.

(** X14. When the store client is not configured, or the store raises on
    each of the three attempts to look the sender up, the webhook answers
    with the "system difficulties" reply, whatever the sender and the
    message, and no table changes. *)
Theorem webhook_without_store :
  forall (E : env) (From Body : string) (w : world),
    supabase_client w = false
    \/ (exists fs, faults w = Throw :: Throw :: Throw :: fs) ->
    exists w',
      Main.whatsapp_webhook E From Body w = (Ok [Say difficulties_reply], w')
      /\ same_tables w w'.
Proof.
  intros E From Body w [Hc|[fs Hf]].
  - exists w. split; [|apply same_tables_refl].
    unfold Main.whatsapp_webhook, Main.webhook_try.
    apply try_except_ok. unfold bind.
    now rewrite find_or_create_patient_without_client.
  - unfold Main.whatsapp_webhook, Main.webhook_try, try_except, bind.
    unfold find_or_create_patient, execute_with_retry, try_except, any_exception.
    rewrite retry_with_backoff_three.
    unfold bind, get_supabase_client.
    destruct w as [slots appts pats nid client fs0 out dflt]. simpl in Hf. subst fs0.
    destruct client; simpl.
    + unfold select_patients, execute. simpl.
      eexists. split; [reflexivity|]. repeat split.
    + eexists. split; [reflexivity|]. repeat split.
Qed.

(** ** Onboarding answers that pass the checks *)







(** ** Answers to the numbered menus *)



Lemma listed_get (context : result pyval) (key : string) (l : list pyval) :
  listed context key = Some l ->
  exists v, context = Ok v
            /\ forall w, Py.get v key (VList []) w = (Ok (VList l), w).
Proof.
  unfold listed, Py.get. destruct context as [[| | | | |d]|e]; try discriminate.
  intros H. exists (VDict d). split; [reflexivity|]. intros w.
  destruct (Dict.get key d) as [[| | | |l'|]|]; try discriminate;
    injection H as <-; reflexivity.
Qed.

Lemma off_list_cases (Body : string) (l : list pyval) :
  off_list Body l = true ->
  Str.int (Str.strip Body) = None
  \/ exists n, Str.int (Str.strip Body) = Some n
               /\ ((1 <=? n) = false
                   \/ ((1 <=? n) = true /\ (n <=? Z.of_nat (List.length l)) = false)).
Proof.
  unfold off_list. destruct (Str.int (Str.strip Body)) as [n|]; [|now left].
  intros H. right. exists n. split; [reflexivity|].
  destruct (1 <=? n) eqn:E1; [right; split; [reflexivity|] | now left].
  apply orb_true_iff in H. destruct H as [H|H]; [apply Z.ltb_lt in H; apply Z.leb_le in E1; lia|].
  apply Z.leb_gt. now apply Z.ltb_lt in H.
Qed.

(** X16. An answer to a numbered menu that is not a number, or a number
    that is not on the list, changes nothing: the cancellation, the
    reschedule and the month menus each reply with their prompt and leave
    the store, the step and the stored list as they were. *)
Theorem choice_off_the_list_changes_nothing :
  forall (E : env) (patient : patient_row) (Body : string) (w : world) (l : list pyval),
    off_list Body l = true ->
    let context := booking_context_of E (notes patient) in
    (listed context "appointments" = Some l ->
     Main.cancellation_choice E patient Body w
     = (Ok (off_list_reply Body
              "Please reply with just the number of the appointment to cancel."
              "That's not a valid number. Please choose from the list above."), w)
     /\ Main.reschedule_choice E patient Body w
        = (Ok (off_list_reply Body
                 "Please reply with just the number of the appointment to reschedule."
                 "That's not a valid number. Please choose from the list above."), w))
    /\ (listed context "month_options" = Some l ->
        Main.month_selection E patient Body w
        = (Ok (off_list_reply Body
                 "Please reply with just the number for your chosen month (e.g., '1')."
                 "Please select a valid number from the list of months."), w)).
Proof.
  intros E patient Body w l Hoff context.
  apply off_list_cases in Hoff.
  split; intros Hl; destruct (listed_get _ _ _ Hl) as (v & Hctx & Hget); [split|];
    unfold Main.cancellation_choice, Main.reschedule_choice, Main.month_selection;
    unfold bind at 1; rewrite get_booking_context_value; fold context; rewrite Hctx;
    unfold bind at 1; rewrite Hget;
    unfold off_list_reply, try_except, bind, Py.int_of_str;
    destruct Hoff as [->|(n & -> & [H1|[H1 H2]])]; try reflexivity;
    unfold ret at 1; rewrite H1; try reflexivity;
    unfold Py.len, ret; rewrite H2; reflexivity.
Qed.

Lemma in_list_cases (n : Z) (l : list pyval) (x : pyval) :
  1 <= n -> nth_error l (Z.to_nat (n - 1)) = Some x ->
  (1 <=? n) = true /\ (n <=? Z.of_nat (List.length l)) = true.
Proof.
  intros Hn Hnth. split; [now apply Z.leb_le|]. apply Z.leb_le.
  assert (Z.to_nat (n - 1) < List.length l)%nat
    by (apply nth_error_Some; congruence).
  lia.
Qed.


Lemma bind_eq {A B} (m : M A) (k : A -> M B) (w w' : world) (a : A) :
  m w = (Ok a, w') -> bind m k w = k a w'.
Proof. intros H. unfold bind. now rewrite H. Qed.

Ltac bind_step tac := etransitivity; [eapply bind_eq; tac | cbv beta].




Lemma try_except_any_ok {A} (m : M A) (h : exn -> M A) (w : world) :
  (forall e w0, exists a w1, h e w0 = (Ok a, w1)) ->
  exists a w', try_except m any_exception h w = (Ok a, w').
Proof.
  intros Hh. unfold try_except. destruct (m w) as [[a|e] w1]; [eauto|].
  unfold any_exception. apply Hh.
Qed.

Lemma cancel_appointment_returns (i v : pyval) (w : world) :
  exists b w', cancel_appointment i v w = (Ok b, w').
Proof. apply try_except_any_ok. intros; unfold ret; eauto. Qed.

Lemma update_step_returns (id : row_id) (step : string) (w : world) :
  exists r w', update_patient_onboarding_step id step w = (Ok r, w').
Proof. apply try_except_any_ok. intros; unfold ret; eauto. Qed.

Lemma update_profile_field_returns (id : row_id) (field_name : string) (v : pyval)
  (w : world) :
  exists r w', update_profile_field id field_name v w = (Ok r, w').
Proof. apply try_except_any_ok. intros; unfold ret; eauto. Qed.

Lemma store_booking_context_returns (E : env) (id : row_id) (ctx : pyval) (w : world) :
  exists w', Main.store_booking_context E id ctx w = (Ok tt, w').
Proof.
  unfold Main.store_booking_context, bind.
  destruct (update_profile_field_returns id "notes" (VStr (json_dumps E ctx)) w)
    as (r & w' & ->).
  unfold ret. eauto.
Qed.

Lemma cancel_appointment_without_client (i v : pyval) (w : world) :
  supabase_client w = false -> cancel_appointment i v w = (Ok false, w).
Proof.
  intros Hc. unfold cancel_appointment, execute_with_retry.
  apply try_except_ok, retry_with_backoff_ok.
  unfold _cancel_operation, bind, get_supabase_client. now rewrite Hc.
Qed.

Lemma update_step_without_client (id : row_id) (step : string) (w : world) :
  supabase_client w = false -> update_patient_onboarding_step id step w = (Ok None, w).
Proof.
  intros Hc. unfold update_patient_onboarding_step, execute_with_retry.
  apply try_except_ok, retry_with_backoff_ok.
  unfold bind, get_supabase_client. now rewrite Hc.
Qed.

Lemma store_booking_context_without_client (E : env) (id : row_id) (ctx : pyval) (w : world) :
  supabase_client w = false -> Main.store_booking_context E id ctx w = (Ok tt, w).
Proof.
  intros Hc. unfold Main.store_booking_context, bind.
  rewrite update_profile_field_eq, Hc. reflexivity.
Qed.

(** X18. A number on the reschedule list always opens the month menu
    with the words that the old appointment is cancelled, whether or not
    the cancellation went through: the reply is the same whatever the
    store does, and with no store client nothing at all is changed. *)
Theorem reschedule_choice_reply_ignores_outcome :
  forall (E : env) (patient : patient_row) (Body : string) (w : world)
         (shown : list appt_row) (n : Z) (a : appt_row),
    listed (booking_context_of E (notes patient)) "appointments"
    = Some (map appointment_row_value shown) ->
    Str.int (Str.strip Body) = Some n -> 1 <= n ->
    nth_error shown (Z.to_nat (n - 1)) = Some a ->
    exists w',
      Main.reschedule_choice E patient Body w
      = (Ok [MonthMenu "Your old appointment is cancelled. Let's find a new time. Please choose a month:"
                       (Main.month_options E)], w')
      /\ (supabase_client w = false -> w' = w).
Proof.
  intros E patient Body w shown n a Hl Hint Hn Hnth.
  assert (Hnth' : nth_error (map appointment_row_value shown) (Z.to_nat (n - 1))
                  = Some (appointment_row_value a)) by (now apply map_nth_error).
  destruct (in_list_cases n _ _ Hn Hnth') as [H1 H2].
  destruct (cancel_appointment_returns (VInt (appt_id a)) (availability_value a) w)
    as (b & w1 & Hcancel).
  destruct (update_step_returns (patient_id patient) "awaiting_month_selection" w1)
    as (r & w2 & Hstep).
  destruct (store_booking_context_returns E (patient_id patient)
              (VDict [("month_options"%string,
                       Main.month_options_value (Main.month_options E))]) w2)
    as (w3 & Hstore).
  exists w3. split.
  - unfold Main.reschedule_choice.
    destruct (listed_get _ _ _ Hl) as (v & Hctx & Hget).
    unfold bind at 1. rewrite get_booking_context_value, Hctx.
    unfold bind at 1. rewrite Hget.
    apply try_except_ok.
    bind_step ltac:(unfold Py.int_of_str; rewrite Hint; reflexivity).
    bind_step ltac:(rewrite H1; unfold bind, Py.len, ret; reflexivity).
    rewrite H2.
    bind_step ltac:(unfold Py.index; rewrite Hnth'; reflexivity).
    bind_step ltac:(reflexivity).
    bind_step ltac:(reflexivity).
    fold (availability_value a).
    bind_step ltac:(exact Hcancel).
    bind_step ltac:(exact Hstep).
    bind_step ltac:(exact Hstore).
    reflexivity.
  - intros Hc.
    rewrite cancel_appointment_without_client in Hcancel by assumption.
    injection Hcancel as _ <-.
    rewrite update_step_without_client in Hstep by assumption.
    injection Hstep as _ <-.
    rewrite store_booking_context_without_client in Hstore by assumption.
    now injection Hstore as <-.
Qed.



(** ** The time step *)

Lemma local_datetime_day_range (y m d h mi : Z) :
  Calendar.days_in_month y m < d -> Calendar.local_datetime y m d h mi = None.
Proof.
  intros H. unfold Calendar.local_datetime.
  replace (d <=? Calendar.days_in_month y m) with false by (symmetry; apply Z.leb_gt; lia).
  now rewrite !andb_false_r.
Qed.

(** X21. A stored day that the stored month does not have makes every
    understood time raise [ValueError] in the time step: no reply is
    built there and the store, the step and the context stay as they
    were, so the same happens on the next message. *)
Theorem time_selection_day_beyond_month_raises :
  forall (E : env) (patient : patient_row) (Body : string) (w : world)
         (d : list (string * pyval)) (year month day h mi : Z),
    booking_context_of E (notes patient) = Ok (VDict d) ->
    Dict.get "year" d = Some (VInt year) ->
    Dict.get "month" d = Some (VInt month) ->
    Dict.get "day" d = Some (VInt day) ->
    dateparser_parse E (Str.strip Body) = Some (h, mi) ->
    Calendar.days_in_month year month < day ->
    Main.time_selection E patient Body w = (Raise ValueError, w).
Proof.
  intros E patient Body w d year month day h mi Hctx Hy Hm Hd Hparse Hday.
  unfold Main.time_selection. unfold bind at 1.
  rewrite get_booking_context_value, Hctx, Hparse.
  unfold bind, Py.item, Py.as_int, ret. rewrite Hy, Hm, Hd.
  now rewrite local_datetime_day_range.
Qed.




(** ** The rule-based classifier *)

Lemma fallback_intent_known (E : env) (message : string) (current_step : option string)
  (is_onboarding_complete : bool) :
  rule_intent_outcome (Gemini._get_fallback_response E message current_step
                         is_onboarding_complete) = true.
Proof.
  unfold Gemini._get_fallback_response. cbv zeta.
  fallback_cases; reflexivity.
Qed.

Lemma analyze_message_offline (E : env) (message : string) (current_step : option string)
  (complete : bool) (w : world) :
  gemini_model E = false \/ classifier_always_raises E message current_step = true ->
  Gemini.analyze_message E message current_step complete w
  = (Gemini._get_fallback_response E message current_step complete, w).
Proof.
  intros H. rewrite analyze_message_outcome. f_equal.
  destruct (gemini_model E).
  - destruct H as [H|H]; [discriminate|]. rewrite attempts_all_raise by assumption.
    destruct (Gemini._get_fallback_response _ _ _ _); reflexivity.
  - destruct (Gemini._get_fallback_response _ _ _ _); reflexivity.
Qed.

Lemma rule_intent_is_no_flow_intent (intent : string) :
  existsb (String.eqb intent) rule_intents = true ->
  In intent rule_intents /\ ~ In intent flow_intents.
Proof.
  intros Hk. apply existsb_exists in Hk.
  destruct Hk as (x & Hin & Heq). apply String.eqb_eq in Heq. subst x.
  split; [assumption|].
  intros Hflow. unfold rule_intents in Hin. unfold flow_intents in Hflow.
  simpl in Hin, Hflow.
  repeat (destruct Hin as [<-|Hin];
          [repeat (destruct Hflow as [Hflow|Hflow]; [discriminate|]); contradiction|]).
  contradiction.
Qed.

(** X23. With the classifier unavailable (no model configured, or every
    attempt raising), [analyze_message] leaves the store alone, and the
    intent of the analysis it returns is always one of the fifteen intents
    of the rule-based classifier, and so never one of [request_booking],
    [request_cancellation], [request_reschedule] and [dermatology_query].
    It returns an analysis for every message and step but one: at the
    step ['age'] a number of more than 4300 digits makes it raise
    [ValueError]. *)
Theorem analyze_message_offline_intents :
  forall (E : env) (message : string) (current_step : option string) (complete : bool)
         (w : world),
    gemini_model E = false \/ classifier_always_raises E message current_step = true ->
    snd (Gemini.analyze_message E message current_step complete w) = w
    /\ match fst (Gemini.analyze_message E message current_step complete w) with
       | Ok analysis =>
           exists intent,
             intent_of analysis = Some intent
             /\ In intent rule_intents
             /\ ~ In intent flow_intents
       | Raise e =>
           e = ValueError /\ current_step = Some "age"%string
           /\ refused_literal message = true
       end.
Proof.
  intros E message current_step complete w H.
  rewrite analyze_message_offline by assumption. cbn [fst snd]. split; [reflexivity|].
  pose proof (fallback_intent_known E message current_step complete) as Hk.
  destruct (Gemini._get_fallback_response E message current_step complete)
    as [analysis|e] eqn:Hf.
  - cbn [rule_intent_outcome] in Hk. unfold has_rule_intent in Hk.
    destruct (intent_of analysis) as [intent|]; [|discriminate].
    exists intent. split; [reflexivity|]. now apply rule_intent_is_no_flow_intent.
  - eapply fallback_raises; eassumption.
Qed.

Lemma intent_of_get (analysis : pyval) (intent : string) (w : world) :
  intent_of analysis = Some intent ->
  Py.get analysis "intent" (VStr "unknown") w = (Ok (VStr intent), w).
Proof.
  unfold intent_of, Py.get. destruct analysis as [| | | | |d]; try discriminate.
  destruct (Dict.get "intent" d) as [[| | |s| |]|]; try discriminate.
  now intros [= ->].
Qed.

(** X24. With the classifier unavailable, a message of a patient at
    [start] or [completed] never starts a flow: whatever the text, the
    router either greets the patient or answers that it did not
    understand, and the store is left as it was. *)
Theorem no_flow_starts_without_classifier :
  forall (E : env) (patient : patient_row) (step phone Body : string) (w : world),
    gemini_model E = false \/ classifier_always_raises E Body (Some step) = true ->
    step = "start"%string \/ step = "completed"%string ->
    exists analysis intent,
      Gemini.analyze_message E Body (Some step) false w = (Ok analysis, w)
      /\ Py.get analysis "intent" (VStr "unknown") w = (Ok (VStr intent), w)
      /\ (Main.router E patient (Some step) (Str.lower intent) phone Body w
          = Main.greeting patient w
          \/ Main.router E patient (Some step) (Str.lower intent) phone Body w
             = (Ok [Say not_understood], w))
      /\ snd (Main.greeting patient w) = w.
Proof.
  intros E patient step phone Body w H Hstep.
  rewrite analyze_message_offline by assumption.
  pose proof (fallback_intent_known E Body (Some step) false) as Hk.
  destruct (Gemini._get_fallback_response E Body (Some step) false) as [analysis|e] eqn:Hf.
  2:{ apply fallback_raises in Hf. destruct Hf as (_ & Hage & _).
      destruct Hstep as [-> | ->]; discriminate. }
  cbn [rule_intent_outcome] in Hk. unfold has_rule_intent in Hk.
  destruct (intent_of analysis) as [intent|] eqn:Hi; [|discriminate].
  exists analysis, intent.
  split; [reflexivity|]. split; [now apply intent_of_get|]. split.
  - apply existsb_exists in Hk.
    destruct Hk as (x & Hin & Heq). apply String.eqb_eq in Heq. subst x.
    unfold rule_intents in Hin. simpl in Hin.
    destruct Hstep as [-> | ->];
      repeat (destruct Hin as [<-|Hin]; [first [now left | now right]|]);
      contradiction.
  - unfold Main.greeting. destruct (full_name patient) as [| | |name| |]; try reflexivity.
    destruct (Str.split name); reflexivity.
Qed.

(** ** Cleaning the classifier's reply *)

Lemma count_char_app (p : ascii -> bool) (a b : string) :
  Str.count_char p (a ++ b) = (Str.count_char p a + Str.count_char p b)%nat.
Proof.
  induction a as [|c a IH]; simpl; [reflexivity|].
  destruct (p c); simpl; now rewrite IH.
Qed.

Lemma count_char_repeat (p : ascii -> bool) (c : ascii) (n : nat) :
  Str.count_char p (Str.repeat c n) = if p c then n else O.
Proof.
  induction n as [|n IH]; simpl; [now destruct (p c)|].
  rewrite IH. now destruct (p c).
Qed.

Lemma find_char_drop (c : ascii) (s : string) (i : nat) :
  Str.find_char c s = Some i -> exists rest, Str.drop i s = String c rest.
Proof.
  revert i. induction s as [|a s IH]; intros i; simpl; [discriminate|].
  destruct (Ascii.eqb_spec a c) as [->|_].
  - intros [= <-]. simpl. eauto.
  - destruct (Str.find_char c s) as [j|]; [|discriminate].
    intros [= <-]. simpl. now apply IH.
Qed.

Lemma strip_keeps_head (c : ascii) (s : string) :
  Str.isspace c = false -> exists rest, Str.strip (String c s) = String c rest.
Proof.
  intros Hc. unfold Str.strip. cbn [Str.lstrip]. rewrite Hc.
  cbn [Str.rstrip]. rewrite Hc. cbn [andb]. eauto.
Qed.

Lemma even_succ_of_odd (n : nat) : Nat.odd n = true -> Nat.even (n + 1) = true.
Proof.
  intros H. rewrite Nat.add_1_r, Nat.even_succ. exact H.
Qed.

Lemma even_of_not_odd (n : nat) : Nat.odd n = false -> Nat.even n = true.
Proof.
  intros H. unfold Nat.odd in H. now apply negb_false_iff in H.
Qed.

(** X25. Whatever text the classifier sent, [_clean_gemini_response]
    returns either the empty text or a text that begins with an opening
    brace; in it the opening braces are never more than the closing ones
    and the number of double quotes is even. *)
Theorem clean_gemini_response_shape :
  forall (response_text : string),
    let cleaned := Gemini._clean_gemini_response response_text in
    (cleaned = EmptyString \/ exists rest, cleaned = String "{" rest)
    /\ (Str.count_char (Re.is_char "{") cleaned <= Str.count_char (Re.is_char "}") cleaned)%nat
    /\ Nat.even (Str.count_char Gemini.is_dquote cleaned) = true.
Proof.
  intros response_text. unfold Gemini._clean_gemini_response.
  destruct (Str.is_empty response_text); [cbn; auto|].
  set (text := if Str.startswith "```json" response_text then _ else _).
  destruct (Str.find_char "{" text) as [start_idx|] eqn:Hfind; [|cbn; auto].
  destruct (Str.rfind_char "}" text) as [end_idx|]; [|cbn; auto].
  set (portion := Str.strip (Str.slice start_idx (end_idx + 1) text)).
  assert (Hhead : portion = EmptyString \/ exists rest, portion = String "{" rest).
  { unfold portion, Str.slice.
    destruct (find_char_drop _ _ _ Hfind) as [rest ->].
    destruct (end_idx + 1 - start_idx)%nat; [now left|].
    right. cbn [Str.take]. now apply strip_keeps_head. }
  set (opens := Str.count_char (Re.is_char "{") portion).
  set (closes := Str.count_char (Re.is_char "}") portion).
  set (balanced := if negb (Nat.eqb opens closes) && Nat.ltb closes opens then _ else _).
  assert (Hb : (balanced = EmptyString \/ exists rest, balanced = String "{" rest)
               /\ (Str.count_char (Re.is_char "{") balanced
                   <= Str.count_char (Re.is_char "}") balanced)%nat).
  { unfold balanced.
    destruct (Nat.eqb_spec opens closes) as [Heq|Hne]; cbn [negb andb].
    - split; [assumption|]. fold opens closes. lia.
    - destruct (Nat.ltb_spec closes opens) as [Hlt|Hge].
      + split.
        * destruct Hhead as [->|[rest ->]]; [|right; simpl; eauto].
          exfalso. unfold opens, closes in Hlt. simpl in Hlt. lia.
        * rewrite !count_char_app, !count_char_repeat. fold opens closes.
          change (Re.is_char "{" "}") with false. change (Re.is_char "}" "}") with true.
          cbv iota. lia.
      + split; [assumption|]. fold opens closes. lia. }
  destruct Hb as [Hbhead Hbcount].
  destruct (Nat.odd (Str.count_char Gemini.is_dquote balanced)) eqn:Hodd.
  - repeat split.
    + destruct Hbhead as [->|[rest ->]]; [discriminate Hodd|]. right. simpl. eauto.
    + rewrite !count_char_app. simpl. lia.
    + rewrite count_char_app. now apply even_succ_of_odd.
  - repeat split; [assumption|assumption|now apply even_of_not_odd].
Qed.

(** ** Splitting a long WhatsApp message *)

Lemma lstrip_length (s : string) : (String.length (Str.lstrip s) <= String.length s)%nat.
Proof.
  induction s as [|c s IH]; simpl; [lia|]. destruct (Str.isspace c); simpl; lia.
Qed.

Lemma rstrip_length (s : string) : (String.length (Str.rstrip s) <= String.length s)%nat.
Proof.
  induction s as [|c s IH]; simpl; [lia|].
  destruct (Str.isspace c && Str.is_empty (Str.rstrip s)); simpl; lia.
Qed.

Lemma strip_length (s : string) : (String.length (Str.strip s) <= String.length s)%nat.
Proof.
  unfold Str.strip. pose proof (rstrip_length (Str.lstrip s)). pose proof (lstrip_length s). lia.
Qed.

Lemma string_length_app (a b : string) :
  String.length (a ++ b) = (String.length a + String.length b)%nat.
Proof. induction a as [|c a IH]; simpl; [reflexivity | now rewrite IH]. Qed.

Lemma add_line_within (chunks : list string) (current line : string) :
  Forall (fun c => String.length c <= Twilio.MAX_LENGTH)%nat chunks ->
  (String.length current <= Twilio.MAX_LENGTH)%nat ->
  (String.length line <= Twilio.MAX_LENGTH)%nat ->
  Forall (fun c => String.length c <= Twilio.MAX_LENGTH)%nat
         (fst (Twilio.add_line (chunks, current) line))
  /\ (String.length (snd (Twilio.add_line (chunks, current) line)) <= Twilio.MAX_LENGTH)%nat.
Proof.
  intros Hchunks Hcur Hline. unfold Twilio.add_line.
  destruct (Nat.ltb_spec Twilio.MAX_LENGTH (String.length current + String.length line + 1))
    as [Hlt|Hge]; cbn [fst snd].
  - split; [|assumption]. apply Forall_app. split; [assumption|]. now constructor.
  - split; [assumption|]. rewrite string_length_app. simpl. lia.
Qed.

Lemma fold_add_line_within (lines chunks : list string) (current : string) :
  Forall (fun c => String.length c <= Twilio.MAX_LENGTH)%nat lines ->
  Forall (fun c => String.length c <= Twilio.MAX_LENGTH)%nat chunks ->
  (String.length current <= Twilio.MAX_LENGTH)%nat ->
  Forall (fun c => String.length c <= Twilio.MAX_LENGTH)%nat
         (fst (fold_left Twilio.add_line lines (chunks, current)))
  /\ (String.length (snd (fold_left Twilio.add_line lines (chunks, current)))
      <= Twilio.MAX_LENGTH)%nat.
Proof.
  revert chunks current. induction lines as [|line lines IH]; intros chunks current Hl Hc Hcur.
  - simpl. auto.
  - inversion Hl as [|? ? Hline Hrest]; subst.
    cbn [fold_left].
    destruct (add_line_within chunks current line Hc Hcur Hline) as [H1 H2].
    destruct (Twilio.add_line (chunks, current) line) as [chunks' current'].
    now apply IH.
Qed.

Lemma message_chunks_within (message_body : string) :
  Forall (fun c => String.length c <= Twilio.MAX_LENGTH)%nat
         (Twilio.split_lines message_body) ->
  Forall (fun c => String.length c <= Twilio.MAX_LENGTH)%nat
         (Twilio.message_chunks message_body).
Proof.
  intros Hl. unfold Twilio.message_chunks, Twilio.chunk_state.
  destruct (fold_add_line_within (Twilio.split_lines message_body) [] EmptyString Hl)
    as [H1 H2]; [constructor | simpl; lia |].
  destruct (fold_left _ _ _) as [chunks current]. cbn [fst snd] in *.
  destruct (Str.is_empty current); [assumption|].
  apply Forall_app. split; [assumption | now constructor].
Qed.

(** X26. [send_whatsapp_message] keeps every message it hands to Twilio
    within 1500 characters as long as no single line of the text is
    longer than that: a text within the limit goes out whole, and a
    longer one goes out as pieces that are each within the limit, none
    of them empty. *)
Theorem whatsapp_bodies_within_limit :
  forall (message_body : string),
    Forall (fun line => String.length line <= Twilio.MAX_LENGTH)%nat
           (Twilio.split_lines message_body) ->
    Forall (fun body => String.length body <= Twilio.MAX_LENGTH)%nat
           (Twilio.bodies message_body)
    /\ ((String.length message_body <= Twilio.MAX_LENGTH)%nat ->
        Twilio.bodies message_body = [message_body])
    /\ ((Twilio.MAX_LENGTH < String.length message_body)%nat ->
        Forall (fun body => body <> EmptyString) (Twilio.bodies message_body)).
Proof.
  intros message_body Hl. unfold Twilio.bodies.
  destruct (Nat.leb_spec (String.length message_body) Twilio.MAX_LENGTH) as [Hshort|Hlong].
  - split; [constructor; [assumption|constructor]|]. split; [reflexivity | lia].
  - split; [|split; [lia|intros _]].
    + apply Forall_forall. intros b Hb. apply in_map_iff in Hb.
      destruct Hb as (chunk & <- & Hin). apply filter_In in Hin. destruct Hin as [Hin _].
      pose proof (message_chunks_within message_body Hl) as Hw.
      rewrite Forall_forall in Hw. specialize (Hw chunk Hin).
      pose proof (strip_length chunk). lia.
    + apply Forall_forall. intros b Hb. apply in_map_iff in Hb.
      destruct Hb as (chunk & <- & Hin). apply filter_In in Hin. destruct Hin as [_ Hne].
      intros Heq. rewrite Heq in Hne. discriminate.
Qed.

Lemma split_lines_cons (s : string) : exists line lines, Twilio.split_lines s = line :: lines.
Proof.
  destruct s as [|c s]; simpl; [eauto|].
  destruct (Ascii.eqb c Twilio.newline); [eauto|].
  destruct (Twilio.split_lines s); eauto.
Qed.

Lemma concat_cons (sep x y : string) (l : list string) :
  String.concat sep (x :: y :: l) = (x ++ sep ++ String.concat sep (y :: l))%string.
Proof. reflexivity. Qed.

Lemma split_lines_join (s : string) :
  String.concat (String Twilio.newline EmptyString) (Twilio.split_lines s) = s.
Proof.
  induction s as [|c s IH]; [reflexivity|].
  cbn [Twilio.split_lines].
  destruct (split_lines_cons s) as (line & lines & Hs). rewrite Hs in *.
  destruct (Ascii.eqb_spec c Twilio.newline) as [->|_].
  - rewrite concat_cons, IH. reflexivity.
  - destruct lines as [|l ls].
    + cbn [String.concat] in *. now rewrite IH.
    + rewrite concat_cons in *. rewrite <- IH. reflexivity.
Qed.

Lemma concat_snoc (sep : string) (l : list string) (a b : string) :
  String.concat sep ((l ++ [a]) ++ [b]) = (String.concat sep (l ++ [a]) ++ sep ++ b)%string.
Proof.
  induction l as [|x l IH]; [reflexivity|].
  cbn [app]. destruct l as [|y l].
  - cbn [app String.concat]. now rewrite ?append_assoc.
  - cbn [app String.concat] in *. rewrite IH. now rewrite ?append_assoc.
Qed.

Lemma concat_last_app (sep : string) (l : list string) (a b : string) :
  String.concat sep (l ++ [(a ++ b)%string]) = (String.concat sep (l ++ [a]) ++ b)%string.
Proof.
  induction l as [|x l IH]; [reflexivity|].
  cbn [app]. destruct l as [|y l].
  - cbn [app String.concat]. now rewrite ?append_assoc.
  - cbn [app String.concat] in *. rewrite IH. now rewrite ?append_assoc.
Qed.

(** The lines, each after a newline. *)
Lemma fold_add_line_join (lines chunks : list string) (current : string) :
  let state := fold_left Twilio.add_line lines (chunks, current) in
  String.concat (String Twilio.newline EmptyString) (fst state ++ [snd state])
  = (String.concat (String Twilio.newline EmptyString) (chunks ++ [current])
     ++ fold_right (fun line rest => String Twilio.newline (line ++ rest)) EmptyString lines)%string.
Proof.
  cbv zeta. revert chunks current.
  induction lines as [|line lines IH]; intros chunks current.
  - cbn [fold_left fold_right fst snd]. now rewrite append_nil_r.
  - cbn [fold_left fold_right].
    destruct (Twilio.add_line (chunks, current) line) as [chunks' current'] eqn:Hadd.
    rewrite IH. unfold Twilio.add_line in Hadd.
    destruct (Twilio.MAX_LENGTH <? _)%nat; inversion Hadd; subst.
    + rewrite concat_snoc. rewrite !append_assoc. reflexivity.
    + rewrite concat_last_app. rewrite !append_assoc. reflexivity.
Qed.

Lemma prefixed_lines_join (lines : list string) :
  lines <> [] ->
  fold_right (fun line rest => String Twilio.newline (line ++ rest)) EmptyString lines
  = String Twilio.newline (String.concat (String Twilio.newline EmptyString) lines).
Proof.
  induction lines as [|line lines IH]; [congruence|]. intros _.
  cbn [fold_right]. destruct lines as [|l ls].
  - cbn [fold_right String.concat]. now rewrite append_nil_r.
  - rewrite IH by discriminate. reflexivity.
Qed.

(** X27. The chunks cut a long text at line ends and lose nothing of it:
    the stored chunks and the current chunk at the end of the loop, joined
    by newlines, are the text after one leading newline; and the list of
    chunks is that list, without the last chunk when it is empty. *)
Theorem whatsapp_chunks_lose_nothing :
  forall (message_body : string),
    let state := Twilio.chunk_state message_body in
    String.concat (String Twilio.newline EmptyString) (fst state ++ [snd state])
    = String Twilio.newline message_body
    /\ (Twilio.message_chunks message_body = fst state ++ [snd state]
        \/ (snd state = EmptyString /\ Twilio.message_chunks message_body = fst state)).
Proof.
  intros message_body. cbv zeta. split.
  - unfold Twilio.chunk_state.
    rewrite (fold_add_line_join (Twilio.split_lines message_body) [] EmptyString).
    destruct (split_lines_cons message_body) as (line & lines & Hs).
    rewrite prefixed_lines_join by (rewrite Hs; discriminate).
    now rewrite split_lines_join.
  - unfold Twilio.message_chunks.
    destruct (Twilio.chunk_state message_body) as [chunks current]. cbn [fst snd].
    destruct current; cbn [Str.is_empty]; auto.
Qed.

(** ** From the menu to the cancellation *)






(** ** Inputs on which the code leaves the claims *)




(** [int()] on a few texts: white space around the digits is skipped, a
    separator character is not; the digits are counted with their leading
    zeros, and more than 4300 of them are refused. *)
Example int_samples :
  Str.int " 35 " = Some 35
  /\ Str.int "1_000" = Some 1000
  /\ Str.int "-7" = Some (-7)
  /\ Str.int (String (ascii_of_nat 28) "35") = None
  /\ Str.int (String (ascii_of_nat 160) "35") = Some 35
  /\ Str.int (Str.repeat "0" 4300 ++ "5") = None
  /\ Str.int (Str.repeat "0" 4299 ++ "5") = Some 5
  /\ Str.int Sample.digits_4301 = None.
Proof. vm_compute. repeat split; reflexivity. Qed.

(** The age check of [update_profile_field] follows [int()]: a text with a
    separator character in front of the digits is refused and nothing is
    written. *)
Example update_profile_field_refuses_separator :
  update_profile_field 7 "age" (VStr (String (ascii_of_nat 28) "35")) Sample.bob_booked
  = (Ok None, Sample.bob_booked).
Proof. vm_compute. reflexivity. Qed.

(** A number of 4301 digits at the cancellation menu is no number for
    [int()]: the reply is the one for a text that is not a number. *)
Example cancellation_choice_refuses_long_number :
  Main.cancellation_choice Case.menus Case.bob_at_menu Sample.digits_4301 Sample.bob_booked
  = (Ok [Say "Please reply with just the number of the appointment to cancel."],
     Sample.bob_booked).
Proof. vm_compute. reflexivity. Qed.

(** A scratch-pad that [json.loads] refuses with [RecursionError] stops the
    day step before it looks at the answer. *)
Example date_selection_raises_on_deep_notes :
  Main.date_selection Sample.deep Sample.bob_deep "32" Sample.empty_store
  = (Raise RecursionError, Sample.empty_store).
Proof. vm_compute. reflexivity. Qed.


(** ** Runs of the further properties on the sample stores *)

Lemma find_or_create_patient_idempotent_witness :
  exists p w1,
    find_or_create_patient "+1000000001" Sample.bob_booked = (Ok (Some p), w1)
    /\ phone_number p = "+1000000001"%string
    /\ find_or_create_patient "+1000000001" w1 = (Ok (Some p), w1).
Proof.
  destruct (find_or_create_patient_idempotent Sample.bob_booked "+1000000001"
              eq_refl eq_refl) as (p & w1 & H1 & H2 & H3 & _).
  exists p, w1. auto.
Defined.

Lemma update_profile_field_rejects_witness :
  update_profile_field 7 "blood_group" (VStr "O+") Sample.bob_booked
  = (Ok None, Sample.bob_booked).
Proof.
  exact (update_profile_field_rejects Sample.bob_booked 7 "blood_group" (VStr "O+")
           (or_introl eq_refl)).
Defined.

Lemma update_profile_field_age_stored_witness :
  exists r w',
    update_profile_field 7 "age" (VStr "42") Sample.bob_booked = (Ok r, w')
    /\ map age (patients w') = [VInt 42].
Proof.
  destruct (update_profile_field_age_stored Sample.bob_booked 7 (VStr "42") 42
              eq_refl eq_refl eq_refl ltac:(lia)) as (r & w' & H & Hp & _).
  exists r, w'. split; [exact H|]. rewrite Hp. reflexivity.
Defined.

Lemma get_upcoming_appointments_sorted_witness :
  exists l w',
    get_upcoming_appointments Sample.noon 7 Sample.bob_booked = (Ok l, w')
    /\ Permutation l [Sample.bobs_appointment].
Proof.
  destruct (get_upcoming_appointments_sorted Sample.bob_booked Sample.noon 7)
    as (l & w' & H & _ & _ & _ & Hall).
  exists l, w'. split; [exact H|]. exact (Hall eq_refl eq_refl).
Defined.

Lemma get_available_slots_earliest_witness :
  exists l w',
    get_available_slots Sample.noon 10 Case.one_free_slot = (Ok l, w')
    /\ (In Sample.free_slot l \/ forall r, In r l -> earlier_slot r Sample.free_slot).
Proof.
  destruct (get_available_slots_earliest Case.one_free_slot Sample.noon 10)
    as (l & w' & H & _ & _ & _ & _ & Hall).
  exists l, w'. split; [exact H|].
  exact (Hall eq_refl eq_refl Sample.free_slot (or_introl eq_refl) eq_refl).
Defined.

Lemma book_slot_only_once_witness :
  exists a w1,
    book_slot 1 7 Case.one_free_slot = (Ok (Some a), w1)
    /\ book_slot 1 9 w1 = (Ok None, w1).
Proof.
  destruct (book_slot_only_once Case.one_free_slot 1 7 Sample.free_slot
              eq_refl eq_refl (or_introl eq_refl) eq_refl eq_refl)
    as (a & w1 & H & _ & _ & _ & _ & _ & _ & Hagain).
  exists a, w1. split; [exact H | apply Hagain].
Defined.

Lemma book_cancel_book_again_witness :
  exists a1 w1 w2 a2 w3,
    book_slot 1 7 Case.one_free_slot = (Ok (Some a1), w1)
    /\ cancel_appointment (VInt (appt_id a1)) (VInt 1) w1 = (Ok true, w2)
    /\ book_slot 1 9 w2 = (Ok (Some a2), w3)
    /\ appt_id a2 <> appt_id a1.
Proof.
  destruct (book_cancel_book_again Case.one_free_slot 1 7 9 Sample.free_slot
              eq_refl eq_refl (or_introl eq_refl) eq_refl eq_refl ltac:(discriminate))
    as (a1 & w1 & w2 & a2 & w3 & H1 & H2 & _ & _ & H3 & H4 & _).
  exists a1, w1, w2, a2, w3. auto.
Defined.

Lemma booked_start_is_not_offered_again_witness :
  exists a w2,
    book_slot 1 7 Case.one_free_slot = (Ok (Some a), w2)
    /\ find_or_create_availability_slot Sample.ten (Sample.ten + Calendar.hour) w2
       = (Ok None, w2).
Proof.
  exact (booked_start_is_not_offered_again
           Case.one_free_slot Case.one_free_slot Sample.ten Sample.half_past_ten
           (Sample.ten + Calendar.hour) 7 Sample.free_slot eq_refl eq_refl eq_refl).
Defined.

Lemma find_or_create_keeps_starts_unique_witness :
  unique_starts
    (snd (find_or_create_availability_slot Sample.ten Sample.half_past_ten
            Sample.empty_store)).
Proof.
  apply (find_or_create_keeps_starts_unique Sample.empty_store Sample.ten
           Sample.half_past_ten eq_refl eq_refl).
  constructor.
Defined.

Lemma cancel_appointment_false_after_cancelling_witness :
  exists w',
    cancel_appointment (VInt 2) (VInt 1) Case.slot_update_raises = (Ok false, w')
    /\ doctor_availability w' = [Sample.booked_slot].
Proof.
  destruct (cancel_appointment_false_after_cancelling Case.slot_update_raises
              (VInt 2) (VInt 1) eq_refl eq_refl eq_refl eq_refl) as (w' & H & _ & Hs).
  exists w'. split; [exact H | exact Hs].
Defined.

Lemma booking_context_round_trip_witness :
  exists w' stored,
    Main.store_booking_context Case.menus 7 Case.months_context Sample.bob_booked
    = (Ok tt, w')
    /\ patients w' = [stored]
    /\ Main.get_booking_context Case.menus stored w' = (Ok Case.months_context, w').
Proof.
  destruct (booking_context_round_trip Case.menus Sample.bob_booked 7 Case.months_context
              eq_refl eq_refl eq_refl ltac:(discriminate)) as (w' & H & Hrows).
  change (patients Sample.bob_booked) with [Sample.bob] in Hrows.
  destruct (patients w') as [|stored rest] eqn:Hp; [inversion Hrows|].
  destruct rest as [|other rest];
    [|exfalso; inversion Hrows as [|? ? ? ? _ Htail]; inversion Htail].
  exists w', stored. split; [exact H|]. split; [exact Hp|].
  inversion Hrows as [|? ? ? ? Hhead _]. apply Hhead.
Defined.

Lemma webhook_without_store_witness :
  exists w',
    Main.whatsapp_webhook Sample.offline "whatsapp:+1000000001" "hello" Case.no_client
    = (Ok [Say difficulties_reply], w').
Proof.
  destruct (webhook_without_store Sample.offline "whatsapp:+1000000001" "hello"
              Case.no_client (or_introl eq_refl)) as (w' & H & _).
  exists w'. exact H.
Defined.


Lemma choice_off_the_list_changes_nothing_witness :
  Main.cancellation_choice Case.menus Case.bob_at_menu "99" Sample.bob_booked
  = (Ok [Say "That's not a valid number. Please choose from the list above."],
     Sample.bob_booked).
Proof.
  exact (proj1 (proj1 (choice_off_the_list_changes_nothing Case.menus Case.bob_at_menu "99"
                         Sample.bob_booked
                         [appointment_row_value Sample.bobs_appointment] eq_refl)
                 eq_refl)).
Defined.


Lemma reschedule_choice_reply_ignores_outcome_witness :
  exists w',
    Main.reschedule_choice Case.menus Case.bob_at_menu "1" Case.no_client
    = (Ok [MonthMenu "Your old appointment is cancelled. Let's find a new time. Please choose a month:"
                     (Main.month_options Case.menus)], w')
    /\ w' = Case.no_client.
Proof.
  destruct (reschedule_choice_reply_ignores_outcome Case.menus Case.bob_at_menu "1"
              Case.no_client [Sample.bobs_appointment] 1 Sample.bobs_appointment
              eq_refl eq_refl ltac:(lia) eq_refl) as (w' & H & Hw).
  exists w'. split; [exact H | exact (Hw eq_refl)].
Defined.



Lemma time_selection_day_beyond_month_raises_witness :
  Main.time_selection Sample.offline Sample.bob_in_february "4 pm" Sample.february_store
  = (Raise ValueError, Sample.february_store).
Proof.
  apply (time_selection_day_beyond_month_raises Sample.offline Sample.bob_in_february "4 pm"
           Sample.february_store
           [("year", VInt 2027); ("month", VInt 2); ("day", VInt 30)]%string
           2027 2 30 16 0); try reflexivity.
Defined.


Lemma analyze_message_offline_intents_witness :
  exists analysis intent,
    Gemini.analyze_message Sample.offline "book appointment" None false Sample.empty_store
    = (Ok analysis, Sample.empty_store)
    /\ intent_of analysis = Some intent
    /\ ~ In intent flow_intents.
Proof.
  destruct (analyze_message_offline_intents Sample.offline "book appointment" None false
              Sample.empty_store (or_introl eq_refl)) as [Hw Hout].
  destruct (Gemini.analyze_message Sample.offline "book appointment" None false
              Sample.empty_store) as [[analysis|e] w'].
  - cbn [fst snd] in Hw, Hout. destruct Hout as (intent & Hi & _ & Hn).
    exists analysis, intent. rewrite Hw. auto.
  - cbn [fst] in Hout. destruct Hout as (_ & Hage & _). discriminate Hage.
Defined.

Lemma no_flow_starts_without_classifier_witness :
  exists analysis intent,
    Gemini.analyze_message Sample.offline "book appointment" (Some "start"%string) false
                           Sample.bob_booked
    = (Ok analysis, Sample.bob_booked)
    /\ Py.get analysis "intent" (VStr "unknown") Sample.bob_booked
       = (Ok (VStr intent), Sample.bob_booked).
Proof.
  destruct (no_flow_starts_without_classifier Sample.offline Sample.bob "start"
              "+1000000001" "book appointment" Sample.bob_booked
              (or_introl eq_refl) (or_introl eq_refl))
    as (analysis & intent & H & Hi & _).
  exists analysis, intent. auto.
Defined.

Lemma whatsapp_bodies_within_limit_witness :
  Twilio.bodies Case.two_long_lines = [Str.repeat "a" 1000; Str.repeat "b" 1000]
  /\ Forall (fun body => String.length body <= Twilio.MAX_LENGTH)%nat
            (Twilio.bodies Case.two_long_lines).
Proof.
  split; [vm_compute; reflexivity|].
  apply (proj1 (whatsapp_bodies_within_limit Case.two_long_lines
                  ltac:(replace (Twilio.split_lines Case.two_long_lines)
                          with [Str.repeat "a" 1000; Str.repeat "b" 1000]
                          by (vm_compute; reflexivity);
                        repeat constructor; apply Nat.leb_le; vm_compute; reflexivity))).
Defined.


Lemma cancel_appointment_slot_failure_two_ways_witness :
  (exists w1,
     cancel_appointment (VInt 2) (VInt 1) (with_faults [Answer; NoData] Sample.bob_booked)
     = (Ok true, w1))
  /\ (exists w2,
        cancel_appointment (VInt 2) (VInt 1) Case.slot_update_raises = (Ok false, w2)
        /\ doctor_availability w2 = [Sample.booked_slot]).
Proof.
  destruct (cancel_appointment_slot_failure_two_ways Sample.bob_booked (VInt 2) (VInt 1)
              eq_refl eq_refl eq_refl) as [(w1 & H1 & _) (w2 & H2 & _ & Hs)].
  split; [exists w1; exact H1 | exists w2; split; [exact H2 | exact Hs]].
Defined.

